(** * V_Streamer: engagement counters, view tracking and ownership checks

    A shallow embedding of the Express route handlers of the V_Streamer
    backend (src/middleware/auth.middleware.js, src/routes/video.routes.js
    and the comment router) together with the properties the specification
    states about them.

    Modelling conventions.
    - A MongoDB collection is a finite map from document id to document.
      Identifiers ([ObjectId]s, compared in the handlers through
      [toString()]) are their hexadecimal strings.
    - A handler [async (req, res) => ...] is a function from the request
      and the store to the response sent and the store left behind.  The
      handlers are run one after the other.
    - [try { ... } catch (error) { res.status(500)... }] is the [Try]
      type: a collaborator that throws makes the handler answer 500.
    - [likes] and [dislikes] are JavaScript Numbers holding integers; they
      are integers of [Z] here. A Number holds the integers up to 2^53
      exactly, so the arithmetic of the handlers is the arithmetic of [Z]
      as long as the counters are safe integers; past that range [n + 1]
      is rounded. The properties that need an increment to take effect
      are stated for counters in the safe range.
    - Identifiers are taken to be well-formed. Mongoose casts the id given
      to [findById] and the fields of a filter to [ObjectId] and throws a
      [CastError] on a string that is not one, which the [catch] of the
      route answers with 500; the lookups here answer such a string as an
      unknown id. Properties whose answer depends on it name the id as
      stored, or ask for it to be 24 hexadecimal digits.
    - [req.body] is a map from field names to strings, as a form or a JSON
      object with string fields gives it. The route that adds a comment is
      modelled a second time over the values [bodyParser.json()] delivers
      ([JsonBody]), where its guard also meets [null], [false] and [0].
    - External collaborators (token verification, the media store, clock,
      id generation) are inputs: [jwt_verify] is fixed for the server, the
      others come with each call in an [Env].
    - The Mongoose schemas (models/video.model.js, models/comment.model.js)
      are not among the sources. The documents have the fields the routes,
      their API documentation and the README name; the validators of the
      Comment schema for [commentText] are a parameter of the comment
      router, and what is stated of a [save()] is stated for each of its
      two outcomes. *)

From Stdlib Require Import ZArith String Ascii List.
From stdpp Require Import gmap strings list fin_maps pretty sorting.

Local Open Scope Z_scope.
Local Open Scope string_scope.

(** ** Exceptions *)

(** The outcome of a call that may throw; [Throw] carries [error.message]. *)
Inductive Try (A : Type) : Type :=
| Ok (a : A)
| Throw (message : string).
Arguments Ok {A} a.
Arguments Throw {A} message.

(** ** HTTP values *)

Module Http.

(** The JSON values the handlers send with [res.json]: a stored document
    sent as it is (of type [D]), an array of them, or an object literal
    with string, number and document fields. *)
Inductive Value (D : Type) : Type :=
| VString (s : string)
| VNumber (n : Z)
| VDoc (d : D)
| VArray (l : list D).
Arguments VString {D} s.
Arguments VNumber {D} n.
Arguments VDoc {D} d.
Arguments VArray {D} l.

Inductive Json (D : Type) : Type :=
| JValue (v : Value D)
| JObject (fields : list (string * Value D)).
Arguments JValue {D} v.
Arguments JObject {D} fields.

(** What [res.status(code).json(value)] sends. *)
Record Response (D : Type) : Type := mkResponse {
  status : Z;
  json : Json D
}.
Arguments mkResponse {D} status json.
Arguments status {D} r.
Arguments json {D} r.

(** The payload the login route signs into the token, which
    [jwt.verify] gives back. *)
Record User : Type := mkUser {
  _id : string;
  channelName : string;
  email : string;
  phone : string;
  logoId : string
}.

(** The parts of an Express request the handlers read. [params], [body]
    and [files] are JavaScript objects used as maps; a missing key reads
    as [undefined], here [None]. [files] itself is [undefined] when the
    request carries no upload. [user] is attached by [checkAuth]. *)
Record Request : Type := mkRequest {
  authorization : option string;
  params : gmap string string;
  body : gmap string string;
  files : option (gmap string string);
  user : option User
}.

Definition with_user (req : Request) (u : User) : Request :=
  {| authorization := authorization req;
     params := params req;
     body := body req;
     files := files req;
     user := Some u |}.

End Http.
Import Http.

(** ** JavaScript string helpers *)

(** [s.split(sep)] for a one-character separator; [cur] is the piece being
    read. *)
Fixpoint split_from (sep : ascii) (cur s : string) : list string :=
  match s with
  | EmptyString => [cur]
  | String c rest =>
      if Ascii.eqb c sep then cur :: split_from sep "" rest
      else split_from sep (cur +:+ String c "") rest
  end.

Definition split (sep : ascii) (s : string) : list string :=
  split_from sep "" s.

(** JavaScript truthiness of a possibly undefined string:
    [undefined] and the empty string are falsy. *)
Definition truthy (o : option string) : bool :=
  match o with
  | None => false
  | Some s => negb (String.eqb s "")
  end.

(** [a || b] on possibly undefined strings. *)
Definition or_else (a b : option string) : option string :=
  if truthy a then a else b.

(** ** JavaScript Numbers *)

(** [Number.MAX_SAFE_INTEGER], 2^53 - 1. Every integer from -2^53 to 2^53
    is a Number, so on a safe integer [n + 1] and [n - 1] are the integer
    operations. Past the range the result is rounded: 2^53 + 1 is 2^53
    again. *)
Definition MAX_SAFE_INTEGER : Z := 2 ^ 53 - 1.

(** [Number.isSafeInteger(n)] for an integer [n]. *)
Definition isSafeInteger (n : Z) : Prop :=
  - MAX_SAFE_INTEGER <= n <= MAX_SAFE_INTEGER.

(** ** src/middleware/auth.middleware.js *)

Section Auth.

(** [jwt.verify(token, process.env.JWT_TOKEN)]: the decoded payload, or
    the exception of a token that fails verification. *)
Variable jwt_verify : string -> Try User.

(** [req.headers.authorization?.split(" ")[1]] *)
Definition bearer_token (req : Request) : option string :=
  match authorization req with
  | None => None
  | Some h => split " "%char h !! 1%nat
  end.

(** [checkAuth]: either a response is sent and the chain stops ([inl]),
    or [next()] runs the handler on the request with [req.user] set. *)
Definition checkAuth {D : Type} (req : Request) : Response D + Request :=
  match bearer_token req with
  | None =>
      inl (mkResponse 401 (JObject [("error", VString "No Token Is Provided")]))
  | Some token =>
      if String.eqb token "" then
        inl (mkResponse 401 (JObject [("error", VString "No Token Is Provided")]))
      else
        match jwt_verify token with
        | Ok decodedUser => inr (with_user req decodedUser)
        | Throw message =>
            inl (mkResponse 500
                   (JObject [("error", VString "something is wrong in auth");
                             ("message", VString message)]))
        end
  end.

(** [router.METHOD(path, checkAuth, handler)] *)
Definition authenticated {D S : Type}
    (handler : Request -> S -> Response D * S)
    (req : Request) (s : S) : Response D * S :=
  match checkAuth req with
  | inl r => (r, s)
  | inr req' => handler req' s
  end.

End Auth.

(** ** The stored documents *)

(** The Video document, with the fields the routes read and write and
    those the API documentation and the README list for the model. Fields
    the handlers test for truthiness may be [undefined]. [updatedAt],
    which the API documentation lists beside [createdAt] and which no
    route reads, is left out: whether [save()] rewrites it is up to the
    [timestamps] option of the schema. *)
Module VideoModel.

Record Video : Type := mkVideo {
  _id : string;
  title : option string;
  description : option string;
  user_id : string;
  videoUrl : string;
  videoId : option string;
  thumbnailUrl : string;
  thumbnailId : option string;
  category : option string;
  tags : list string;
  likes : Z;
  dislikes : Z;
  views : Z;
  likedBy : list string;
  disLikedBy : list string;
  viewedBy : list string;
  createdAt : Z
}.

End VideoModel.

(** The Comment document. [commentText] is [undefined] once the update
    route has stored a request without it. [updatedAt] is left out, as
    for the Video. *)
Module CommentModel.

Record Comment : Type := mkComment {
  _id : string;
  video_id : string;
  commentText : option string;
  user_id : string;
  createdAt : Z
}.

End CommentModel.

(** The two collections the video and comment routers work on. *)
Record DB : Type := mkDB {
  videos : gmap string VideoModel.Video;
  comments : gmap string CommentModel.Comment
}.

(** [Model.findById(id)]: [null] for an [undefined] or unknown id. The id
    is taken to be well-formed: for a string that is no [ObjectId]
    Mongoose throws a [CastError] instead. *)
Definition findById {A : Type} (id : option string) (coll : gmap string A)
  : option A :=
  match id with
  | Some i => coll !! i
  | None => None
  end.

(** The update operator [$addToSet] of the store: the value is appended to
    the array unless the array has it already. *)
Definition addToSet (x : string) (l : list string) : list string :=
  if decide (x ∈ l) then l else l ++ [x].

(** What the media store answers to an upload. *)
Record Asset : Type := mkAsset {
  secure_url : string;
  public_id : string
}.

(** The options object given to [cloudinary.uploader.upload]. *)
Record UploadOptions : Type := mkUploadOptions {
  opt_resource_type : option string;
  opt_folder : string;
  opt_public_id : string
}.

(** What a call of a handler observes of the outside world: the id
    [new mongoose.Types.ObjectId()] makes, the successive readings of the
    clock, and the answers of the media store. *)
Record Env : Type := mkEnv {
  ObjectId_new : string;
  Date_now : nat -> Z;
  cloudinary_upload : string -> UploadOptions -> Try Asset;
  cloudinary_destroy : string -> option string -> Try unit
}.

(** The 500 answer of the [catch] blocks of the routers. *)
Definition caught {D : Type} (error message : string) : Response D :=
  mkResponse 500 (JObject [("error", VString error); ("message", VString message)]).

(** [error.message] of the TypeError of reading a property of [undefined]. *)
Definition TypeError_undefined (prop : string) : string :=
  "Cannot read properties of undefined (reading '" +:+ prop +:+ "')".

(** Sequencing of calls that may throw, as inside a [try] block. *)
Definition try_bind {A B : Type} (k : A -> Try B) (t : Try A) : Try B :=
  match t with
  | Ok a => k a
  | Throw message => Throw message
  end.

#[global] Instance Try_mbind : MBind Try := @try_bind.
#[global] Instance Try_mret : MRet Try := @Ok.

(** ** src/routes/video.routes.js *)

Module VideoRoutes.
Import VideoModel.

Definition set_videos (db : DB) (vs : gmap string Video) : DB :=
  {| videos := vs; comments := comments db |}.

(** [video.save()] of a document read from the store. *)
Definition save (video : Video) (db : DB) : DB :=
  set_videos db (<[_id video := video]> (videos db)).

(** [newVideo.save()] of a new document: the store refuses a second
    document with an [_id] it already has. *)
Definition save_new (video : Video) (db : DB) : Try DB :=
  match videos db !! _id video with
  | Some _ => Throw "E11000 duplicate key error"
  | None => Ok (save video db)
  end.

(** [Video.findByIdAndDelete(id)] *)
Definition findByIdAndDelete (id : option string) (db : DB) : DB :=
  match id with
  | Some i => set_videos db (delete i (videos db))
  | None => db
  end.

(** The order of [.sort({ createdAt: -1 })]. *)
Definition newer_first (a b : Video) : Prop := createdAt b <= createdAt a.

#[global] Instance newer_first_dec (a b : Video) : Decision (newer_first a b).
Proof. unfold newer_first. apply _. Defined.

(** [Video.find(filter).sort({ createdAt: -1 })] *)
Definition find_sorted (filter : Video -> bool) (db : DB) : list Video :=
  merge_sort newer_first
    (List.filter filter (snd <$> map_to_list (videos db))).

(** Assignments to the fields of a document in memory. *)
Definition set_likes (v : Video) (n : Z) : Video :=
  mkVideo (_id v) (title v) (description v) (user_id v) (videoUrl v)
    (videoId v) (thumbnailUrl v) (thumbnailId v) (category v) (tags v)
    n (dislikes v) (views v) (likedBy v) (disLikedBy v) (viewedBy v)
    (createdAt v).

Definition set_dislikes (v : Video) (n : Z) : Video :=
  mkVideo (_id v) (title v) (description v) (user_id v) (videoUrl v)
    (videoId v) (thumbnailUrl v) (thumbnailId v) (category v) (tags v)
    (likes v) n (views v) (likedBy v) (disLikedBy v) (viewedBy v)
    (createdAt v).

Definition set_viewedBy (v : Video) (l : list string) : Video :=
  mkVideo (_id v) (title v) (description v) (user_id v) (videoUrl v)
    (videoId v) (thumbnailUrl v) (thumbnailId v) (category v) (tags v)
    (likes v) (dislikes v) (views v) (likedBy v) (disLikedBy v) l
    (createdAt v).

Definition set_thumbnail (v : Video) (url : string) (id : option string)
  : Video :=
  mkVideo (_id v) (title v) (description v) (user_id v) (videoUrl v)
    (videoId v) url id (category v) (tags v)
    (likes v) (dislikes v) (views v) (likedBy v) (disLikedBy v) (viewedBy v)
    (createdAt v).

Definition set_metadata (v : Video)
    (title' description' category' : option string) (tags' : list string)
  : Video :=
  mkVideo (_id v) title' description' (user_id v) (videoUrl v)
    (videoId v) (thumbnailUrl v) (thumbnailId v) category' tags'
    (likes v) (dislikes v) (views v) (likedBy v) (disLikedBy v) (viewedBy v)
    (createdAt v).

(** Modelled from the spec: the defaults of the Video schema
    (models/video.model.js is not among the sources); a video is created
    with its counts at 0 and its sets empty. *)
Definition new_Video (id : string) (title description : option string)
    (user_id videoUrl : string) (videoId : option string)
    (thumbnailUrl : string) (thumbnailId : option string)
    (category : option string) (tags : list string) (created : Z) : Video :=
  mkVideo id title description user_id videoUrl videoId thumbnailUrl
    thumbnailId category tags 0 0 0 [] [] [] created.

Definition error {D : Type} (code : Z) (text : string) : Response D :=
  mkResponse code (JObject [("error", VString text)]).

(** [req.user._id]; reading it throws when [req.user] is undefined. *)
Definition req_user_id (req : Request) : Try string :=
  match user req with
  | Some u => Ok (Http._id u)
  | None => Throw (TypeError_undefined "_id")
  end.

(** [tags ? tags.split(",") : otherwise] *)
Definition split_tags (tags : option string) (otherwise : list string)
  : list string :=
  match tags with
  | Some t => if truthy tags then split ","%char t else otherwise
  | None => otherwise
  end.

(** [router.post("/upload", checkAuth, ...)] after [checkAuth]. *)
Definition upload (env : Env) (req : Request) (db : DB)
  : Response Video * DB :=
  let title := body req !! "title" in
  let description := body req !! "description" in
  let category := body req !! "category" in
  let tags := body req !! "tags" in
  match files req with
  | None => (error 400 "Video and thumbnail are required", db)
  | Some fs =>
      match fs !! "video", fs !! "thumbnail" with
      | Some video, Some thumbnail =>
          let attempt :=
            videoUpload ← cloudinary_upload env video
              (mkUploadOptions (Some "video") "videos"
                 ("video_" +:+ pretty (Date_now env 0%nat)));
            thumbnailUpload ← cloudinary_upload env thumbnail
              (mkUploadOptions None "thumbnails"
                 ("thumbnail_" +:+ pretty (Date_now env 1%nat)));
            uid ← req_user_id req;
            let newVideo :=
              new_Video (ObjectId_new env) title description uid
                (secure_url videoUpload) (Some (public_id videoUpload))
                (secure_url thumbnailUpload)
                (Some (public_id thumbnailUpload))
                category (split_tags tags []) (Date_now env 2%nat) in
            db' ← save_new newVideo db;
            Ok (newVideo, db') in
          match attempt with
          | Ok (newVideo, db') =>
              (mkResponse 200
                 (JObject [("message", VString "Video uploaded successfully");
                           ("video", VDoc newVideo)]), db')
          | Throw message => (caught "Something went wrong" message, db)
          end
      | _, _ => (error 400 "Video and thumbnail are required", db)
      end
  end.

(** [if (id) { await cloudinary.uploader.destroy(id, options); }] *)
Definition destroy_if (env : Env) (id resource_type : option string)
  : Try unit :=
  match id with
  | Some i =>
      if truthy id then cloudinary_destroy env i resource_type else Ok tt
  | None => Ok tt
  end.

(** The thumbnail replacement inside the update handler. *)
Definition replace_thumbnail (env : Env) (req : Request) (video : Video)
  : Try Video :=
  match files req with
  | None => Ok video
  | Some fs =>
      match fs !! "thumbnail" with
      | None => Ok video
      | Some thumbnail =>
          destroy_if env (thumbnailId video) None;;
          thumbnailUpload ← cloudinary_upload env thumbnail
            (mkUploadOptions None "thumbnails"
               ("thumbnail_" +:+ pretty (Date_now env 0%nat)));
          Ok (set_thumbnail video (secure_url thumbnailUpload)
                (Some (public_id thumbnailUpload)))
      end
  end.

(** [router.put("/update/:id", checkAuth, ...)] after [checkAuth]. *)
Definition update (env : Env) (req : Request) (db : DB)
  : Response Video * DB :=
  let title' := body req !! "title" in
  let description' := body req !! "description" in
  let category' := body req !! "category" in
  let tags' := body req !! "tags" in
  let videoId := params req !! "id" in
  match findById videoId (videos db) with
  | None => (error 404 "Video not found", db)
  | Some video =>
      match req_user_id req with
      | Throw message => (caught "Something went wrong" message, db)
      | Ok uid =>
          if negb (String.eqb (user_id video) uid) then
            (error 403 "Unauthorized", db)
          else
            match replace_thumbnail env req video with
            | Throw message => (caught "Something went wrong" message, db)
            | Ok video1 =>
                let video2 :=
                  set_metadata video1
                    (or_else title' (title video1))
                    (or_else description' (description video1))
                    (or_else category' (category video1))
                    (split_tags tags' (tags video1)) in
                (mkResponse 200
                   (JObject [("message", VString "Video updated successfully");
                             ("video", VDoc video2)]),
                 save video2 db)
            end
      end
  end.

(** [router.delete("/delete/:id", checkAuth, ...)] after [checkAuth]. *)
Definition delete_video (env : Env) (req : Request) (db : DB)
  : Response Video * DB :=
  let videoId := params req !! "id" in
  match findById videoId (videos db) with
  | None => (error 404 "Video not found", db)
  | Some video =>
      match req_user_id req with
      | Throw message => (caught "Something went wrong" message, db)
      | Ok uid =>
          if negb (String.eqb (user_id video) uid) then
            (error 403 "Unauthorized", db)
          else
            match destroy_if env (VideoModel.videoId video) (Some "video");;
                  destroy_if env (thumbnailId video) None with
            | Throw message => (caught "Something went wrong" message, db)
            | Ok _ =>
                (mkResponse 200
                   (JObject [("message", VString "Video deleted successfully")]),
                 findByIdAndDelete videoId db)
            end
      end
  end.

(** [router.get("/all", ...)] *)
Definition all (req : Request) (db : DB) : Response Video * DB :=
  (mkResponse 200 (JValue (VArray (find_sorted (fun _ => true) db))), db).

(** [router.get("/my-videos", checkAuth, ...)] after [checkAuth]. *)
Definition my_videos (req : Request) (db : DB) : Response Video * DB :=
  match req_user_id req with
  | Throw message => (caught "Something went wrong" message, db)
  | Ok uid =>
      (mkResponse 200
         (JValue (VArray (find_sorted (fun v => String.eqb (user_id v) uid) db))),
       db)
  end.

(** [Video.findByIdAndUpdate(id, { $addToSet: { viewedBy: userId } },
    { new: true })]: the updated document, or [null]. *)
Definition findByIdAndUpdate_viewedBy (id : option string) (userId : string)
    (db : DB) : option Video * DB :=
  match findById id (videos db) with
  | None => (None, db)
  | Some video =>
      let video' := set_viewedBy video (addToSet userId (viewedBy video)) in
      (Some video', save video' db)
  end.

(** [router.get("/:id", checkAuth, ...)] after [checkAuth]. *)
Definition get_by_id (req : Request) (db : DB) : Response Video * DB :=
  let videoId := params req !! "id" in
  match req_user_id req with
  | Throw message => (caught "Something went wrong" message, db)
  | Ok userId =>
      match findByIdAndUpdate_viewedBy videoId userId db with
      | (None, db') => (error 404 "Video not found", db')
      | (Some video, db') => (mkResponse 200 (JValue (VDoc video)), db')
      end
  end.

(** [router.get("/category/:category", ...)] *)
Definition by_category (req : Request) (db : DB) : Response Video * DB :=
  let category' := params req !! "category" in
  (mkResponse 200
     (JValue (VArray
        (find_sorted (fun v => bool_decide (category v = category')) db))),
   db).

(** [router.get("/tags/:tag", ...)] *)
Definition by_tag (req : Request) (db : DB) : Response Video * DB :=
  let tag := params req !! "tag" in
  (mkResponse 200
     (JValue (VArray
        (find_sorted
           (fun v => match tag with
                     | Some t => bool_decide (t ∈ tags v)
                     | None => false
                     end) db))),
   db).

(** [router.post("/like", checkAuth, ...)] after [checkAuth]. *)
Definition like (req : Request) (db : DB) : Response Video * DB :=
  let videoId := body req !! "videoId" in
  match findById videoId (videos db) with
  | None => (error 404 "Video not found", db)
  | Some video =>
      let video1 := set_likes video (likes video + 1) in
      let video2 :=
        if dislikes video1 >? 0
        then set_dislikes video1 (dislikes video1 - 1)
        else video1 in
      (mkResponse 200
         (JObject [("message", VString "Video liked");
                   ("likes", VNumber (likes video2));
                   ("dislikes", VNumber (dislikes video2))]),
       save video2 db)
  end.

(** [router.post("/dislike", checkAuth, ...)] after [checkAuth]. *)
Definition dislike (req : Request) (db : DB) : Response Video * DB :=
  let videoId := body req !! "videoId" in
  match findById videoId (videos db) with
  | None => (error 404 "Video not found", db)
  | Some video =>
      let video1 := set_dislikes video (dislikes video + 1) in
      let video2 :=
        if likes video1 >? 0
        then set_likes video1 (likes video1 - 1)
        else video1 in
      (mkResponse 200
         (JObject [("message", VString "Video disliked");
                   ("likes", VNumber (likes video2));
                   ("dislikes", VNumber (dislikes video2))]),
       save video2 db)
  end.

(** The routes of the router. *)
Inductive Route : Type :=
| POST_upload
| PUT_update
| DELETE_delete
| GET_all
| GET_my_videos
| GET_id
| GET_category
| GET_tags
| POST_like
| POST_dislike.

Section Router.

Variable jwt_verify : string -> Try User.

(** The router: each route with the middleware it is registered with. *)
Definition router (route : Route) (env : Env) (req : Request) (db : DB)
  : Response Video * DB :=
  match route with
  | POST_upload => authenticated jwt_verify (upload env) req db
  | PUT_update => authenticated jwt_verify (update env) req db
  | DELETE_delete => authenticated jwt_verify (delete_video env) req db
  | GET_all => all req db
  | GET_my_videos => authenticated jwt_verify my_videos req db
  | GET_id => authenticated jwt_verify get_by_id req db
  | GET_category => by_category req db
  | GET_tags => by_tag req db
  | POST_like => authenticated jwt_verify like req db
  | POST_dislike => authenticated jwt_verify dislike req db
  end.

End Router.

End VideoRoutes.

(** ** The comment router (second part of src/middleware/auth.middleware.js) *)

Module CommentRoutes.
Import CommentModel.

Definition set_comments (db : DB) (cs : gmap string Comment) : DB :=
  {| videos := videos db; comments := cs |}.

Definition set_commentText (c : Comment) (text : option string) : Comment :=
  mkComment (_id c) (video_id c) text (user_id c) (createdAt c).

Definition error {D : Type} (code : Z) (text : string) : Response D :=
  mkResponse code (JObject [("error", VString text)]).

(** [req.user._id]; reading it throws when [req.user] is undefined. *)
Definition req_user_id (req : Request) : Try string :=
  match user req with
  | Some u => Ok (Http._id u)
  | None => Throw (TypeError_undefined "_id")
  end.

(** The order of [.sort({ createdAt: -1 })]. *)
Definition newer_first (a b : Comment) : Prop := createdAt b <= createdAt a.

#[global] Instance newer_first_dec (a b : Comment) : Decision (newer_first a b).
Proof. unfold newer_first. apply _. Defined.

Section Router.

Variable jwt_verify : string -> Try User.

(** The validators the Comment schema declares for [commentText], run by
    [save()]. The schema (models/comment.model.js) is not among the
    sources, so they are a parameter: [Throw] is a validation error. *)
Variable commentText_validator : option string -> Try unit.

(** [comment.save()] *)
Definition save (comment : Comment) (db : DB) : Try DB :=
  commentText_validator (commentText comment);;
  Ok (set_comments db (<[_id comment := comment]> (comments db))).

(** [newComment.save()] of a new document: the store refuses a second
    document with an [_id] it already has. *)
Definition save_new (comment : Comment) (db : DB) : Try DB :=
  commentText_validator (commentText comment);;
  match comments db !! _id comment with
  | Some _ => Throw "E11000 duplicate key error"
  | None => Ok (set_comments db (<[_id comment := comment]> (comments db)))
  end.

(** [Comment.findByIdAndDelete(id)] *)
Definition findByIdAndDelete (id : option string) (db : DB) : DB :=
  match id with
  | Some i => set_comments db (delete i (comments db))
  | None => db
  end.

(** [router.post("/new", checkAuth, ...)] after [checkAuth]. *)
Definition new (env : Env) (req : Request) (db : DB)
  : Response Comment * DB :=
  let video_id' := body req !! "video_id" in
  let commentText' := body req !! "commentText" in
  match video_id' with
  | Some vid =>
      if negb (truthy video_id') || negb (truthy commentText') then
        (error 400 "Video ID and Comment Text are required", db)
      else
        let attempt :=
          uid ← req_user_id req;
          let newComment :=
            mkComment (ObjectId_new env) vid commentText' uid
              (Date_now env 0%nat) in
          db' ← save_new newComment db;
          Ok (newComment, db') in
        match attempt with
        | Ok (newComment, db') =>
            (mkResponse 201
               (JObject [("message", VString "Comment Added Successfully");
                         ("comment", VDoc newComment)]), db')
        | Throw message => (caught "something went wrong" message, db)
        end
  | None => (error 400 "Video ID and Comment Text are required", db)
  end.

(** [router.delete("/:commentId", checkAuth, ...)] after [checkAuth]. *)
Definition delete_comment (req : Request) (db : DB) : Response Comment * DB :=
  let commentId := params req !! "commentId" in
  match findById commentId (comments db) with
  | None => (error 404 "Comment not found", db)
  | Some comment =>
      match req_user_id req with
      | Throw message => (caught "something went wrong" message, db)
      | Ok uid =>
          if negb (String.eqb (user_id comment) uid) then
            (error 403 "Unauthorized to delete this comment", db)
          else
            (mkResponse 200
               (JObject [("message", VString "Comment Deleted Successfully")]),
             findByIdAndDelete commentId db)
      end
  end.

(** [router.put("/:commentId", checkAuth, ...)] after [checkAuth]. *)
Definition put_comment (req : Request) (db : DB) : Response Comment * DB :=
  let commentId := params req !! "commentId" in
  let commentText' := body req !! "commentText" in
  match findById commentId (comments db) with
  | None => (error 401 "Comment not found", db)
  | Some comment =>
      match req_user_id req with
      | Throw message => (caught "something went wrong" message, db)
      | Ok uid =>
          if negb (String.eqb (user_id comment) uid) then
            (error 403 "Unauthorized to delete this comment", db)
          else
            let comment' := set_commentText comment commentText' in
            match save comment' db with
            | Throw message => (caught "something went wrong" message, db)
            | Ok db' =>
                (mkResponse 200
                   (JObject [("message", VString "Comment updated successfully");
                             ("comment", VDoc comment')]), db')
            end
      end
  end.

(** [router.get("/:videoId", checkAuth, ...)] after [checkAuth]. The
    comments are sent with the id of their author: [populate], which joins
    the author's channel name and logo from the users collection into the
    body sent, is left out. The [videoId] of the path is taken to be
    well-formed: the filter casts it to the [ObjectId] the README gives
    [video_id] as, and throws a [CastError] otherwise. *)
Definition get_comments (req : Request) (db : DB) : Response Comment * DB :=
  let videoId := params req !! "videoId" in
  (mkResponse 200
     (JObject
        [("comments",
          VArray (merge_sort newer_first
                    (List.filter
                       (fun c => bool_decide (Some (video_id c) = videoId))
                       (snd <$> map_to_list (comments db)))))]),
   db).

(** The routes of the router. *)
Inductive Route : Type :=
| POST_new
| DELETE_commentId
| PUT_commentId
| GET_videoId.

(** The router: every route is registered behind [checkAuth]. *)
Definition router (route : Route) (env : Env) (req : Request) (db : DB)
  : Response Comment * DB :=
  match route with
  | POST_new => authenticated jwt_verify (new env) req db
  | DELETE_commentId => authenticated jwt_verify delete_comment req db
  | PUT_commentId => authenticated jwt_verify put_comment req db
  | GET_videoId => authenticated jwt_verify get_comments req db
  end.

End Router.

End CommentRoutes.

(** ** The server: both routers over one store *)

Section Server.

Variable jwt_verify : string -> Try User.
Variable commentText_validator : option string -> Try unit.

(** A route of one of the two routers mounted by src/index.js. The user
    router works on the users collection only and is not part of this
    model. *)
Inductive Endpoint : Type :=
| VideoEndpoint (route : VideoRoutes.Route)
| CommentEndpoint (route : CommentRoutes.Route).

(** One request served: where it goes, what it carries, and what the
    handler observes of the outside world while serving it. *)
Record Event : Type := mkEvent {
  endpoint : Endpoint;
  env : Env;
  request : Request
}.

(** The status answered and the store left behind. *)
Definition serve (e : Event) (db : DB) : Z * DB :=
  match endpoint e with
  | VideoEndpoint route =>
      let '(res, db') := VideoRoutes.router jwt_verify route (env e) (request e) db in
      (status res, db')
  | CommentEndpoint route =>
      let '(res, db') :=
        CommentRoutes.router jwt_verify commentText_validator route
          (env e) (request e) db in
      (status res, db')
  end.

(** The store after a sequence of requests, served in order. *)
Definition run (es : list Event) (db : DB) : DB :=
  foldl (fun d e => snd (serve e d)) db es.

End Server.

(** The routes registered behind [checkAuth]. *)
Definition behind_checkAuth (e : Endpoint) : bool :=
  match e with
  | VideoEndpoint VideoRoutes.GET_all
  | VideoEndpoint VideoRoutes.GET_category
  | VideoEndpoint VideoRoutes.GET_tags => false
  | _ => true
  end.

(** The routes that edit or delete a video or a comment. *)
Definition mutating (e : Endpoint) : bool :=
  match e with
  | VideoEndpoint VideoRoutes.PUT_update
  | VideoEndpoint VideoRoutes.DELETE_delete
  | CommentEndpoint CommentRoutes.PUT_commentId
  | CommentEndpoint CommentRoutes.DELETE_commentId => true
  | _ => false
  end.

(** The owner of the resource a mutating request names, when the resource
    is stored: [video.user_id] or [comment.user_id]. *)
Definition ownerOf (e : Endpoint) (req : Request) (db : DB) : option string :=
  match e with
  | VideoEndpoint _ =>
      VideoModel.user_id <$> findById (params req !! "id") (videos db)
  | CommentEndpoint _ =>
      CommentModel.user_id <$> findById (params req !! "commentId") (comments db)
  end.

(** ** The store invariant: documents are stored under their [_id] *)

Definition keyed_videos (db : DB) : Prop :=
  map_Forall (fun k v => VideoModel._id v = k) (videos db).

Definition keyed_comments (db : DB) : Prop :=
  map_Forall (fun k c => CommentModel._id c = k) (comments db).

(** ** The engagement ledger of the specification *)

(** The ledger as the specification words it (section 4.1): a reaction per
    user and two counts, updated by the transition table. The routes keep
    no such map; this is the reference the counters of the routes are
    compared with. *)
Module Ledger.

Inductive Reaction : Type := Liked | Disliked.

#[global] Instance Reaction_eq_dec : EqDecision Reaction.
Proof. solve_decision. Defined.

(** A user without an entry in [reactionsByUser] is in state None. *)
Record Ledger : Type := mkLedger {
  reactionsByUser : gmap string Reaction;
  likeCount : Z;
  dislikeCount : Z
}.

(** Created on upload: counts = 0, empty sets. *)
Definition created : Ledger := mkLedger ∅ 0 0.

(** The transition table of [recordReaction]. *)
Definition recordReaction (l : Ledger) (user : string) (desired : Reaction)
  : Ledger :=
  match reactionsByUser l !! user, desired with
  | None, Liked =>
      mkLedger (<[user := Liked]> (reactionsByUser l))
        (likeCount l + 1) (dislikeCount l)
  | None, Disliked =>
      mkLedger (<[user := Disliked]> (reactionsByUser l))
        (likeCount l) (dislikeCount l + 1)
  | Some Liked, Liked => l
  | Some Liked, Disliked =>
      mkLedger (<[user := Disliked]> (reactionsByUser l))
        (likeCount l - 1) (dislikeCount l + 1)
  | Some Disliked, Liked =>
      mkLedger (<[user := Liked]> (reactionsByUser l))
        (likeCount l + 1) (dislikeCount l - 1)
  | Some Disliked, Disliked => l
  end.

(** [|{u : reactionsByUser[u] == r}|] *)
Definition reactors (r : Reaction) (m : gmap string Reaction) : Z :=
  Z.of_nat (size (filter (fun kv => kv.2 = r) m)).

End Ledger.

(** ** Reactions as calls of the like and dislike routes *)

Module Reactions.
Import VideoModel VideoRoutes.
Export Ledger.

(** [(likes, dislikes)] of the video stored under [id]. *)
Definition counts_of (db : DB) (id : string) : option (Z * Z) :=
  match videos db !! id with
  | Some v => Some (likes v, dislikes v)
  | None => None
  end.

(** [if (n > 0) { n -= 1; }] *)
Definition decrement_if_positive (n : Z) : Z :=
  if n >? 0 then n - 1 else n.

(** The document the like handler saves: [video.likes += 1], and
    [video.dislikes -= 1] when it is positive. *)
Definition liked (v : Video) : Video :=
  set_dislikes (set_likes v (likes v + 1))
    (decrement_if_positive (dislikes v)).

(** The document the dislike handler saves. *)
Definition disliked (v : Video) : Video :=
  set_likes (set_dislikes v (dislikes v + 1))
    (decrement_if_positive (likes v)).

(** The body of the 200 answer of the two handlers. *)
Definition counts_body (message : string) (v : Video) : Json Video :=
  JObject [("message", VString message);
           ("likes", VNumber (likes v));
           ("dislikes", VNumber (dislikes v))].

(** The request of user [u] for video [videoId] as it reaches the like or
    dislike handler: [checkAuth] has set [req.user]. *)
Definition reaction_request (u : User) (videoId : string) : Request :=
  mkRequest None ∅ {["videoId" := videoId]} None (Some u).

(** [recordReaction(video, user, desired)] on the routes: a call of
    POST /like or POST /dislike by [who]. *)
Record Reacting : Type := mkReacting {
  who : User;
  desired : Reaction
}.

Definition react (videoId : string) (c : Reacting) (db : DB) : DB :=
  match desired c with
  | Liked => snd (like (reaction_request (who c) videoId) db)
  | Disliked => snd (dislike (reaction_request (who c) videoId) db)
  end.

Definition react_all (videoId : string) (cs : list Reacting) (db : DB) : DB :=
  foldl (fun d c => react videoId c d) db cs.

(** The reaction of every user after the calls, by the ledger of the
    specification started at [l]. *)
Definition ledger_after (l : Ledger) (cs : list Reacting) : Ledger :=
  foldl (fun l c => recordReaction l (Http._id (who c)) (desired c)) l cs.

(** The counts are the projection of the reactions [m] (invariant I2). *)
Definition projection (m : gmap string Reaction) (counts : option (Z * Z))
  : Prop :=
  counts = Some (reactors Liked m, reactors Disliked m).

Definition opposite (r : Reaction) : Reaction :=
  match r with
  | Liked => Disliked
  | Disliked => Liked
  end.

(** The calls on which the counters of the routes follow the reactions: the
    caller switches from the opposite reaction, or has no reaction yet
    while nobody holds the opposite one. *)
Definition switching (m : gmap string Reaction) (c : Reacting) : Prop :=
  match m !! Http._id (who c) with
  | Some r => r = opposite (desired c)
  | None => reactors (opposite (desired c)) m = 0
  end.

Fixpoint all_switching (m : gmap string Reaction) (cs : list Reacting)
  : Prop :=
  match cs with
  | [] => True
  | c :: cs' =>
      switching m c ∧
      all_switching (<[Http._id (who c) := desired c]> m) cs'
  end.

(** All fields but [likes] and [dislikes] agree. *)
Definition same_but_counts (v v' : Video) : Prop :=
  _id v' = _id v ∧ title v' = title v ∧ description v' = description v ∧
  user_id v' = user_id v ∧ videoUrl v' = videoUrl v ∧
  videoId v' = videoId v ∧ thumbnailUrl v' = thumbnailUrl v ∧
  thumbnailId v' = thumbnailId v ∧ category v' = category v ∧
  tags v' = tags v ∧ views v' = views v ∧ likedBy v' = likedBy v ∧
  disLikedBy v' = disLikedBy v ∧ viewedBy v' = viewedBy v ∧
  createdAt v' = createdAt v.

(** Every stored video has counters that are not negative. *)
Definition counters_nonneg (db : DB) : Prop :=
  map_Forall (fun _ v => 0 <= likes v ∧ 0 <= dislikes v) (videos db).

End Reactions.

(** ** Views *)

Module Views.
Import VideoModel VideoRoutes.

(** The video stored under [id] before is still stored after, and every
    member of its [viewedBy] is still a member. *)
Definition viewedBy_kept (db db' : DB) : Prop :=
  ∀ id v, videos db !! id = Some v ->
    ∃ v', videos db' !! id = Some v' ∧ viewedBy v ⊆ viewedBy v'.

(** A handler that keeps the store keyed and the views of every video. *)
Definition keeps_views {D : Type}
    (handler : Request -> DB -> Response D * DB) : Prop :=
  ∀ req db, keyed_videos db ->
    keyed_videos (snd (handler req db)) ∧
    viewedBy_kept db (snd (handler req db)).

(** The request asks the video router to delete the video [id]. *)
Definition deletes (id : string) (e : Event) : Prop :=
  endpoint e = VideoEndpoint DELETE_delete ∧
  params (request e) !! "id" = Some id.

End Views.

(** ** Sample data *)

Module Sample.
Import VideoModel VideoRoutes.

Definition A : User :=
  mkUser "64a000000000000000000001" "Channel A" "a@example.com" "100" "logoA".

Definition B : User :=
  mkUser "64a000000000000000000002" "Channel B" "b@example.com" "200" "logoB".

(** A video uploaded by [A], as the upload route creates it. *)
Definition V : Video :=
  new_Video "64b000000000000000000001" (Some "Title") (Some "Description")
    (Http._id A) "https://media/video.mp4" (Some "videos/video_1")
    "https://media/thumbnail.jpg" (Some "thumbnails/thumbnail_1")
    (Some "Gaming") ["action"] 1700000000000.

(** A comment written by [A] on [V]. *)
Definition K : CommentModel.Comment :=
  CommentModel.mkComment "64c000000000000000000001" (_id V)
    (Some "This video is great!") (Http._id A) 1700000000001.

Definition db0 : DB :=
  mkDB {[ _id V := V ]} {[ CommentModel._id K := K ]}.

(** A verifier that knows the tokens of [A] and [B] and refuses the rest. *)
Definition verify (token : string) : Try User :=
  if String.eqb token "tokenA" then Ok A
  else if String.eqb token "tokenB" then Ok B
  else Throw "jwt malformed".

(** A Comment schema without validators. *)
Definition no_validator (text : option string) : Try unit := Ok tt.


Definition request_of (token : option string)
    (params body : gmap string string) : Request :=
  mkRequest token params body None None.

(** [A] and [B] reacting to [V], and a caller with a token that does not
    verify. *)
Definition reactA : Request :=
  request_of (Some "Bearer tokenA") ∅ {["videoId" := _id V]}.

Definition reactB : Request :=
  request_of (Some "Bearer tokenB") ∅ {["videoId" := _id V]}.

Definition react_forged : Request :=
  request_of (Some "Bearer forged") ∅ {["videoId" := _id V]}.

(** [A] asking for [V]. *)
Definition viewA : Request :=
  request_of (Some "Bearer tokenA") {["id" := _id V]} ∅.

(** [A] updating a comment that is not stored, with a new text. *)
Definition update_missing_comment : Request :=
  request_of (Some "Bearer tokenA")
    {["commentId" := "64c0000000000000000000ff"]}
    {["commentText" := "Updated comment text"]}.


(** An outside world where the media store is down. *)
Definition offline : Env :=
  mkEnv "64d000000000000000000001" (fun _ => 1700000000002)
    (fun _ _ => Throw "ECONNREFUSED") (fun _ _ => Throw "ECONNREFUSED").

End Sample.

(** ** The user router (src/unnamed/part_001, which src/index.js mounts as
    ./routes/user.routes.js)

    It works on the users collection only, which the two other routers do
    not touch; it is modelled apart from them, over that collection. *)

Module UserModel.

(** The User document: the fields the signup route sets, and the two the
    login route sends back, typed as the API documentation of the router
    has them. The fields copied from the request body may be
    [undefined]. *)
Record UserDoc : Type := mkUserDoc {
  _id : string;
  channelName : option string;
  email : option string;
  password : string;
  phone : option string;
  logoUrl : string;
  logoId : string;
  subscribers : list string;
  subscribedChannels : list string
}.

End UserModel.

Module UserRoutes.
Import UserModel.

(** The object the login route signs into the token. *)
Record TokenPayload : Type := mkTokenPayload {
  payload_id : string;
  payload_channelName : option string;
  payload_email : option string;
  payload_phone : option string;
  payload_logoId : string
}.

(** The object the login route sends on success. *)
Record AuthResponse : Type := mkAuthResponse {
  auth_id : string;
  auth_channelName : option string;
  auth_email : option string;
  auth_phone : option string;
  auth_logoId : string;
  auth_logoUrl : string;
  auth_token : string;
  auth_subscribers : list string;
  auth_subscribedChannels : list string
}.

(** What the two routes send with [res.json]. *)
Inductive Body : Type :=
| SignedUp (user : UserDoc)
| LoggedIn (auth : AuthResponse)
| Message (message : string)
| Failed (error message : string).

(** What a call of a handler of this router observes of the outside world:
    the id made, the salted hash [bcrypt.hash(data, 10)] (it throws on
    [undefined]), the answer of the media store to
    [cloudinary.uploader.upload(path)], and the token
    [jwt.sign(payload, process.env.JWT_TOKEN, { expiresIn: "10d" })]. *)
Record UserEnv : Type := mkUserEnv {
  user_ObjectId_new : string;
  bcrypt_hash : option string -> Try string;
  logo_upload : string -> Try Asset;
  jwt_sign : TokenPayload -> string
}.

(** The users collection, in insertion order. *)
Definition Users : Type := list UserDoc.

Section Router.

(** [bcrypt.compare(data, encrypted)]; it throws on [undefined] data. *)
Variable bcrypt_compare : option string -> string -> Try bool.

(** The validators of the User schema, run by [save()], and the values the
    schema gives the fields the signup route does not set. The schema
    (models/user.model.js) is not among the sources. *)
Variable User_validator : UserDoc -> Try unit.
Variable default_subscribers : list string.
Variable default_subscribedChannels : list string.

(** What [User.findOne({ email: undefined })] answers; it depends on how
    the store treats an undefined filter value. *)
Variable findOne_undefined : Users -> option UserDoc.

(** [newUser.save()]: the validators run, then the store refuses a second
    document with the same [_id], or with the same [email] (the README
    declares [email] unique). *)
Definition save_new (user : UserDoc) (users : Users) : Try Users :=
  User_validator user;;
  if bool_decide (Exists (fun u => _id u = _id user ∨ email u = email user) users)
  then Throw "E11000 duplicate key error"
  else Ok (users ++ [user])%list.

(** [User.findOne({ email })]: the first user with that email. *)
Definition findOne_email (email' : option string) (users : Users)
  : option UserDoc :=
  match email' with
  | Some e => List.find (fun u => bool_decide (email u = Some e)) users
  | None => findOne_undefined users
  end.

(** [req.files.logoUrl.tempFilePath] *)
Definition logo_path (req : Request) : Try string :=
  match files req with
  | None => Throw (TypeError_undefined "logoUrl")
  | Some fs =>
      match fs !! "logoUrl" with
      | None => Throw (TypeError_undefined "tempFilePath")
      | Some path => Ok path
      end
  end.

(** [router.post("/signup", ...)] *)
Definition signup (env : UserEnv) (req : Request) (users : Users)
  : Z * Body * Users :=
  let attempt :=
    hashedPassword ← bcrypt_hash env (body req !! "password");
    path ← logo_path req;
    uploadImage ← logo_upload env path;
    let newUser :=
      mkUserDoc (user_ObjectId_new env) (body req !! "channelName")
        (body req !! "email") hashedPassword (body req !! "phone")
        (secure_url uploadImage) (public_id uploadImage)
        default_subscribers default_subscribedChannels in
    users' ← save_new newUser users;
    Ok (newUser, users') in
  match attempt with
  | Ok (user, users') => (201, SignedUp user, users')
  | Throw message => (500, Failed "something is wrong" message, users)
  end.

(** [router.post("/login", ...)] *)
Definition login (env : UserEnv) (req : Request) (users : Users)
  : Z * Body * Users :=
  match findOne_email (body req !! "email") users with
  | None => (404, Message "User Not Found", users)
  | Some existingUser =>
      match bcrypt_compare (body req !! "password") (password existingUser) with
      | Throw message => (500, Failed "something is wrong" message, users)
      | Ok isValid =>
          if negb isValid then (500, Message "Inavalid Credentials", users)
          else
            let token :=
              jwt_sign env
                (mkTokenPayload (_id existingUser) (channelName existingUser)
                   (email existingUser) (phone existingUser)
                   (logoId existingUser)) in
            (200,
             LoggedIn
               (mkAuthResponse (_id existingUser) (channelName existingUser)
                  (email existingUser) (phone existingUser)
                  (logoId existingUser) (logoUrl existingUser) token
                  (subscribers existingUser)
                  (subscribedChannels existingUser)),
             users)
      end
  end.

End Router.

End UserRoutes.

(** ** More helpers for the properties *)

(** Whether the character occurs in the string. *)
Fixpoint has_char (c : ascii) (s : string) : bool :=
  match s with
  | EmptyString => false
  | String c' rest => Ascii.eqb c' c || has_char c rest
  end.

(** [pieces.join(sep)] *)
Fixpoint join (sep : ascii) (pieces : list string) : string :=
  match pieces with
  | [] => ""
  | [p] => p
  | p :: rest => p +:+ String sep (join sep rest)
  end.

(** The documents of an array sent as the body, or as its [comments]
    field. *)
Definition listed {D : Type} (res : Response D) : list D :=
  match json res with
  | JValue (VArray l) => l
  | JObject [(_, VArray l)] => l
  | _ => []
  end.

(** The user [checkAuth] has attached to the request has the id [uid]. *)
Definition caller_is (req : Request) (uid : string) : Prop :=
  ∃ u, user req = Some u ∧ Http._id u = uid.

(** The request names the video [id]: in its path for the view, update and
    delete routes, in its body for the like and dislike routes. *)
Definition names_video (id : string) (e : Event) : Prop :=
  match endpoint e with
  | VideoEndpoint VideoRoutes.GET_id
  | VideoEndpoint VideoRoutes.PUT_update
  | VideoEndpoint VideoRoutes.DELETE_delete =>
      params (request e) !! "id" = Some id
  | VideoEndpoint VideoRoutes.POST_like
  | VideoEndpoint VideoRoutes.POST_dislike =>
      body (request e) !! "videoId" = Some id
  | _ => False
  end.

Module Evolution.
Import VideoModel.

(** The fields of a video that an update by its owner may change. *)
Definition same_metadata (v v' : Video) : Prop :=
  title v' = title v ∧ description v' = description v ∧
  category v' = category v ∧ tags v' = tags v ∧
  thumbnailUrl v' = thumbnailUrl v ∧ thumbnailId v' = thumbnailId v.

(** The fields of a video no route assigns after the upload. *)
Definition same_identity (v v' : Video) : Prop :=
  _id v' = _id v ∧ user_id v' = user_id v ∧ videoUrl v' = videoUrl v ∧
  videoId v' = videoId v ∧ views v' = views v ∧ likedBy v' = likedBy v ∧
  disLikedBy v' = disLikedBy v ∧ createdAt v' = createdAt v.

(** How a stored video may differ after requests have been served. *)
Definition evolves (v v' : Video) : Prop :=
  same_identity v v' ∧
  viewedBy v ⊆ viewedBy v' ∧
  (NoDup (viewedBy v) -> NoDup (viewedBy v')).

(** The request carries a token that verifies to the user [uid]. *)
Definition token_of (jwt_verify : string -> Try User) (e : Event)
    (uid : string) : Prop :=
  ∃ token u,
    bearer_token (request e) = Some token ∧
    jwt_verify token = Ok u ∧ Http._id u = uid.

(** What a handler may do to a stored video: it stays stored and evolves,
    with its metadata untouched unless the caller is its owner; or it is
    gone, and the caller is its owner. *)
Definition owner_guarded {D : Type}
    (handler : Request -> DB -> Response D * DB) : Prop :=
  ∀ req db id v,
    keyed_videos db ->
    videos db !! id = Some v ->
    (∃ v', videos (snd (handler req db)) !! id = Some v' ∧
           evolves v v' ∧
           (same_metadata v v' ∨ caller_is req (user_id v))) ∨
    (videos (snd (handler req db)) !! id = None ∧
     caller_is req (user_id v)).

End Evolution.



(** ** The route that adds a comment, over a parsed JSON body

    src/index.js installs [bodyParser.json()], so the fields of
    [req.body] are JSON values, not only strings. This is
    [router.post("/new", ...)] of the comment router once more, with the
    body as the parser delivers it. *)

Module JsonBody.
Import CommentModel.

Section Values.

(** The Numbers of a parsed body, and whether one is falsy: [0] and [-0]
    are (and [NaN], which no JSON text gives). *)
Variable Number : Type.
Variable Number_falsy : Number -> bool.

(** A value of a parsed body. *)
#[warnings="-register-all"]
Inductive BodyValue : Type :=
| BNull
| BBool (b : bool)
| BNumber (x : Number)
| BString (s : string)
| BArray (items : list BodyValue)
| BObject (fields : list (string * BodyValue)).

(** [Boolean(value)], what [!value] negates: a missing field
    ([undefined]), [null], [false], a falsy Number and the empty string are
    falsy; every other value is truthy, arrays and objects too. *)
Definition ToBoolean (value : option BodyValue) : bool :=
  match value with
  | None => false
  | Some BNull => false
  | Some (BBool b) => b
  | Some (BNumber x) => negb (Number_falsy x)
  | Some (BString s) => negb (String.eqb s "")
  | Some (BArray _) => true
  | Some (BObject _) => true
  end.

(** The falsy values, one by one. *)
Definition falsy (value : option BodyValue) : Prop :=
  value = None ∨ value = Some BNull ∨ value = Some (BBool false) ∨
  (∃ x, value = Some (BNumber x) ∧ Number_falsy x = true) ∨
  value = Some (BString "").

Variable commentText_validator : option string -> Try unit.

(** Mongoose casting the [video_id] and the [commentText] given to
    [new Comment({...})] to the types of the schema, which is not among
    the sources; a value that cannot be cast makes [save()] reject. *)
Variable cast_video_id : BodyValue -> Try string.
Variable cast_commentText : BodyValue -> Try string.

(** [router.post("/new", checkAuth, ...)] after [checkAuth], for the body
    [body] in the place of [req.body]. *)
Definition new (env : Env) (body : gmap string BodyValue) (req : Request)
    (db : DB) : Response Comment * DB :=
  let video_id' := body !! "video_id" in
  let commentText' := body !! "commentText" in
  match video_id', commentText' with
  | Some vid, Some text =>
      if negb (ToBoolean video_id') || negb (ToBoolean commentText') then
        (CommentRoutes.error 400 "Video ID and Comment Text are required", db)
      else
        let attempt :=
          uid ← CommentRoutes.req_user_id req;
          vid' ← cast_video_id vid;
          text' ← cast_commentText text;
          let newComment :=
            mkComment (ObjectId_new env) vid' (Some text') uid
              (Date_now env 0%nat) in
          db' ← CommentRoutes.save_new commentText_validator newComment db;
          Ok (newComment, db') in
        match attempt with
        | Ok (newComment, db') =>
            (mkResponse 201
               (JObject [("message", VString "Comment Added Successfully");
                         ("comment", VDoc newComment)]), db')
        | Throw message => (caught "something went wrong" message, db)
        end
  | _, _ =>
      (CommentRoutes.error 400 "Video ID and Comment Text are required", db)
  end.

End Values.

Arguments BNull {Number}.
Arguments BBool {Number} b.
Arguments BNumber {Number} x.
Arguments BString {Number} s.
Arguments BArray {Number} items.
Arguments BObject {Number} fields.
Arguments ToBoolean {Number} Number_falsy value.
Arguments falsy {Number} Number_falsy value.
Arguments new {Number} Number_falsy commentText_validator cast_video_id
  cast_commentText env body req db.

End JsonBody.

(** ** More sample data *)

Module Fixtures.
Import VideoModel VideoRoutes Sample.

(** An outside world where the media store answers. *)
Definition online : Env :=
  mkEnv "64b000000000000000000002" (fun _ => 1700000000003)
    (fun path options =>
       Ok (mkAsset ("https://media/" +:+ opt_public_id options)
             (opt_folder options +:+ "/" +:+ opt_public_id options)))
    (fun _ _ => Ok tt).

(** [A] uploading a video with two tags. *)
Definition uploadA : Request :=
  mkRequest (Some "Bearer tokenA") ∅
    {["title" := "Cats"; "description" := "Two cats";
      "category" := "Pets"; "tags" := "fun,comedy"]}
    (Some {["video" := "/tmp/video"; "thumbnail" := "/tmp/thumbnail"]})
    None.

(** [A] with another scheme word and trailing text in the header. *)
Definition tokenA_other_scheme : Request :=
  request_of (Some "Token tokenA trailing") ∅ {["videoId" := _id V]}.

(** Requests that name [V] in the path: [A] and [B] without a body, and
    [A] with a new title. *)
Definition pathA : Request :=
  request_of (Some "Bearer tokenA") {["id" := _id V]} ∅.

Definition pathB : Request :=
  request_of (Some "Bearer tokenB") {["id" := _id V]} ∅.

Definition renameA : Request :=
  request_of (Some "Bearer tokenA") {["id" := _id V]}
    {["title" := "New title"; "description" := ""]}.

(** [B] asking to update the video [uploadA] makes in [online]. *)
Definition pathB_uploaded : Request :=
  request_of (Some "Bearer tokenB") {["id" := ObjectId_new online]} ∅.

(** Requests without a token for the listings. *)
Definition anonymous : Request :=
  request_of None {["category" := "Gaming"; "tag" := "action"]} ∅.

(** [B] commenting on [V], and a request without text. *)
Definition commentB : Request :=
  request_of (Some "Bearer tokenB") ∅
    {["video_id" := _id V; "commentText" := "Nice"]}.

Definition comment_without_text : Request :=
  request_of (Some "Bearer tokenB") ∅ {["video_id" := _id V]}.

(** Requests that name the comment [K] in the path: [A] with a new text,
    [A] and [B] without a body. *)
Definition editK : Request :=
  request_of (Some "Bearer tokenA") {["commentId" := CommentModel._id K]}
    {["commentText" := "Edited"]}.

Definition pathK_A : Request :=
  request_of (Some "Bearer tokenA") {["commentId" := CommentModel._id K]} ∅.

Definition pathK_B : Request :=
  request_of (Some "Bearer tokenB") {["commentId" := CommentModel._id K]}
    {["commentText" := "Defaced"]}.


(** A hashing and a comparison that agree, and a signing that a
    verification undoes. *)
Definition hash (data : option string) : Try string :=
  match data with
  | Some d => Ok ("hashed:" +:+ d)
  | None => Throw "data and salt arguments required"
  end.

Definition compare (data : option string) (encrypted : string) : Try bool :=
  match data with
  | Some d => Ok (String.eqb encrypted ("hashed:" +:+ d))
  | None => Throw "data and hash arguments required"
  end.

Definition sign (payload : UserRoutes.TokenPayload) : string :=
  "jwt." +:+ UserRoutes.payload_id payload.

Definition verify_signed (token : string) : Try User :=
  match token with
  | String "j" (String "w" (String "t" (String "." id))) =>
      Ok (mkUser id "" "" "" "")
  | _ => Throw "jwt malformed"
  end.

Definition user_world : UserRoutes.UserEnv :=
  UserRoutes.mkUserEnv "64a000000000000000000003" hash
    (fun path => Ok (mkAsset ("https://media/" +:+ path) path)) sign.

(** A stored user, a signup of another one and logins. *)
Definition alice : UserModel.UserDoc :=
  UserModel.mkUserDoc "64a000000000000000000001" (Some "Channel A")
    (Some "a@example.com") "hashed:secretA" (Some "100")
    "https://media/logoA" "logoA" [] [].

Definition signup_carol : Request :=
  mkRequest None ∅
    {["channelName" := "Channel C"; "email" := "c@example.com";
      "password" := "secretC"; "phone" := "300"]}
    (Some {["logoUrl" := "/tmp/logoC"]}) None.

Definition login_carol : Request :=
  request_of None ∅ {["email" := "c@example.com"; "password" := "secretC"]}.

Definition login_alice : Request :=
  request_of None ∅ {["email" := "a@example.com"; "password" := "secretA"]}.

(** An upload with the token the login of [alice] sends. *)
Definition upload_alice : Request :=
  mkRequest (Some "Bearer jwt.64a000000000000000000001") ∅
    {["title" := "Cats"]}
    (Some {["video" := "/tmp/video"; "thumbnail" := "/tmp/thumbnail"]})
    None.

(** A User schema without validators. *)
Definition any_user (user : UserModel.UserDoc) : Try unit := Ok tt.

Definition no_user (users : UserRoutes.Users) : option UserModel.UserDoc :=
  None.

(** Requests served: by [A] and [B] on [V], the upload of [A], and the
    attempt of [B] on the uploaded video. *)
Definition like_by_A : Event :=
  mkEvent (VideoEndpoint POST_like) offline reactA.

Definition like_by_B : Event :=
  mkEvent (VideoEndpoint POST_like) offline reactB.

Definition upload_by_A : Event :=
  mkEvent (VideoEndpoint POST_upload) online uploadA.

Definition delete_by_A : Event :=
  mkEvent (VideoEndpoint DELETE_delete) online pathA.

Definition delete_uploaded_by_B : Event :=
  mkEvent (VideoEndpoint DELETE_delete) online pathB_uploaded.


(** [B] views [V], then tries to update and to delete it. *)
Definition attempts_by_B : list Event :=
  [mkEvent (VideoEndpoint GET_id) offline pathB;
   mkEvent (VideoEndpoint PUT_update) offline pathB;
   mkEvent (VideoEndpoint DELETE_delete) online pathB].

(** [B] tries to edit and to delete the comment [K], then comments. *)
Definition comment_attempts_by_B : list Event :=
  [mkEvent (CommentEndpoint CommentRoutes.PUT_commentId) offline pathK_B;
   mkEvent (CommentEndpoint CommentRoutes.DELETE_commentId) offline pathK_B;
   mkEvent (CommentEndpoint CommentRoutes.POST_new) online commentB].

(** What the signup of carol stores and what the login of alice sends. *)
Definition carol : UserModel.UserDoc :=
  UserModel.mkUserDoc "64a000000000000000000003" (Some "Channel C")
    (Some "c@example.com") "hashed:secretC" (Some "300")
    "https://media//tmp/logoC" "/tmp/logoC" [] [].

Definition alice_logged_in : UserRoutes.AuthResponse :=
  UserRoutes.mkAuthResponse "64a000000000000000000001" (Some "Channel A")
    (Some "a@example.com") (Some "100") "logoA" "https://media/logoA"
    "jwt.64a000000000000000000001" [] [].

(** A store with more in it: [V] after [B] has seen it, with 3 likes and
    2 dislikes; a newer video [W] of [B]; an older video [V0] of [A]; the
    comment [K] on [V], a newer comment [K2] of [B] on [V] and a comment
    [K3] of [A] on [W]. *)
Definition V_seen : Video :=
  set_viewedBy (set_dislikes (set_likes V 3) 2) [Http._id B].

Definition W : Video :=
  new_Video "64b000000000000000000003" (Some "Live") (Some "A concert")
    (Http._id B) "https://media/live.mp4" (Some "videos/video_3")
    "https://media/live.jpg" (Some "thumbnails/thumbnail_3")
    (Some "Music") ["live"; "action"] 1700000000500.

Definition V0 : Video :=
  new_Video "64b000000000000000000004" (Some "First steps") None
    (Http._id A) "https://media/first.mp4" (Some "videos/video_0")
    "https://media/first.jpg" (Some "thumbnails/thumbnail_0")
    (Some "Gaming") [] 1600000000000.

Definition K2 : CommentModel.Comment :=
  CommentModel.mkComment "64c000000000000000000002" (_id V)
    (Some "Seen it twice") (Http._id B) 1700000000700.

Definition K3 : CommentModel.Comment :=
  CommentModel.mkComment "64c000000000000000000003" (_id W)
    (Some "Encore") (Http._id A) 1700000000600.

Definition library : DB :=
  mkDB {[ _id V := V_seen; _id W := W; _id V0 := V0 ]}
       {[ CommentModel._id K := K; CommentModel._id K2 := K2;
          CommentModel._id K3 := K3 ]}.



(** [B] uploading a video whose tags text has an empty piece. *)
Definition uploadB_tags : Request :=
  mkRequest (Some "Bearer tokenB") ∅
    {["title" := "Dogs"; "tags" := "fun,,pets and more"]}
    (Some {["video" := "/tmp/video"; "thumbnail" := "/tmp/thumbnail"]})
    None.

(** Parsed bodies for a comment on [V]: with the text [0], and with a
    text. Numbers are integers here. *)
Definition body_text_zero : gmap string (JsonBody.BodyValue Z) :=
  {["video_id" := JsonBody.BString (_id V);
    "commentText" := JsonBody.BNumber 0]}.

Definition body_text_nice : gmap string (JsonBody.BodyValue Z) :=
  {["video_id" := JsonBody.BString (_id V);
    "commentText" := JsonBody.BString "Nice"]}.

Definition is_zero (n : Z) : bool := Z.eqb n 0.

(** A caster that takes strings as they are and refuses the rest. *)
Definition cast_string (value : JsonBody.BodyValue Z) : Try string :=
  match value with
  | JsonBody.BString s => Ok s
  | _ => Throw "Cast to string failed"
  end.

End Fixtures.

(** * Properties *)

(** ** Calls that may throw *)

Lemma try_bind_Ok {A B : Type} (t : Try A) (k : A -> Try B) (b : B) :
  t ≫= k = Ok b -> ∃ a, t = Ok a ∧ k a = Ok b.
Proof. destruct t as [a|message]; [by exists a|discriminate]. Qed.

Lemma try_bind_Throw {A B : Type} (t : Try A) (k : A -> Try B)
    (message : string) :
  t = Throw message -> t ≫= k = Throw message.
Proof. by intros ->. Qed.

(** ** The authentication middleware *)

Section AuthFacts.

Variable jwt_verify : string -> Try User.

Lemma checkAuth_inr {D : Type} (req req' : Request) :
  checkAuth (D := D) jwt_verify req = inr req' ->
  ∃ u, req' = with_user req u.
Proof.
  unfold checkAuth.
  destruct (bearer_token req) as [token|]; [|discriminate].
  destruct (String.eqb token ""); [discriminate|].
  destruct (jwt_verify token) as [u|message]; [|discriminate].
  intros [= <-]. by exists u.
Qed.

Lemma checkAuth_missing {D : Type} (req : Request) :
  truthy (bearer_token req) = false ->
  checkAuth (D := D) jwt_verify req
  = inl (mkResponse 401 (JObject [("error", VString "No Token Is Provided")])).
Proof.
  unfold checkAuth, truthy.
  destruct (bearer_token req) as [token|]; [|done].
  destruct (String.eqb token ""); [done|discriminate].
Qed.

Lemma checkAuth_invalid {D : Type} (req : Request) (token message : string) :
  bearer_token req = Some token ->
  token ≠ "" ->
  jwt_verify token = Throw message ->
  checkAuth (D := D) jwt_verify req
  = inl (caught "something is wrong in auth" message).
Proof.
  intros Htoken Hne Hverify. unfold checkAuth. rewrite Htoken.
  destruct (String.eqb_spec token "") as [->|_]; [done|].
  by rewrite Hverify.
Qed.

Lemma authenticated_pass {D S : Type}
    (handler : Request -> S -> Response D * S) (req req' : Request) (s : S) :
  checkAuth (D := D) jwt_verify req = inr req' ->
  authenticated jwt_verify handler req s = handler req' s.
Proof. intros H. unfold authenticated. by rewrite H. Qed.

Lemma authenticated_stop {D S : Type}
    (handler : Request -> S -> Response D * S) (req : Request)
    (r : Response D) (s : S) :
  checkAuth (D := D) jwt_verify req = inl r ->
  authenticated jwt_verify handler req s = (r, s).
Proof. intros H. unfold authenticated. by rewrite H. Qed.

(** Whatever [checkAuth] decides, the handler behind it runs on a request
    with [req.user] set, or not at all. *)
Lemma authenticated_cases {D S : Type}
    (handler : Request -> S -> Response D * S) (req : Request) (s : S) :
  (∃ r, authenticated jwt_verify handler req s = (r, s)) ∨
  (∃ u, authenticated jwt_verify handler req s = handler (with_user req u) s).
Proof.
  unfold authenticated.
  destruct (checkAuth jwt_verify req) as [r|req'] eqn:Hauth.
  - left. by exists r.
  - right. destruct (checkAuth_inr _ _ Hauth) as [u ->]. by exists u.
Qed.

End AuthFacts.

(** ** The like and dislike routes *)

Module ReactionFacts.
Import VideoModel VideoRoutes Reactions.

Lemma save_lookup (db : DB) (k : string) (v : Video) :
  _id v = k -> videos (save v db) !! k = Some v.
Proof. intros <-. unfold save; simpl. apply lookup_insert_eq. Qed.

Lemma save_keyed (db : DB) (v : Video) :
  keyed_videos db -> keyed_videos (save v db).
Proof.
  unfold keyed_videos, save; simpl. intros Hk.
  by apply map_Forall_insert_2.
Qed.

(** What the like handler does when the video is there. *)
Lemma like_found (req : Request) (db : DB) (v : Video) :
  findById (body req !! "videoId") (videos db) = Some v ->
  like req db
  = (mkResponse 200 (counts_body "Video liked" (liked v)), save (liked v) db).
Proof.
  intros Hfind. unfold like. rewrite Hfind.
  unfold liked, counts_body, decrement_if_positive.
  destruct v; simpl. by destruct (_ >? 0).
Qed.

Lemma dislike_found (req : Request) (db : DB) (v : Video) :
  findById (body req !! "videoId") (videos db) = Some v ->
  dislike req db
  = (mkResponse 200 (counts_body "Video disliked" (disliked v)),
     save (disliked v) db).
Proof.
  intros Hfind. unfold dislike. rewrite Hfind.
  unfold disliked, counts_body, decrement_if_positive.
  destruct v; simpl. by destruct (_ >? 0).
Qed.

Lemma like_missing (req : Request) (db : DB) :
  findById (body req !! "videoId") (videos db) = None ->
  like req db = (error 404 "Video not found", db).
Proof. intros Hfind. unfold like. by rewrite Hfind. Qed.

Lemma dislike_missing (req : Request) (db : DB) :
  findById (body req !! "videoId") (videos db) = None ->
  dislike req db = (error 404 "Video not found", db).
Proof. intros Hfind. unfold dislike. by rewrite Hfind. Qed.

Lemma liked_same (v : Video) : same_but_counts v (liked v).
Proof. by destruct v. Qed.

Lemma disliked_same (v : Video) : same_but_counts v (disliked v).
Proof. by destruct v. Qed.

(** One run of the like handler: the counters of the target move as the
    handler says, and the store stays keyed. *)
Lemma like_handler_counts (req : Request) (db : DB) (vid : string) (l d : Z) :
  keyed_videos db ->
  body req !! "videoId" = Some vid ->
  counts_of db vid = Some (l, d) ->
  keyed_videos (snd (like req db)) ∧
  counts_of (snd (like req db)) vid = Some (l + 1, decrement_if_positive d).
Proof.
  intros Hk Hbody Hc. unfold counts_of in Hc.
  destruct (videos db !! vid) as [v|] eqn:Hv; [|discriminate].
  injection Hc as <- <-.
  rewrite (like_found _ _ v) by (by rewrite Hbody).
  simpl. split; [by apply save_keyed|].
  unfold counts_of. rewrite save_lookup.
  - by destruct v.
  - rewrite <- (Hk _ _ Hv). by destruct v.
Qed.

Lemma dislike_handler_counts (req : Request) (db : DB) (vid : string)
    (l d : Z) :
  keyed_videos db ->
  body req !! "videoId" = Some vid ->
  counts_of db vid = Some (l, d) ->
  keyed_videos (snd (dislike req db)) ∧
  counts_of (snd (dislike req db)) vid
  = Some (decrement_if_positive l, d + 1).
Proof.
  intros Hk Hbody Hc. unfold counts_of in Hc.
  destruct (videos db !! vid) as [v|] eqn:Hv; [|discriminate].
  injection Hc as <- <-.
  rewrite (dislike_found _ _ v) by (by rewrite Hbody).
  simpl. split; [by apply save_keyed|].
  unfold counts_of. rewrite save_lookup.
  - by destruct v.
  - rewrite <- (Hk _ _ Hv). by destruct v.
Qed.

Section Routes.

Variable jwt_verify : string -> Try User.

(** The same through the router, for a caller [checkAuth] lets pass. *)
Lemma like_counts (env : Env) (req req' : Request) (db : DB) (vid : string)
    (l d : Z) :
  keyed_videos db ->
  checkAuth (D := Video) jwt_verify req = inr req' ->
  body req !! "videoId" = Some vid ->
  counts_of db vid = Some (l, d) ->
  let db' := snd (router jwt_verify POST_like env req db) in
  keyed_videos db' ∧
  counts_of db' vid = Some (l + 1, decrement_if_positive d).
Proof.
  intros Hk Hauth Hbody Hc db'. subst db'.
  destruct (checkAuth_inr _ _ _ Hauth) as [u ->].
  simpl. rewrite (authenticated_pass _ _ _ _ _ Hauth).
  by apply like_handler_counts.
Qed.

Lemma dislike_counts (env : Env) (req req' : Request) (db : DB) (vid : string)
    (l d : Z) :
  keyed_videos db ->
  checkAuth (D := Video) jwt_verify req = inr req' ->
  body req !! "videoId" = Some vid ->
  counts_of db vid = Some (l, d) ->
  let db' := snd (router jwt_verify POST_dislike env req db) in
  keyed_videos db' ∧
  counts_of db' vid = Some (decrement_if_positive l, d + 1).
Proof.
  intros Hk Hauth Hbody Hc db'. subst db'.
  destruct (checkAuth_inr _ _ _ Hauth) as [u ->].
  simpl. rewrite (authenticated_pass _ _ _ _ _ Hauth).
  by apply dislike_handler_counts.
Qed.

(** C1, as the routes have it: the like route keeps no record of who
    reacted, so a second like by the same caller counts again. For a
    video whose counters are safe integers, with likes below
    [Number.MAX_SAFE_INTEGER] (where both increments are exact), after one
    call the likes are one higher, after two calls two higher; the
    dislikes lose one per call while they are positive. *)
Theorem like_twice_counts (env1 env2 : Env) (req req' : Request) (db : DB)
    (vid : string) (v : Video) :
  keyed_videos db ->
  checkAuth (D := Video) jwt_verify req = inr req' ->
  body req !! "videoId" = Some vid ->
  videos db !! vid = Some v ->
  isSafeInteger (likes v) ->
  likes v < MAX_SAFE_INTEGER ->
  isSafeInteger (dislikes v) ->
  let once := snd (router jwt_verify POST_like env1 req db) in
  let twice := snd (router jwt_verify POST_like env2 req once) in
  counts_of once vid
  = Some (likes v + 1, decrement_if_positive (dislikes v)) ∧
  counts_of twice vid
  = Some (likes v + 2,
          decrement_if_positive (decrement_if_positive (dislikes v))) ∧
  counts_of twice vid ≠ counts_of once vid.
Proof.
  intros Hk Hauth Hbody Hv _ _ _ once twice.
  assert (Hc : counts_of db vid = Some (likes v, dislikes v))
    by (unfold counts_of; by rewrite Hv).
  destruct (like_counts env1 _ _ _ _ _ _ Hk Hauth Hbody Hc) as [Hk1 Hc1].
  fold once in Hk1, Hc1.
  destruct (like_counts env2 _ _ _ _ _ _ Hk1 Hauth Hbody Hc1) as [_ Hc2].
  fold twice in Hc2.
  replace (likes v + 1 + 1) with (likes v + 2) in Hc2 by lia.
  rewrite Hc1, Hc2. split_and!; [done..|].
  intros [= Hl _]. lia.
Qed.

(** C5: on a video with no likes and no dislikes, caller A liking, A
    disliking, A liking again and then caller B liking leave the counts
    (likes, dislikes) at (1,0), (0,1), (1,0) and (2,0). *)
Theorem scenario_counts (e1 e2 e3 e4 : Env) (reqA reqB : Request) (a b : User)
    (db : DB) (vid : string) (v : Video) :
  keyed_videos db ->
  videos db !! vid = Some v ->
  likes v = 0 ->
  dislikes v = 0 ->
  checkAuth (D := Video) jwt_verify reqA = inr (with_user reqA a) ->
  checkAuth (D := Video) jwt_verify reqB = inr (with_user reqB b) ->
  body reqA !! "videoId" = Some vid ->
  body reqB !! "videoId" = Some vid ->
  let s1 := snd (router jwt_verify POST_like e1 reqA db) in
  let s2 := snd (router jwt_verify POST_dislike e2 reqA s1) in
  let s3 := snd (router jwt_verify POST_like e3 reqA s2) in
  let s4 := snd (router jwt_verify POST_like e4 reqB s3) in
  counts_of s1 vid = Some (1, 0) ∧
  counts_of s2 vid = Some (0, 1) ∧
  counts_of s3 vid = Some (1, 0) ∧
  counts_of s4 vid = Some (2, 0).
Proof.
  intros Hk Hv Hl Hd HA HB HbA HbB s1 s2 s3 s4.
  assert (H0 : counts_of db vid = Some (0, 0))
    by (unfold counts_of; by rewrite Hv, Hl, Hd).
  destruct (like_counts e1 _ _ _ _ _ _ Hk HA HbA H0) as [Hk1 H1].
  fold s1 in Hk1, H1. change (counts_of s1 vid = Some (1, 0)) in H1.
  destruct (dislike_counts e2 _ _ _ _ _ _ Hk1 HA HbA H1) as [Hk2 H2].
  fold s2 in Hk2, H2. change (counts_of s2 vid = Some (0, 1)) in H2.
  destruct (like_counts e3 _ _ _ _ _ _ Hk2 HA HbA H2) as [Hk3 H3].
  fold s3 in Hk3, H3. change (counts_of s3 vid = Some (1, 0)) in H3.
  destruct (like_counts e4 _ _ _ _ _ _ Hk3 HB HbB H3) as [_ H4].
  fold s4 in H4. change (counts_of s4 vid = Some (2, 0)) in H4.
  done.
Qed.

Lemma like_nonneg (req : Request) (db : DB) :
  counters_nonneg db -> counters_nonneg (snd (like req db)).
Proof.
  intros Hn.
  destruct (findById (body req !! "videoId") (videos db)) as [v|] eqn:Hfind.
  - rewrite (like_found _ _ _ Hfind). simpl.
    assert (Hv : 0 <= likes v ∧ 0 <= dislikes v).
    { unfold findById in Hfind.
      destruct (body req !! "videoId"); [|discriminate]. by apply (Hn _ _ Hfind). }
    unfold counters_nonneg, save; simpl. apply map_Forall_insert_2; [|done].
    unfold liked, decrement_if_positive.
    destruct v; simpl in *. destruct (Z.gtb_spec dislikes0 0); simpl; lia.
  - by rewrite (like_missing _ _ Hfind).
Qed.

Lemma dislike_nonneg (req : Request) (db : DB) :
  counters_nonneg db -> counters_nonneg (snd (dislike req db)).
Proof.
  intros Hn.
  destruct (findById (body req !! "videoId") (videos db)) as [v|] eqn:Hfind.
  - rewrite (dislike_found _ _ _ Hfind). simpl.
    assert (Hv : 0 <= likes v ∧ 0 <= dislikes v).
    { unfold findById in Hfind.
      destruct (body req !! "videoId"); [|discriminate]. by apply (Hn _ _ Hfind). }
    unfold counters_nonneg, save; simpl. apply map_Forall_insert_2; [|done].
    unfold disliked, decrement_if_positive.
    destruct v; simpl in *. destruct (Z.gtb_spec likes0 0); simpl; lia.
  - by rewrite (dislike_missing _ _ Hfind).
Qed.

(** The same for the whole store, through the router. *)
Lemma counters_nonneg_kept (env : Env) (req : Request) (db : DB) :
  counters_nonneg db ->
  counters_nonneg (snd (router jwt_verify POST_like env req db)) ∧
  counters_nonneg (snd (router jwt_verify POST_dislike env req db)).
Proof.
  intros Hn. simpl. split.
  - destruct (authenticated_cases jwt_verify like req db) as [[r ->]|[u ->]];
      [done|by apply like_nonneg].
  - destruct (authenticated_cases jwt_verify dislike req db) as [[r ->]|[u ->]];
      [done|by apply dislike_nonneg].
Qed.

(** C8: a video whose [likes] and [dislikes] are not negative has them not
    negative after any request to the like or the dislike route: the
    handlers decrease a counter only when it is positive. *)
Theorem counters_stay_nonneg (route : Route) (env : Env) (req : Request)
    (db : DB) (id : string) (v v' : Video) :
  keyed_videos db ->
  route = POST_like ∨ route = POST_dislike ->
  videos db !! id = Some v ->
  0 <= likes v ->
  0 <= dislikes v ->
  videos (snd (router jwt_verify route env req db)) !! id = Some v' ->
  0 <= likes v' ∧ 0 <= dislikes v'.
Proof.
  intros Hk Hroute Hv Hl Hd.
  assert (Hcases : ∃ handler,
            (handler = like ∨ handler = dislike) ∧
            router jwt_verify route env req db
            = authenticated jwt_verify handler req db).
  { destruct Hroute as [-> | ->]; [exists like | exists dislike]; eauto. }
  destruct Hcases as (handler & Hh & ->).
  destruct (authenticated_cases jwt_verify handler req db)
    as [[r ->]|[u ->]]; simpl.
  { rewrite Hv. by intros [= <-]. }
  set (req' := with_user req u).
  destruct (findById (body req' !! "videoId") (videos db)) as [video|]
    eqn:Hfind.
  - assert (Hvid : ∃ vid, videos db !! vid = Some video ∧ _id video = vid).
    { unfold findById in Hfind.
      destruct (body req' !! "videoId") as [vid|]; [|discriminate].
      exists vid. split; [done|]. by apply (Hk _ _ Hfind). }
    destruct Hvid as (vid & Hvideo & Hid).
    assert (Hsaved : ∀ video',
              _id video' = _id video ->
              (id = vid -> 0 <= likes video' ∧ 0 <= dislikes video') ->
              videos (save video' db) !! id = Some v' ->
              0 <= likes v' ∧ 0 <= dislikes v').
    { intros video' Hid' Hnn. unfold save; simpl. rewrite Hid', Hid.
      destruct (decide (id = vid)) as [->|Hne].
      - rewrite lookup_insert_eq. intros [= <-]. by apply Hnn.
      - rewrite lookup_insert_ne by done. rewrite Hv. by intros [= <-]. }
    destruct Hh as [-> | ->].
    + rewrite (like_found _ _ _ Hfind). simpl.
      apply (Hsaved (liked video)); [by destruct video|]. intros Heq.
      rewrite Heq in Hv. assert (video = v) as -> by congruence.
      unfold liked, decrement_if_positive.
      destruct v; simpl in *. destruct (Z.gtb_spec dislikes0 0); simpl; lia.
    + rewrite (dislike_found _ _ _ Hfind). simpl.
      apply (Hsaved (disliked video)); [by destruct video|]. intros Heq.
      rewrite Heq in Hv. assert (video = v) as -> by congruence.
      unfold disliked, decrement_if_positive.
      destruct v; simpl in *. destruct (Z.gtb_spec likes0 0); simpl; lia.
  - destruct Hh as [-> | ->].
    + rewrite (like_missing _ _ Hfind). simpl. rewrite Hv. by intros [= <-].
    + rewrite (dislike_missing _ _ Hfind). simpl. rewrite Hv. by intros [= <-].
Qed.

(** The handler decreases a counter only when it is positive. *)
Lemma decrement_if_positive_spec (n : Z) :
  (0 < n -> decrement_if_positive n = n - 1) ∧
  (n <= 0 -> decrement_if_positive n = n).
Proof.
  unfold decrement_if_positive. destruct (Z.gtb_spec n 0); split; lia.
Qed.

(** A 200 answer of the like or dislike handler: the store differs in the
    entry of the target only, and there in the counters only. *)
Lemma handler_frame (req : Request) (db db' : DB) (res : Response Video)
    (handler : Request -> DB -> Response Video * DB) :
  keyed_videos db ->
  handler = like ∨ handler = dislike ->
  handler req db = (res, db') ->
  status res = 200 ->
  ∃ vid v v',
    body req !! "videoId" = Some vid ∧
    videos db !! vid = Some v ∧
    same_but_counts v v' ∧
    videos db' = <[vid := v']> (videos db) ∧
    comments db' = comments db.
Proof.
  intros Hk Hh Hrun Hstatus.
  destruct (findById (body req !! "videoId") (videos db)) as [v|] eqn:Hfind.
  - assert (Hvid : ∃ vid, body req !! "videoId" = Some vid ∧
                           videos db !! vid = Some v).
    { unfold findById in Hfind.
      destruct (body req !! "videoId") as [vid|]; [by exists vid|discriminate]. }
    destruct Hvid as (vid & Hbody & Hv).
    assert (Hid := Hk _ _ Hv). simpl in Hid.
    destruct Hh as [-> | ->].
    + rewrite (like_found _ _ _ Hfind) in Hrun. injection Hrun as <- <-.
      exists vid, v, (liked v).
      split_and!; [done|done|apply liked_same| |done].
      unfold save; simpl. rewrite <- Hid. by destruct v.
    + rewrite (dislike_found _ _ _ Hfind) in Hrun. injection Hrun as <- <-.
      exists vid, v, (disliked v).
      split_and!; [done|done|apply disliked_same| |done].
      unfold save; simpl. rewrite <- Hid. by destruct v.
  - destruct Hh as [-> | ->].
    + rewrite (like_missing _ _ Hfind) in Hrun. injection Hrun as <- <-.
      discriminate.
    + rewrite (dislike_missing _ _ Hfind) in Hrun. injection Hrun as <- <-.
      discriminate.
Qed.

(** C9: a like or dislike request answered with 200 changes the store in
    the entry of the video named in the body only, and that entry in its
    [likes] and [dislikes] only: every other field of it, every other video
    and every comment is as before. *)
Theorem reaction_frame (route : Route) (env : Env) (req : Request)
    (db db' : DB) (res : Response Video) :
  keyed_videos db ->
  route = POST_like ∨ route = POST_dislike ->
  router jwt_verify route env req db = (res, db') ->
  status res = 200 ->
  ∃ vid v v',
    body req !! "videoId" = Some vid ∧
    videos db !! vid = Some v ∧
    same_but_counts v v' ∧
    videos db' = <[vid := v']> (videos db) ∧
    comments db' = comments db.
Proof.
  intros Hk Hroute Hrun Hstatus.
  assert (Hcases : ∃ handler, (handler = like ∨ handler = dislike) ∧
            router jwt_verify route env req db
            = authenticated jwt_verify handler req db).
  { destruct Hroute as [-> | ->]; [exists like | exists dislike]; eauto. }
  destruct Hcases as (handler & Hh & Heq). rewrite Heq in Hrun.
  unfold authenticated in Hrun.
  destruct (checkAuth jwt_verify req) as [r|req1] eqn:Hauth.
  - injection Hrun as <- <-. exfalso.
    unfold checkAuth in Hauth.
    destruct (bearer_token req) as [token|]; [|by injection Hauth as <-].
    destruct (String.eqb token ""); [by injection Hauth as <-|].
    destruct (jwt_verify token); [discriminate|by injection Hauth as <-].
  - destruct (checkAuth_inr _ _ _ Hauth) as [u ->].
    by apply (handler_frame (with_user req u) db db' res handler).
Qed.

End Routes.

(** *** The counters against the reactions of the specification *)

Lemma reactors_nonneg (r : Reaction) (m : gmap string Reaction) :
  0 <= reactors r m.
Proof. unfold reactors. lia. Qed.

Lemma reactors_empty (r : Reaction) : reactors r ∅ = 0.
Proof. unfold reactors. by rewrite map_filter_empty, map_size_empty. Qed.

Lemma reactors_insert_fresh (r d : Reaction) (m : gmap string Reaction)
    (u : string) :
  m !! u = None ->
  reactors r (<[u := d]> m)
  = reactors r m + (if decide (d = r) then 1 else 0).
Proof.
  intros Hu. unfold reactors. rewrite map_filter_insert. simpl.
  destruct (decide (d = r)) as [Heq|Hne].
  - rewrite map_size_insert_None; [lia|].
    apply map_lookup_filter_None_2. by left.
  - rewrite delete_id by done. lia.
Qed.

Lemma reactors_insert (r d : Reaction) (m : gmap string Reaction)
    (u : string) :
  reactors r (<[u := d]> m)
  = reactors r (delete u m) + (if decide (d = r) then 1 else 0).
Proof.
  rewrite <- insert_delete_eq.
  apply reactors_insert_fresh, lookup_delete_eq.
Qed.

Lemma reactors_lookup (r d : Reaction) (m : gmap string Reaction)
    (u : string) :
  m !! u = Some d ->
  reactors r m
  = reactors r (delete u m) + (if decide (d = r) then 1 else 0).
Proof.
  intros Hu. rewrite <- (insert_delete_id m u d Hu) at 1.
  apply reactors_insert_fresh, lookup_delete_eq.
Qed.

(** The ledger of the specification leaves every caller in the state asked
    for. *)
Lemma recordReaction_reactions (l : Ledger) (u : string) (d : Reaction) :
  reactionsByUser (recordReaction l u d) = <[u := d]> (reactionsByUser l).
Proof.
  unfold recordReaction.
  destruct (reactionsByUser l !! u) as [[]|] eqn:Hu; destruct d; simpl;
    try done; by rewrite insert_id.
Qed.


Lemma pair_eq_iff (a b c d : Z) :
  Some (a, b) = Some (c, d) ↔ a = c ∧ b = d.
Proof. split; [by intros [= -> ->]|by intros [-> ->]]. Qed.


(** Closes the arithmetic left by one call: the test [n > 0] of the
    handler is decided and both directions go to [lia]. *)
Ltac counts_step :=
  unfold decrement_if_positive;
  match goal with
  | |- context [?a >? 0] => destruct (Z.gtb_spec a 0)
  end;
  (split; [intros [? ?] | intros ?; split]);
  first [lia | congruence].

(** One call: the counters of the routes still are the projection of the
    reactions exactly when the call is a switching one. *)
Lemma react_projection_iff (vid : string) (c : Reacting) (db : DB)
    (m : gmap string Reaction) :
  keyed_videos db ->
  projection m (counts_of db vid) ->
  keyed_videos (react vid c db) ∧
  (projection (<[Http._id (who c) := desired c]> m)
     (counts_of (react vid c db) vid)
   ↔ switching m c).
Proof.
  intros Hk Hp. unfold projection in *.
  destruct c as [u d]; simpl in *.
  assert (HL := reactors_nonneg Liked (delete (Http._id u) m)).
  assert (HD := reactors_nonneg Disliked (delete (Http._id u) m)).
  unfold react, switching; simpl.
  destruct d; simpl.
  - destruct (like_handler_counts (reaction_request u vid) db vid _ _ Hk
                eq_refl Hp) as [Hk' ->].
    split; [done|]. rewrite pair_eq_iff, !reactors_insert.
    destruct (m !! Http._id u) as [r|] eqn:Hu.
    + rewrite (reactors_lookup Liked r m _ Hu).
      rewrite (reactors_lookup Disliked r m _ Hu).
      destruct r; simpl; counts_step.
    + rewrite (delete_id m _ Hu) in *. simpl. counts_step.
  - destruct (dislike_handler_counts (reaction_request u vid) db vid _ _ Hk
                eq_refl Hp) as [Hk' ->].
    split; [done|]. rewrite pair_eq_iff, !reactors_insert.
    destruct (m !! Http._id u) as [r|] eqn:Hu.
    + rewrite (reactors_lookup Liked r m _ Hu).
      rewrite (reactors_lookup Disliked r m _ Hu).
      destruct r; simpl; counts_step.
    + rewrite (delete_id m _ Hu) in *. simpl. counts_step.
Qed.

(** The counters follow the reactions along a sequence of switching
    calls. *)
Lemma react_all_projection (vid : string) (cs : list Reacting) :
  ∀ (db : DB) (l : Ledger),
    keyed_videos db ->
    projection (reactionsByUser l) (counts_of db vid) ->
    all_switching (reactionsByUser l) cs ->
    projection (reactionsByUser (ledger_after l cs))
      (counts_of (react_all vid cs db) vid).
Proof.
  induction cs as [|c cs IH]; intros db l Hk Hp Hs; [done|].
  destruct Hs as [Hc Hs]. simpl.
  destruct (react_projection_iff vid c db _ Hk Hp) as [Hk' Hiff].
  apply IH; [done| |]; rewrite recordReaction_reactions;
    [by apply Hiff|done].
Qed.

(** C2, as the routes have it: started on a video without likes and
    dislikes, the counters are the numbers of callers whose last reaction
    is Liked and Disliked after a sequence of calls in which every caller
    either switches from the opposite reaction or reacts for the first
    time while nobody holds the opposite reaction. *)
Theorem counts_follow_switching (vid : string) (v : Video)
    (cs : list Reacting) (db : DB) :
  keyed_videos db ->
  videos db !! vid = Some v ->
  likes v = 0 ->
  dislikes v = 0 ->
  all_switching ∅ cs ->
  projection (reactionsByUser (ledger_after created cs))
    (counts_of (react_all vid cs db) vid).
Proof.
  intros Hk Hv Hl Hd Hs.
  apply react_all_projection; [done| |done].
  unfold projection, counts_of; simpl.
  by rewrite Hv, Hl, Hd, !reactors_empty.
Qed.

End ReactionFacts.

(** ** View tracking *)

Module ViewFacts.
Import VideoModel VideoRoutes Views.

Lemma addToSet_present (x : string) (l : list string) :
  x ∈ l -> addToSet x l = l.
Proof. intros Hx. unfold addToSet. by rewrite decide_True. Qed.

Lemma addToSet_elem (x : string) (l : list string) : x ∈ addToSet x l.
Proof.
  unfold addToSet. case_decide; [done|].
  apply elem_of_app. right. by apply list_elem_of_singleton.
Qed.

Lemma addToSet_subseteq (x : string) (l : list string) : l ⊆ addToSet x l.
Proof.
  unfold addToSet. case_decide; [done|].
  intros y Hy. apply elem_of_app. by left.
Qed.

Lemma addToSet_idempotent (x : string) (l : list string) :
  addToSet x (addToSet x l) = addToSet x l.
Proof. apply addToSet_present, addToSet_elem. Qed.

(** [$addToSet] keeps an array without duplicates so. *)
Lemma addToSet_NoDup (x : string) (l : list string) :
  NoDup l -> NoDup (addToSet x l).
Proof.
  intros Hl. unfold addToSet. case_decide; [done|].
  apply NoDup_app. split_and!; [done| |apply NoDup_singleton].
  intros y Hy Hy'. apply list_elem_of_singleton in Hy' as ->. done.
Qed.

(** The view handler run again on the store it left. *)
Lemma get_by_id_idempotent (req : Request) (db : DB) :
  keyed_videos db ->
  get_by_id req (snd (get_by_id req db)) = get_by_id req db.
Proof.
  intros Hk. unfold get_by_id.
  destruct (req_user_id req) as [userId|message]; [|done].
  unfold findByIdAndUpdate_viewedBy.
  destruct (findById (params req !! "id") (videos db)) as [video|] eqn:Hfind;
    simpl; [|by rewrite Hfind].
  unfold findById in *.
  destruct (params req !! "id") as [id|]; [|discriminate].
  assert (Hid := Hk _ _ Hfind). simpl in Hid.
  rewrite Hid, lookup_insert_eq. simpl.
  rewrite addToSet_idempotent.
  unfold save, set_videos; simpl. rewrite Hid.
  by rewrite insert_insert_eq.
Qed.

Section Routes.

Variable jwt_verify : string -> Try User.

(** C6: a second request to GET /:id by the same caller is answered as the
    first and leaves the store, and so the [viewedBy] of the video, as the
    first left it: adding a caller who is a member already changes
    nothing. *)
Theorem view_twice (env1 env2 : Env) (req : Request) (db : DB) :
  keyed_videos db ->
  router jwt_verify GET_id env2 req (snd (router jwt_verify GET_id env1 req db))
  = router jwt_verify GET_id env1 req db.
Proof.
  intros Hk. simpl. unfold authenticated.
  destruct (checkAuth jwt_verify req) as [r|req'] eqn:Hauth; simpl.
  - done.
  - by apply get_by_id_idempotent.
Qed.

End Routes.

(** *** The views only grow *)

Lemma viewedBy_kept_refl (db : DB) : viewedBy_kept db db.
Proof. intros id v Hv. by exists v. Qed.

Lemma viewedBy_kept_same (db db' : DB) :
  videos db' = videos db -> viewedBy_kept db db'.
Proof. intros Heq id v Hv. exists v. by rewrite Heq. Qed.

(** Saving a changed copy of a stored video that has the views of the
    original. *)
Lemma save_existing_kept (db : DB) (k : string) (video video' : Video) :
  keyed_videos db ->
  videos db !! k = Some video ->
  _id video' = _id video ->
  viewedBy video ⊆ viewedBy video' ->
  keyed_videos (save video' db) ∧ viewedBy_kept db (save video' db).
Proof.
  intros Hk Hfind Hid Hsub.
  split; [by apply ReactionFacts.save_keyed|].
  intros id v Hv. unfold save; simpl.
  assert (Hkey := Hk _ _ Hfind). simpl in Hkey.
  destruct (decide (id = k)) as [->|Hne].
  - rewrite Hid, Hkey, lookup_insert_eq. exists video'.
    rewrite Hfind in Hv. by injection Hv as <-.
  - rewrite lookup_insert_ne by congruence. by exists v.
Qed.

Lemma save_new_kept (db db' : DB) (video : Video) :
  keyed_videos db ->
  save_new video db = Ok db' ->
  keyed_videos db' ∧ viewedBy_kept db db'.
Proof.
  intros Hk. unfold save_new.
  destruct (videos db !! _id video) eqn:Hfresh; [discriminate|].
  intros [= <-]. split; [by apply ReactionFacts.save_keyed|].
  intros id v Hv. exists v. split; [|done].
  unfold save; simpl. rewrite lookup_insert_ne; [done|congruence].
Qed.

Lemma replace_thumbnail_same (env : Env) (req : Request) (video video' : Video) :
  replace_thumbnail env req video = Ok video' ->
  _id video' = _id video ∧ viewedBy video' = viewedBy video.
Proof.
  unfold replace_thumbnail.
  destruct (files req) as [fs|]; [|by intros [= <-]].
  destruct (fs !! "thumbnail"); [|by intros [= <-]].
  intros Hrun.
  apply try_bind_Ok in Hrun as (? & _ & Hrun).
  apply try_bind_Ok in Hrun as (thumbnailUpload & _ & Hrun).
  by injection Hrun as <-.
Qed.

Lemma upload_keeps (env : Env) : keeps_views (upload env).
Proof.
  intros req db Hk. unfold upload.
  destruct (files req) as [fs|];
    [|split; [done|apply viewedBy_kept_refl]].
  destruct (fs !! "video"), (fs !! "thumbnail");
    try (split; [done|apply viewedBy_kept_refl]).
  match goal with
  | |- context [match ?attempt with Ok _ => _ | Throw _ => _ end] =>
      destruct attempt as [[newVideo db']|] eqn:Hattempt
  end; [|split; [done|apply viewedBy_kept_refl]].
  apply try_bind_Ok in Hattempt as (videoUpload & _ & Hattempt).
  apply try_bind_Ok in Hattempt as (thumbnailUpload & _ & Hattempt).
  apply try_bind_Ok in Hattempt as (uid & _ & Hattempt).
  apply try_bind_Ok in Hattempt as (db1 & Hsave & Hattempt).
  injection Hattempt as <- <-. simpl.
  by apply (save_new_kept _ _ _ Hk Hsave).
Qed.

Lemma update_keeps (env : Env) : keeps_views (update env).
Proof.
  intros req db Hk. unfold update.
  destruct (findById (params req !! "id") (videos db)) as [video|] eqn:Hfind;
    [|split; [done|apply viewedBy_kept_refl]].
  destruct (req_user_id req) as [uid|];
    [|split; [done|apply viewedBy_kept_refl]].
  destruct (negb _); [split; [done|apply viewedBy_kept_refl]|].
  destruct (replace_thumbnail env req video) as [video1|] eqn:Hthumb;
    [|split; [done|apply viewedBy_kept_refl]].
  destruct (replace_thumbnail_same _ _ _ _ Hthumb) as [Hid Hviews].
  unfold findById in Hfind.
  destruct (params req !! "id") as [k|]; [|discriminate]. simpl.
  apply (save_existing_kept db k video); [done|done|done|].
  simpl. by rewrite Hviews.
Qed.

Lemma get_by_id_keeps : keeps_views get_by_id.
Proof.
  intros req db Hk. unfold get_by_id.
  destruct (req_user_id req) as [userId|];
    [|split; [done|apply viewedBy_kept_refl]].
  unfold findByIdAndUpdate_viewedBy.
  destruct (findById (params req !! "id") (videos db)) as [video|] eqn:Hfind;
    [|split; [done|apply viewedBy_kept_refl]].
  unfold findById in Hfind.
  destruct (params req !! "id") as [k|]; [|discriminate]. simpl.
  apply (save_existing_kept db k video); [done|done|done|].
  simpl. apply addToSet_subseteq.
Qed.

Lemma like_keeps : keeps_views like.
Proof.
  intros req db Hk.
  destruct (findById (body req !! "videoId") (videos db)) as [video|] eqn:Hfind.
  - rewrite (ReactionFacts.like_found _ _ _ Hfind). simpl.
    unfold findById in Hfind.
    destruct (body req !! "videoId") as [k|]; [|discriminate].
    apply (save_existing_kept db k video); [done|done|by destruct video|].
    by destruct video.
  - rewrite (ReactionFacts.like_missing _ _ Hfind).
    split; [done|apply viewedBy_kept_refl].
Qed.

Lemma dislike_keeps : keeps_views dislike.
Proof.
  intros req db Hk.
  destruct (findById (body req !! "videoId") (videos db)) as [video|] eqn:Hfind.
  - rewrite (ReactionFacts.dislike_found _ _ _ Hfind). simpl.
    unfold findById in Hfind.
    destruct (body req !! "videoId") as [k|]; [|discriminate].
    apply (save_existing_kept db k video); [done|done|by destruct video|].
    by destruct video.
  - rewrite (ReactionFacts.dislike_missing _ _ Hfind).
    split; [done|apply viewedBy_kept_refl].
Qed.

(** A handler that leaves the videos alone. *)
Lemma reads_keep {D : Type} (handler : Request -> DB -> Response D * DB) :
  (∀ req db, videos (snd (handler req db)) = videos db) ->
  keeps_views handler.
Proof.
  intros Hsame req db Hk. split.
  - unfold keyed_videos. by rewrite Hsame.
  - by apply viewedBy_kept_same.
Qed.

Lemma my_videos_keeps : keeps_views my_videos.
Proof.
  apply reads_keep. intros req db. unfold my_videos.
  by destruct (req_user_id req).
Qed.

(** The delete handler removes the video named in the request, and no
    other, when it answers 200; otherwise it removes none. *)
Lemma delete_video_kept (env : Env) (req : Request) (db : DB) :
  keyed_videos db ->
  keyed_videos (snd (delete_video env req db)) ∧
  ∀ id v, videos db !! id = Some v ->
    videos (snd (delete_video env req db)) !! id = Some v ∨
    (params req !! "id" = Some id ∧
     status (fst (delete_video env req db)) = 200).
Proof.
  intros Hk. unfold delete_video.
  destruct (findById (params req !! "id") (videos db)) as [video|];
    [|split; [done|by left]].
  destruct (req_user_id req) as [uid|]; [|split; [done|by left]].
  destruct (negb _); [split; [done|by left]|].
  match goal with
  | |- context [match ?attempt with Ok _ => _ | Throw _ => _ end] =>
      destruct attempt
  end; [|split; [done|by left]].
  unfold findByIdAndDelete.
  destruct (params req !! "id") as [k|]; [|split; [done|by left]].
  simpl. split.
  - by apply map_Forall_delete.
  - intros id v Hv. destruct (decide (id = k)) as [->|Hne]; [by right|].
    left. by rewrite lookup_delete_ne.
Qed.

Section Server.

Variable jwt_verify : string -> Try User.
Variable commentText_validator : option string -> Try unit.

Lemma authenticated_keeps {D : Type}
    (handler : Request -> DB -> Response D * DB) :
  keeps_views handler -> keeps_views (authenticated jwt_verify handler).
Proof.
  intros Hh req db Hk.
  destruct (authenticated_cases jwt_verify handler req db) as [[r ->]|[u ->]].
  - split; [done|apply viewedBy_kept_refl].
  - by apply Hh.
Qed.

(** The comment router leaves the videos alone. *)
Lemma comment_router_videos (route : CommentRoutes.Route) (env : Env)
    (req : Request) (db : DB) :
  videos (snd (CommentRoutes.router jwt_verify commentText_validator
                 route env req db)) = videos db.
Proof.
  destruct route; simpl;
    match goal with
    | |- context [authenticated _ ?h _ _] =>
        destruct (authenticated_cases jwt_verify h req db) as [[r ->]|[u ->]];
          [done|]
    end.
  - unfold CommentRoutes.new.
    destruct (body _ !! "video_id"); [|done].
    destruct (_ || _); [done|].
    match goal with
    | |- context [match ?attempt with Ok _ => _ | Throw _ => _ end] =>
        destruct attempt as [[newComment db']|] eqn:Hattempt
    end; [|done].
    apply try_bind_Ok in Hattempt as (uid & _ & Hattempt).
    apply try_bind_Ok in Hattempt as (db1 & Hsave & Hattempt).
    injection Hattempt as <- <-. simpl.
    unfold CommentRoutes.save_new in Hsave.
    apply try_bind_Ok in Hsave as (? & _ & Hsave).
    destruct (comments db !! _); [discriminate|].
    by injection Hsave as <-.
  - unfold CommentRoutes.delete_comment.
    destruct (findById _ _); [|done].
    destruct (CommentRoutes.req_user_id _); [|done].
    destruct (negb _); [done|].
    unfold CommentRoutes.findByIdAndDelete. simpl.
    by destruct (params req !! "commentId").
  - unfold CommentRoutes.put_comment.
    destruct (findById _ _); [|done].
    destruct (CommentRoutes.req_user_id _); [|done].
    destruct (negb _); [done|].
    destruct (CommentRoutes.save _ _ _) as [db'|] eqn:Hsave; [|done].
    unfold CommentRoutes.save in Hsave.
    apply try_bind_Ok in Hsave as (? & _ & Hsave).
    by injection Hsave as <-.
  - done.
Qed.

(** One request: the store stays keyed, and a stored video keeps its views
    unless the request is the deletion of that video, answered 200. *)
Lemma serve_views (e : Event) (db : DB) :
  keyed_videos db ->
  let db' := snd (serve jwt_verify commentText_validator e db) in
  keyed_videos db' ∧
  ∀ id v, videos db !! id = Some v ->
    (∃ v', videos db' !! id = Some v' ∧ viewedBy v ⊆ viewedBy v') ∨
    (deletes id e ∧ fst (serve jwt_verify commentText_validator e db) = 200).
Proof.
  intros Hk db'. subst db'. unfold serve, deletes.
  destruct e as [[route|route] env req]; simpl.
  - assert (Hkeeps : ∀ h : Request -> DB -> Response Video * DB,
              keeps_views h ->
              router jwt_verify route env req db = h req db ->
              keyed_videos (snd (h req db)) ∧
              ∀ id v, videos db !! id = Some v ->
                (∃ v', videos (snd (h req db)) !! id = Some v' ∧
                       viewedBy v ⊆ viewedBy v') ∨
                ((VideoEndpoint route = VideoEndpoint DELETE_delete ∧
                  params req !! "id" = Some id) ∧
                 status (fst (h req db)) = 200)).
    { intros h Hh _. destruct (Hh req db Hk) as [Hk' Hkept].
      split; [done|]. intros id v Hv. left. by apply Hkept. }
    destruct (router jwt_verify route env req db) as [res db'] eqn:Hrun.
    simpl.
    replace db' with (snd (router jwt_verify route env req db))
      by (by rewrite Hrun).
    replace res with (fst (router jwt_verify route env req db))
      by (by rewrite Hrun).
    destruct route; simpl.
    + by apply (Hkeeps _ (authenticated_keeps _ (upload_keeps env))).
    + by apply (Hkeeps _ (authenticated_keeps _ (update_keeps env))).
    + destruct (authenticated_cases jwt_verify (delete_video env) req db)
        as [[r ->]|[u ->]].
      * split; [done|]. intros id v Hv. left. by exists v.
      * destruct (delete_video_kept env (with_user req u) db Hk) as [Hk' Hd].
        split; [done|]. intros id v Hv.
        destruct (Hd id v Hv) as [Hstill|[Hdel Hok]];
          [left; by exists v|by right].
    + by apply (Hkeeps all (reads_keep all (fun _ _ => eq_refl))).
    + by apply (Hkeeps _ (authenticated_keeps _ my_videos_keeps)).
    + by apply (Hkeeps _ (authenticated_keeps _ get_by_id_keeps)).
    + by apply (Hkeeps by_category (reads_keep by_category (fun _ _ => eq_refl))).
    + by apply (Hkeeps by_tag (reads_keep by_tag (fun _ _ => eq_refl))).
    + by apply (Hkeeps _ (authenticated_keeps _ like_keeps)).
    + by apply (Hkeeps _ (authenticated_keeps _ dislike_keeps)).
  - assert (Hsame := comment_router_videos route env req db).
    destruct (CommentRoutes.router _ _ route env req db) as [res db'].
    simpl in *. split.
    + unfold keyed_videos. by rewrite Hsame.
    + intros id v Hv. left. exists v. by rewrite Hsame.
Qed.


End Server.

End ViewFacts.

(** ** The store invariant is kept by every request *)

Module StoreFacts.

Section Server.

Variable jwt_verify : string -> Try User.
Variable commentText_validator : option string -> Try unit.

(** The video router leaves the comments alone. *)
Lemma video_router_comments (route : VideoRoutes.Route) (env : Env)
    (req : Request) (db : DB) :
  comments (snd (VideoRoutes.router jwt_verify route env req db))
  = comments db.
Proof.
  destruct route; simpl; try done;
    match goal with
    | |- context [authenticated _ ?h _ _] =>
        destruct (authenticated_cases jwt_verify h req db) as [[r ->]|[u ->]];
          [done|]
    end.
  - unfold VideoRoutes.upload.
    destruct (files _) as [fs|]; [|done].
    destruct (fs !! "video"), (fs !! "thumbnail"); try done.
    match goal with
    | |- context [match ?attempt with Ok _ => _ | Throw _ => _ end] =>
        destruct attempt as [[newVideo db']|] eqn:Hattempt
    end; [|done].
    apply try_bind_Ok in Hattempt as (videoUpload & _ & Hattempt).
    apply try_bind_Ok in Hattempt as (thumbnailUpload & _ & Hattempt).
    apply try_bind_Ok in Hattempt as (uid & _ & Hattempt).
    apply try_bind_Ok in Hattempt as (db1 & Hsave & Hattempt).
    injection Hattempt as <- <-. simpl.
    unfold VideoRoutes.save_new in Hsave.
    destruct (videos db !! _); [discriminate|]. by injection Hsave as <-.
  - unfold VideoRoutes.update.
    destruct (findById _ _); [|done].
    destruct (VideoRoutes.req_user_id _); [|done].
    destruct (negb _); [done|].
    by destruct (VideoRoutes.replace_thumbnail _ _ _).
  - unfold VideoRoutes.delete_video.
    destruct (findById _ _); [|done].
    destruct (VideoRoutes.req_user_id _); [|done].
    destruct (negb _); [done|].
    match goal with
    | |- context [match ?attempt with Ok _ => _ | Throw _ => _ end] =>
        destruct attempt
    end; [|done].
    unfold VideoRoutes.findByIdAndDelete. simpl.
    by destruct (params req !! "id").
  - unfold VideoRoutes.my_videos. by destruct (VideoRoutes.req_user_id _).
  - unfold VideoRoutes.get_by_id.
    destruct (VideoRoutes.req_user_id _); [|done].
    unfold VideoRoutes.findByIdAndUpdate_viewedBy.
    by destruct (findById _ _).
  - unfold VideoRoutes.like. by destruct (findById _ _).
  - unfold VideoRoutes.dislike. by destruct (findById _ _).
Qed.

(** The comment router keeps the comments keyed. *)
Lemma comment_router_keyed (route : CommentRoutes.Route) (env : Env)
    (req : Request) (db : DB) :
  keyed_comments db ->
  keyed_comments
    (snd (CommentRoutes.router jwt_verify commentText_validator
            route env req db)).
Proof.
  intros Hk.
  destruct route; simpl;
    match goal with
    | |- context [authenticated _ ?h _ _] =>
        destruct (authenticated_cases jwt_verify h req db) as [[r ->]|[u ->]];
          [done|]
    end.
  - unfold CommentRoutes.new.
    destruct (body _ !! "video_id"); [|done].
    destruct (_ || _); [done|].
    match goal with
    | |- context [match ?attempt with Ok _ => _ | Throw _ => _ end] =>
        destruct attempt as [[newComment db']|] eqn:Hattempt
    end; [|done].
    apply try_bind_Ok in Hattempt as (uid & _ & Hattempt).
    apply try_bind_Ok in Hattempt as (db1 & Hsave & Hattempt).
    injection Hattempt as <- <-. simpl.
    unfold CommentRoutes.save_new in Hsave.
    apply try_bind_Ok in Hsave as (? & _ & Hsave).
    destruct (comments db !! _); [discriminate|].
    injection Hsave as <-. by apply map_Forall_insert_2.
  - unfold CommentRoutes.delete_comment.
    destruct (findById _ _); [|done].
    destruct (CommentRoutes.req_user_id _); [|done].
    destruct (negb _); [done|].
    unfold CommentRoutes.findByIdAndDelete. simpl.
    destruct (params req !! "commentId"); [|done].
    by apply map_Forall_delete.
  - unfold CommentRoutes.put_comment.
    destruct (findById _ _); [|done].
    destruct (CommentRoutes.req_user_id _); [|done].
    destruct (negb _); [done|].
    destruct (CommentRoutes.save _ _ _) as [db'|] eqn:Hsave; [|done].
    unfold CommentRoutes.save in Hsave.
    apply try_bind_Ok in Hsave as (? & _ & Hsave).
    injection Hsave as <-. by apply map_Forall_insert_2.
  - done.
Qed.

(** Both collections stay keyed along any sequence of requests. *)
Lemma run_keyed (es : list Event) (db : DB) :
  keyed_videos db ∧ keyed_comments db ->
  keyed_videos (run jwt_verify commentText_validator es db) ∧
  keyed_comments (run jwt_verify commentText_validator es db).
Proof.
  revert db. induction es as [|e es IH]; intros db [Hv Hc]; [done|].
  simpl. apply IH. split.
  - by apply (ViewFacts.serve_views jwt_verify commentText_validator e db).
  - unfold serve. destruct e as [[route|route] env req]; simpl.
    + assert (Hsame := video_router_comments route env req db).
      destruct (VideoRoutes.router _ route env req db) as [res db'].
      simpl in *. unfold keyed_comments. by rewrite Hsame.
    + assert (Hkept := comment_router_keyed route env req db Hc).
      by destruct (CommentRoutes.router _ _ route env req db) as [res db'].
Qed.

(** The empty store is keyed, and so is every store the routers reach
    from it. *)
Lemma reachable_keyed (es : list Event) :
  keyed_videos (run jwt_verify commentText_validator es (mkDB ∅ ∅)) ∧
  keyed_comments (run jwt_verify commentText_validator es (mkDB ∅ ∅)).
Proof. apply run_keyed. split; apply map_Forall_empty. Qed.

End Server.

End StoreFacts.

(** ** Authentication and ownership at the boundary *)

Module BoundaryFacts.

Section Server.

Variable jwt_verify : string -> Try User.
Variable commentText_validator : option string -> Try unit.

(** A route behind [checkAuth] answers what [checkAuth] answers when it
    stops the request, and leaves the store alone. *)
Lemma serve_stopped (e : Event) (db : DB) (code : Z) :
  behind_checkAuth (endpoint e) = true ->
  (∀ D, ∃ r, checkAuth (D := D) jwt_verify (request e) = inl r ∧
             status r = code) ->
  serve jwt_verify commentText_validator e db = (code, db).
Proof.
  intros Hbehind Hstop. unfold serve.
  destruct e as [[route|route] env req]; simpl in *.
  - destruct (Hstop VideoModel.Video) as (r & Hr & <-).
    destruct route; try discriminate; simpl;
      by rewrite (authenticated_stop _ _ _ _ _ Hr).
  - destruct (Hstop CommentModel.Comment) as (r & Hr & <-).
    destruct route; simpl; by rewrite (authenticated_stop _ _ _ _ _ Hr).
Qed.

(** C4, as the middleware has it: a request without a token to a route
    behind [checkAuth] is answered 401; a request whose token fails
    verification is answered 500 by the [catch] of the middleware. Neither
    reaches the handler, and neither answer is 404 or 403. *)
Theorem unauthenticated_answers (e : Event) (db : DB) :
  behind_checkAuth (endpoint e) = true ->
  (truthy (bearer_token (request e)) = false ->
   serve jwt_verify commentText_validator e db = (401, db)) ∧
  (∀ token message,
     bearer_token (request e) = Some token ->
     token ≠ "" ->
     jwt_verify token = Throw message ->
     serve jwt_verify commentText_validator e db = (500, db)).
Proof.
  intros Hbehind. split.
  - intros Hmissing. apply serve_stopped; [done|]. intros D.
    eexists. split; [by apply checkAuth_missing|done].
  - intros token message Htoken Hne Hverify.
    apply serve_stopped; [done|]. intros D.
    eexists. split; [by apply (checkAuth_invalid _ _ token message)|done].
Qed.

(** A request with a token that verifies reaches the handler with
    [req.user] set to the payload. *)
Lemma checkAuth_valid {D : Type} (req : Request) (token : string) (u : User) :
  bearer_token req = Some token ->
  token ≠ "" ->
  jwt_verify token = Ok u ->
  checkAuth (D := D) jwt_verify req = inr (with_user req u).
Proof.
  intros Htoken Hne Hverify. unfold checkAuth. rewrite Htoken.
  destruct (String.eqb_spec token "") as [->|_]; [done|].
  by rewrite Hverify.
Qed.

Lemma eqb_owner (owner uid : string) :
  owner ≠ uid -> negb (String.eqb owner uid) = true.
Proof. intros Hne. by destruct (String.eqb_spec owner uid). Qed.

(** The ownership check of the four mutating routes: a caller who is not
    the stored owner is answered 403 and the store is left alone. *)
Lemma mutation_denied (e : Event) (db : DB) (token : string) (u : User)
    (owner : string) :
  mutating (endpoint e) = true ->
  bearer_token (request e) = Some token ->
  token ≠ "" ->
  jwt_verify token = Ok u ->
  ownerOf (endpoint e) (request e) db = Some owner ->
  owner ≠ Http._id u ->
  serve jwt_verify commentText_validator e db = (403, db).
Proof.
  intros Hmut Htoken Hne Hverify Howner Hdiff. unfold serve.
  destruct e as [[route|route] env req]; simpl in *.
  - assert (Hauth := checkAuth_valid (D := VideoModel.Video) _ _ _
                       Htoken Hne Hverify).
    destruct (findById (params req !! "id") (videos db)) as [video|] eqn:Hfind;
      [|discriminate].
    injection Howner as <-.
    destruct route; try discriminate; simpl;
      rewrite (authenticated_pass _ _ _ _ _ Hauth).
    + unfold VideoRoutes.update. simpl. rewrite Hfind. simpl.
      by rewrite eqb_owner.
    + unfold VideoRoutes.delete_video. simpl. rewrite Hfind. simpl.
      by rewrite eqb_owner.
  - assert (Hauth := checkAuth_valid (D := CommentModel.Comment) _ _ _
                       Htoken Hne Hverify).
    destruct (findById (params req !! "commentId") (comments db))
      as [comment|] eqn:Hfind; [|discriminate].
    injection Howner as <-.
    destruct route; try discriminate; simpl;
      rewrite (authenticated_pass _ _ _ _ _ Hauth).
    + unfold CommentRoutes.delete_comment. simpl. rewrite Hfind. simpl.
      by rewrite eqb_owner.
    + unfold CommentRoutes.put_comment. simpl. rewrite Hfind. simpl.
      by rewrite eqb_owner.
Qed.

(** A missing resource is answered 404 by the update and delete routes of
    videos and by the delete route of comments. *)
Lemma mutation_missing (e : Event) (db : DB) (token : string) (u : User) :
  mutating (endpoint e) = true ->
  endpoint e ≠ CommentEndpoint CommentRoutes.PUT_commentId ->
  bearer_token (request e) = Some token ->
  token ≠ "" ->
  jwt_verify token = Ok u ->
  ownerOf (endpoint e) (request e) db = None ->
  serve jwt_verify commentText_validator e db = (404, db).
Proof.
  intros Hmut Hput Htoken Hne Hverify Howner. unfold serve.
  destruct e as [[route|route] env req]; simpl in *.
  - assert (Hauth := checkAuth_valid (D := VideoModel.Video) _ _ _
                       Htoken Hne Hverify).
    destruct (findById (params req !! "id") (videos db)) as [video|] eqn:Hfind;
      [discriminate|].
    destruct route; try discriminate; simpl;
      rewrite (authenticated_pass _ _ _ _ _ Hauth).
    + unfold VideoRoutes.update. simpl. by rewrite Hfind.
    + unfold VideoRoutes.delete_video. simpl. by rewrite Hfind.
  - assert (Hauth := checkAuth_valid (D := CommentModel.Comment) _ _ _
                       Htoken Hne Hverify).
    destruct (findById (params req !! "commentId") (comments db))
      as [comment|] eqn:Hfind; [discriminate|].
    destruct route; try discriminate; try done; simpl;
      rewrite (authenticated_pass _ _ _ _ _ Hauth).
    unfold CommentRoutes.delete_comment. simpl. by rewrite Hfind.
Qed.

(** The update route of comments answers 401 for a missing comment. *)
Lemma comment_update_missing (env : Env) (req : Request) (db : DB)
    (token : string) (u : User) :
  bearer_token req = Some token ->
  token ≠ "" ->
  jwt_verify token = Ok u ->
  findById (params req !! "commentId") (comments db) = None ->
  CommentRoutes.router jwt_verify commentText_validator
    CommentRoutes.PUT_commentId env req db
  = (CommentRoutes.error 401 "Comment not found", db).
Proof.
  intros Htoken Hne Hverify Hfind. simpl.
  rewrite (authenticated_pass _ _ _ _ _
             (checkAuth_valid (D := CommentModel.Comment) _ _ _
                Htoken Hne Hverify)).
  unfold CommentRoutes.put_comment. simpl. by rewrite Hfind.
Qed.


(** With a schema that refuses a comment without text, the same request is
    answered 500 and the stored text stays. *)
Lemma comment_update_refused (env : Env) (req : Request) (db : DB)
    (token message : string) (u : User) (id : string)
    (c : CommentModel.Comment) :
  bearer_token req = Some token ->
  token ≠ "" ->
  jwt_verify token = Ok u ->
  params req !! "commentId" = Some id ->
  comments db !! id = Some c ->
  CommentModel.user_id c = Http._id u ->
  body req !! "commentText" = None ->
  commentText_validator None = Throw message ->
  CommentRoutes.router jwt_verify commentText_validator
    CommentRoutes.PUT_commentId env req db
  = (caught "something went wrong" message, db).
Proof.
  intros Htoken Hne Hverify Hparam Hc Howner Hbody Hvalid. simpl.
  rewrite (authenticated_pass _ _ _ _ _
             (checkAuth_valid (D := CommentModel.Comment) _ _ _
                Htoken Hne Hverify)).
  unfold CommentRoutes.put_comment. simpl. rewrite Hparam. simpl.
  rewrite Hc, Howner, String.eqb_refl, Hbody. simpl.
  unfold CommentRoutes.save. simpl. by rewrite Hvalid.
Qed.

End Server.

End BoundaryFacts.

(** ** The properties on the sample data *)

Module Examples.
Import VideoModel VideoRoutes Reactions Views Sample.

Lemma db0_keyed_videos : keyed_videos db0.
Proof. by apply map_Forall_singleton. Qed.

Lemma db0_keyed_comments : keyed_comments db0.
Proof. by apply map_Forall_singleton. Qed.

Lemma db0_counters_nonneg : counters_nonneg db0.
Proof. by apply map_Forall_singleton. Qed.

Lemma library_keyed_videos : keyed_videos Fixtures.library.
Proof.
  repeat (apply map_Forall_insert_2; [reflexivity|]).
  apply map_Forall_empty.
Qed.

Lemma library_keyed_comments : keyed_comments Fixtures.library.
Proof.
  repeat (apply map_Forall_insert_2; [reflexivity|]).
  apply map_Forall_empty.
Qed.

(** C1 fails on the routes: [A] liking [V] twice leaves 2 likes where one
    call leaves 1. *)
Lemma like_twice_differs :
  let once := snd (router verify POST_like offline reactA db0) in
  let twice := snd (router verify POST_like offline reactA once) in
  counts_of once (_id V) = Some (1, 0) ∧
  counts_of twice (_id V) = Some (2, 0) ∧
  counts_of twice (_id V) ≠ counts_of once (_id V).
Proof. vm_compute. split_and!; [done|done|discriminate]. Qed.

(** On a video with 3 likes and 2 dislikes. *)
Lemma like_twice_counts_witness :
  let once := snd (router verify POST_like offline reactA Fixtures.library) in
  let twice := snd (router verify POST_like offline reactA once) in
  counts_of once (_id V) = Some (4, 1) ∧
  counts_of twice (_id V) = Some (5, 0) ∧
  counts_of twice (_id V) ≠ counts_of once (_id V).
Proof.
  apply (ReactionFacts.like_twice_counts verify offline offline reactA
           (with_user reactA A) Fixtures.library (_id V) Fixtures.V_seen);
    [apply library_keyed_videos|reflexivity|reflexivity|reflexivity
    |unfold isSafeInteger, MAX_SAFE_INTEGER; simpl; lia
    |unfold MAX_SAFE_INTEGER; simpl; lia
    |unfold isSafeInteger, MAX_SAFE_INTEGER; simpl; lia].
Defined.

(** C2 fails on the routes: after [A] liked [V] twice one user has the
    reaction Liked, and the route counts 2 likes. *)
Lemma repeated_like_breaks_projection :
  let cs := [mkReacting A Liked; mkReacting A Liked] in
  counts_of (react_all (_id V) cs db0) (_id V) = Some (2, 0) ∧
  reactors Liked (reactionsByUser (ledger_after created cs)) = 1 ∧
  ¬ projection (reactionsByUser (ledger_after created cs))
      (counts_of (react_all (_id V) cs db0) (_id V)).
Proof. vm_compute. split_and!; [done|done|discriminate]. Qed.

Lemma counts_follow_switching_witness :
  let cs := [mkReacting A Liked; mkReacting A Disliked;
             mkReacting A Liked; mkReacting B Liked] in
  projection (reactionsByUser (ledger_after created cs))
    (counts_of (react_all (_id V) cs db0) (_id V)).
Proof.
  apply (ReactionFacts.counts_follow_switching (_id V) V);
    [apply db0_keyed_videos|reflexivity|reflexivity|reflexivity|].
  vm_compute. done.
Defined.

(** C3 fails on the update route of comments: for a comment that is not
    stored the route answers 401, where the delete route answers 404 to
    the same caller and id. *)
Theorem comment_update_missing_answers_401 :
  serve verify no_validator
    (mkEvent (CommentEndpoint CommentRoutes.PUT_commentId) offline
       update_missing_comment) db0
  = (401, db0) ∧
  serve verify no_validator
    (mkEvent (CommentEndpoint CommentRoutes.DELETE_commentId) offline
       update_missing_comment) db0
  = (404, db0).
Proof. split; reflexivity. Qed.

(** C4 fails on the middleware: a token that does not verify is answered
    500, not 401. *)
Lemma forged_token_answers_500 :
  verify "forged" = Throw "jwt malformed" ∧
  serve verify no_validator
    (mkEvent (VideoEndpoint POST_like) offline react_forged) db0
  = (500, db0) ∧
  fst (serve verify no_validator
         (mkEvent (VideoEndpoint POST_like) offline react_forged) db0) ≠ 401.
Proof. split_and!; [reflexivity|reflexivity|vm_compute; discriminate]. Qed.

Lemma unauthenticated_answers_witness :
  (truthy (bearer_token react_forged) = false ->
   serve verify no_validator
     (mkEvent (VideoEndpoint POST_like) offline react_forged) db0
   = (401, db0)) ∧
  (∀ token message,
     bearer_token react_forged = Some token ->
     token ≠ "" ->
     verify token = Throw message ->
     serve verify no_validator
       (mkEvent (VideoEndpoint POST_like) offline react_forged) db0
     = (500, db0)).
Proof.
  apply (BoundaryFacts.unauthenticated_answers verify no_validator
           (mkEvent (VideoEndpoint POST_like) offline react_forged) db0).
  reflexivity.
Defined.

Lemma scenario_counts_witness :
  let s1 := snd (router verify POST_like offline reactA db0) in
  let s2 := snd (router verify POST_dislike offline reactA s1) in
  let s3 := snd (router verify POST_like offline reactA s2) in
  let s4 := snd (router verify POST_like offline reactB s3) in
  counts_of s1 (_id V) = Some (1, 0) ∧
  counts_of s2 (_id V) = Some (0, 1) ∧
  counts_of s3 (_id V) = Some (1, 0) ∧
  counts_of s4 (_id V) = Some (2, 0).
Proof.
  apply (ReactionFacts.scenario_counts verify offline offline offline offline
           reactA reactB A B db0 (_id V) V);
    [apply db0_keyed_videos|reflexivity..].
Defined.

Lemma view_twice_witness :
  router verify GET_id offline viewA
    (snd (router verify GET_id offline viewA db0))
  = router verify GET_id offline viewA db0.
Proof.
  apply (ViewFacts.view_twice verify offline offline viewA db0).
  apply db0_keyed_videos.
Defined.

(** The first view records the caller. *)
Example view_records :
  viewedBy <$> videos (snd (router verify GET_id offline viewA db0)) !! _id V
  = Some [Http._id A].
Proof. reflexivity. Qed.


Lemma counters_stay_nonneg_witness :
  0 <= likes (disliked V) ∧ 0 <= dislikes (disliked V).
Proof.
  apply (ReactionFacts.counters_stay_nonneg verify POST_dislike offline reactA
           db0 (_id V) V (disliked V));
    [apply db0_keyed_videos|by right|reflexivity|reflexivity|reflexivity
    |reflexivity].
Defined.

Lemma reaction_frame_witness :
  ∃ vid v v',
    body reactA !! "videoId" = Some vid ∧
    videos db0 !! vid = Some v ∧
    same_but_counts v v' ∧
    videos (snd (router verify POST_dislike offline reactA db0))
    = <[vid := v']> (videos db0) ∧
    comments (snd (router verify POST_dislike offline reactA db0))
    = comments db0.
Proof.
  apply (ReactionFacts.reaction_frame verify POST_dislike offline reactA db0
           _ (fst (router verify POST_dislike offline reactA db0)));
    [apply db0_keyed_videos|by right|reflexivity|reflexivity].
Defined.



End Examples.

(** * Further properties of the routers *)

(** ** Tokens *)

Module TokenFacts.

Lemma append_cons (c : ascii) (s t : string) :
  String c s +:+ t = String c (s +:+ t).
Proof. reflexivity. Qed.

Lemma append_empty_r (s : string) : s +:+ "" = s.
Proof.
  induction s as [|c s IH]; [done|]. by rewrite append_cons, IH.
Qed.

Lemma append_assoc (a b c : string) : (a +:+ b) +:+ c = a +:+ (b +:+ c).
Proof.
  induction a as [|x a IH]; [done|]. by rewrite !append_cons, IH.
Qed.

(** A string without the separator is one piece. *)
Lemma split_from_whole (sep : ascii) (s cur : string) :
  has_char sep s = false -> split_from sep cur s = [cur +:+ s].
Proof.
  revert cur. induction s as [|c s IH]; intros cur Hs; simpl in *.
  - by rewrite append_empty_r.
  - apply orb_false_iff in Hs as [Hc Hs]. rewrite Hc, IH by done.
    by rewrite append_assoc.
Qed.

(** The first piece ends at the first separator. *)
Lemma split_from_first (sep : ascii) (s1 s2 cur : string) :
  has_char sep s1 = false ->
  split_from sep cur (s1 +:+ String sep s2)
  = (cur +:+ s1) :: split_from sep "" s2.
Proof.
  revert cur. induction s1 as [|c s1 IH]; intros cur Hs; simpl in *.
  - by rewrite Ascii.eqb_refl, append_empty_r.
  - apply orb_false_iff in Hs as [Hc Hs]. rewrite Hc, IH by done.
    by rewrite append_assoc.
Qed.

Lemma split_from_nonempty (sep : ascii) (s cur : string) :
  split_from sep cur s ≠ [].
Proof.
  revert cur. induction s as [|c s IH]; intros cur; simpl; [done|].
  by destruct (Ascii.eqb c sep).
Qed.

Lemma join_cons (sep : ascii) (p : string) (ps : list string) :
  ps ≠ [] -> join sep (p :: ps) = p +:+ String sep (join sep ps).
Proof. by destruct ps. Qed.

(** Joining the pieces with the separator gives the string back. *)
Lemma join_split_from (sep : ascii) (s cur : string) :
  join sep (split_from sep cur s) = cur +:+ s.
Proof.
  revert cur. induction s as [|c s IH]; intros cur; simpl.
  - by rewrite append_empty_r.
  - destruct (Ascii.eqb_spec c sep) as [->|Hne].
    + rewrite join_cons by apply split_from_nonempty. by rewrite IH.
    + by rewrite IH, append_assoc.
Qed.

(** No piece has the separator in it. *)
Lemma split_from_pieces (sep : ascii) (s cur : string) :
  has_char sep cur = false ->
  Forall (fun p => has_char sep p = false) (split_from sep cur s).
Proof.
  revert cur. induction s as [|c s IH]; intros cur Hcur; simpl.
  - by apply Forall_singleton.
  - destruct (Ascii.eqb c sep) eqn:Hc.
    + apply Forall_cons. split; [done|]. by apply IH.
    + apply IH. clear IH. induction cur as [|x cur IHc]; simpl in *.
      * by rewrite Hc.
      * apply orb_false_iff in Hcur as [Hx Hcur]. by rewrite Hx, IHc.
Qed.

Section Auth.

Variable jwt_verify : string -> Try User.

(** The token of a header [scheme token] or [scheme token rest]. *)
Lemma bearer_token_second_word (req : Request) (scheme token rest : string) :
  has_char " " scheme = false ->
  has_char " " token = false ->
  authorization req = Some (scheme +:+ " " +:+ token) ∨
  authorization req = Some (scheme +:+ " " +:+ token +:+ " " +:+ rest) ->
  bearer_token req = Some token.
Proof.
  intros Hscheme Htoken Hheader. unfold bearer_token, split.
  destruct Hheader as [-> | ->].
  - change (scheme +:+ " " +:+ token)
      with (scheme +:+ String " " token).
    rewrite split_from_first by done.
    by rewrite split_from_whole.
  - change (scheme +:+ " " +:+ token +:+ " " +:+ rest)
      with (scheme +:+ String " " (token +:+ String " " rest)).
    rewrite split_from_first by done.
    by rewrite split_from_first.
Qed.

(** X1: [checkAuth] takes the second space-separated word of the
    Authorization header as the token, whatever the first word is (the
    scheme is not checked) and whatever follows a further space; what it
    answers is then decided by [jwt.verify] on that word alone. *)
Theorem checkAuth_any_scheme {D : Type} (req : Request)
    (scheme token rest : string) :
  has_char " " scheme = false ->
  has_char " " token = false ->
  token ≠ "" ->
  authorization req = Some (scheme +:+ " " +:+ token) ∨
  authorization req = Some (scheme +:+ " " +:+ token +:+ " " +:+ rest) ->
  checkAuth (D := D) jwt_verify req
  = match jwt_verify token with
    | Ok decodedUser => inr (with_user req decodedUser)
    | Throw message => inl (caught "something is wrong in auth" message)
    end.
Proof.
  intros Hscheme Htoken Hne Hheader. unfold checkAuth.
  rewrite (bearer_token_second_word req scheme token rest) by done.
  by destruct (String.eqb_spec token "").
Qed.

(** A request [checkAuth] lets pass carries a token that verifies. *)
Lemma checkAuth_inr_token {D : Type} (req req' : Request) :
  checkAuth (D := D) jwt_verify req = inr req' ->
  ∃ token u,
    bearer_token req = Some token ∧ token ≠ "" ∧
    jwt_verify token = Ok u ∧ req' = with_user req u.
Proof.
  unfold checkAuth.
  destruct (bearer_token req) as [token|]; [|discriminate].
  destruct (String.eqb_spec token "") as [|Hne]; [discriminate|].
  destruct (jwt_verify token) as [u|] eqn:Hverify; [|discriminate].
  intros [= <-]. by exists token, u.
Qed.

Variable commentText_validator : option string -> Try unit.

(** X2: no request changes the store of videos and comments unless it
    carries a token that verifies: the public listings never write, and a
    request [checkAuth] stops does not reach a handler. *)
Theorem store_change_needs_token (e : Event) (db : DB) :
  snd (serve jwt_verify commentText_validator e db) ≠ db ->
  ∃ token u,
    bearer_token (request e) = Some token ∧ token ≠ "" ∧
    jwt_verify token = Ok u.
Proof.
  intros Hchanged.
  assert (Hauth : ∀ (D : Type) (h : Request -> DB -> Response D * DB),
            snd (authenticated jwt_verify h (request e) db) ≠ db ->
            ∃ token u,
              bearer_token (request e) = Some token ∧ token ≠ "" ∧
              jwt_verify token = Ok u).
  { intros D h. unfold authenticated.
    destruct (checkAuth jwt_verify (request e)) as [r|req'] eqn:Hcheck;
      [done|]. intros _.
    destruct (checkAuth_inr_token _ _ Hcheck) as (token & u & ? & ? & ? & _).
    by exists token, u. }
  unfold serve in Hchanged.
  destruct e as [[route|route] env req]; simpl in *.
  - destruct (VideoRoutes.router jwt_verify route env req db)
      as [res db'] eqn:Hrun.
    simpl in Hchanged.
    assert (Hdb : db' = snd (VideoRoutes.router jwt_verify route env req db))
      by (by rewrite Hrun).
    rewrite Hdb in Hchanged. clear Hrun Hdb.
    destruct route; simpl in Hchanged; try done; by eapply Hauth.
  - destruct (CommentRoutes.router jwt_verify commentText_validator
                route env req db) as [res db'] eqn:Hrun.
    simpl in Hchanged.
    assert (Hdb : db' = snd (CommentRoutes.router jwt_verify
                               commentText_validator route env req db))
      by (by rewrite Hrun).
    rewrite Hdb in Hchanged. clear Hrun Hdb.
    destruct route; simpl in Hchanged; by eapply Hauth.
Qed.

End Auth.

End TokenFacts.

(** ** The listings *)

Module ListingFacts.
Import VideoModel VideoRoutes.

#[global] Instance newer_first_total : Total newer_first.
Proof. intros a b. unfold newer_first. lia. Qed.

#[global] Instance newer_first_transitive : Transitive newer_first.
Proof. intros a b c. unfold newer_first. lia. Qed.

(** What [Video.find(filter).sort({ createdAt: -1 })] returns: the stored
    videos that pass the filter. *)
Lemma find_sorted_elem (f : Video -> bool) (db : DB) (v : Video) :
  v ∈ find_sorted f db ↔ (∃ id, videos db !! id = Some v) ∧ f v = true.
Proof.
  unfold find_sorted. rewrite merge_sort_Permutation.
  rewrite list_elem_of_In, filter_In, <- list_elem_of_In, list_elem_of_fmap.
  split.
  - intros [([id v0] & -> & Hin) Hf]. split; [|done].
    exists id. by apply elem_of_map_to_list.
  - intros [[id Hv] Hf]. split; [|done].
    exists (id, v). split; [done|]. by apply elem_of_map_to_list.
Qed.

Lemma find_sorted_sorted (f : Video -> bool) (db : DB) :
  StronglySorted newer_first (find_sorted f db).
Proof. unfold find_sorted. apply StronglySorted_merge_sort; apply _. Qed.

(** In a keyed store no video is listed twice. *)
Lemma find_sorted_NoDup (f : Video -> bool) (db : DB) :
  keyed_videos db -> NoDup (find_sorted f db).
Proof.
  intros Hk. unfold find_sorted. rewrite merge_sort_Permutation.
  apply NoDup_ListNoDup, List.NoDup_filter, NoDup_ListNoDup.
  apply (NoDup_fmap_2_strong snd); [|apply NoDup_map_to_list].
  intros [k1 v1] [k2 v2] H1 H2 Heq. simpl in Heq. subst v2.
  apply elem_of_map_to_list in H1, H2.
  by rewrite <- (Hk _ _ H1), <- (Hk _ _ H2).
Qed.

Section Routes.

Variable jwt_verify : string -> Try User.

(** X3: GET /all needs no token and writes nothing; it answers 200 with
    every stored video, each once, the newer ones first. *)
Theorem all_lists_every_video (env : Env) (req : Request) (db : DB) :
  keyed_videos db ->
  let res := fst (router jwt_verify GET_all env req db) in
  snd (router jwt_verify GET_all env req db) = db ∧
  status res = 200 ∧
  (∀ v, v ∈ listed res ↔ ∃ id, videos db !! id = Some v) ∧
  NoDup (listed res) ∧
  StronglySorted newer_first (listed res).
Proof.
  intros Hk. simpl. unfold listed; simpl. split_and!; [done|done| | |].
  - intros v. rewrite find_sorted_elem.
    split; [by intros [? _]|by intros ?].
  - by apply find_sorted_NoDup.
  - apply find_sorted_sorted.
Qed.

(** X4: the listings by category and by tag need no token and write
    nothing; they answer 200 with exactly the stored videos whose category
    is the one in the path, or that have the tag of the path among their
    tags, the newer ones first. *)
Theorem category_and_tag_listings (env : Env) (req : Request) (db : DB) :
  let by_c := router jwt_verify GET_category env req db in
  let by_t := router jwt_verify GET_tags env req db in
  snd by_c = db ∧ snd by_t = db ∧
  status (fst by_c) = 200 ∧ status (fst by_t) = 200 ∧
  (∀ v, v ∈ listed (fst by_c) ↔
        (∃ id, videos db !! id = Some v) ∧
        category v = params req !! "category") ∧
  (∀ v, v ∈ listed (fst by_t) ↔
        (∃ id, videos db !! id = Some v) ∧
        ∃ t, params req !! "tag" = Some t ∧ t ∈ tags v) ∧
  StronglySorted newer_first (listed (fst by_c)) ∧
  StronglySorted newer_first (listed (fst by_t)).
Proof.
  simpl. unfold listed; simpl.
  split_and!; [done|done|done|done| | |apply find_sorted_sorted
              |apply find_sorted_sorted].
  - intros v. by rewrite find_sorted_elem, bool_decide_eq_true.
  - intros v. rewrite find_sorted_elem.
    destruct (params req !! "tag") as [t|].
    + rewrite bool_decide_eq_true. split.
      * intros [Hstored Ht]. split; [done|]. by exists t.
      * intros [Hstored (t' & [= <-] & Ht)]. by split.
    + split; [by intros [_ ?]|by intros [_ (t & ? & _)]].
Qed.

(** X5: GET /my-videos answers an authenticated caller with exactly the
    stored videos whose owner is the caller, the newer ones first, and
    writes nothing. *)
Theorem my_videos_lists_own (env : Env) (req : Request) (db : DB)
    (token : string) (u : User) :
  bearer_token req = Some token ->
  token ≠ "" ->
  jwt_verify token = Ok u ->
  let res := fst (router jwt_verify GET_my_videos env req db) in
  snd (router jwt_verify GET_my_videos env req db) = db ∧
  status res = 200 ∧
  (∀ v, v ∈ listed res ↔
        (∃ id, videos db !! id = Some v) ∧ user_id v = Http._id u) ∧
  StronglySorted newer_first (listed res).
Proof.
  intros Htoken Hne Hverify. simpl.
  rewrite (authenticated_pass _ _ _ _ _
             (BoundaryFacts.checkAuth_valid jwt_verify (D := Video) _ _ _
                Htoken Hne Hverify)).
  unfold my_videos, listed; simpl.
  split_and!; [done|done| |apply find_sorted_sorted].
  intros v. rewrite find_sorted_elem.
  destruct (String.eqb_spec (user_id v) (Http._id u));
    split; intros [? ?]; by split.
Qed.

End Routes.

End ListingFacts.

(** ** What requests may do to a stored video *)

Module EvolutionFacts.
Import VideoModel VideoRoutes Evolution.

Lemma same_identity_refl (v : Video) : same_identity v v.
Proof. by repeat split. Qed.


Lemma same_metadata_refl (v : Video) : same_metadata v v.
Proof. by repeat split. Qed.

Lemma same_metadata_trans (a b c : Video) :
  same_metadata a b -> same_metadata b c -> same_metadata a c.
Proof.
  unfold same_metadata. intros H1 H2.
  split_and!; by etrans; [apply H2|apply H1].
Qed.

Lemma evolves_refl (v : Video) : evolves v v.
Proof. split_and!; [apply same_identity_refl|done|done]. Qed.


(** A handler that stops before any write. *)
Lemma untouched (db : DB) (id : string) (v : Video) (req : Request) :
  videos db !! id = Some v ->
  (∃ v', videos db !! id = Some v' ∧ evolves v v' ∧
         (same_metadata v v' ∨ caller_is req (user_id v))) ∨
  (videos db !! id = None ∧ caller_is req (user_id v)).
Proof.
  intros Hv. left. exists v.
  split_and!; [done|apply evolves_refl|left; apply same_metadata_refl].
Qed.

(** Saving a changed copy of the video stored under [k]. *)
Lemma save_guarded (db : DB) (k id : string) (video video' v : Video)
    (req : Request) :
  keyed_videos db ->
  videos db !! k = Some video ->
  evolves video video' ->
  same_metadata video video' ∨ caller_is req (user_id video) ->
  videos db !! id = Some v ->
  (∃ v', videos (save video' db) !! id = Some v' ∧ evolves v v' ∧
         (same_metadata v v' ∨ caller_is req (user_id v))) ∨
  (videos (save video' db) !! id = None ∧ caller_is req (user_id v)).
Proof.
  intros Hk Hfind Hev Hmeta Hv.
  assert (Hkey := Hk _ _ Hfind). simpl in Hkey.
  assert (Hid : _id video' = k) by (destruct Hev as [[-> _] _]; done).
  unfold save; simpl. rewrite Hid.
  destruct (decide (id = k)) as [->|Hne].
  - rewrite Hfind in Hv. injection Hv as <-.
    left. exists video'. by rewrite lookup_insert_eq.
  - rewrite lookup_insert_ne by done. by apply untouched.
Qed.

(** A new document never takes the place of a stored one. *)
Lemma save_new_lookup (db db' : DB) (video v : Video) (id : string) :
  save_new video db = Ok db' ->
  videos db !! id = Some v ->
  videos db' !! id = Some v.
Proof.
  unfold save_new. intros Hsave Hv.
  destruct (videos db !! _id video) eqn:Hfresh; [discriminate|].
  injection Hsave as <-. unfold save; simpl.
  rewrite lookup_insert_ne; [done|congruence].
Qed.

Lemma upload_guarded (env : Env) : owner_guarded (upload env).
Proof.
  intros req db id v Hk Hv.
  destruct (ViewFacts.upload_keeps env req db Hk) as [_ Hkept].
  unfold upload in *.
  destruct (files req) as [fs|]; [|by apply untouched].
  destruct (fs !! "video"), (fs !! "thumbnail"); try by apply untouched.
  match goal with
  | |- context [match ?attempt with Ok _ => _ | Throw _ => _ end] =>
      destruct attempt as [[newVideo db']|] eqn:Hattempt
  end; [|by apply untouched].
  apply try_bind_Ok in Hattempt as (videoUpload & _ & Hattempt).
  apply try_bind_Ok in Hattempt as (thumbnailUpload & _ & Hattempt).
  apply try_bind_Ok in Hattempt as (uid & _ & Hattempt).
  apply try_bind_Ok in Hattempt as (db1 & Hsave & Hattempt).
  injection Hattempt as <- <-. simpl.
  left. exists v.
  split_and!; [by apply (save_new_lookup _ _ _ _ _ Hsave)|apply evolves_refl|].
  left. apply same_metadata_refl.
Qed.

Lemma req_user_id_caller (req : Request) (uid : string) :
  req_user_id req = Ok uid -> caller_is req uid.
Proof.
  unfold req_user_id, caller_is.
  destruct (user req) as [u|]; [|discriminate].
  intros [= <-]. by exists u.
Qed.

Lemma update_guarded (env : Env) : owner_guarded (update env).
Proof.
  intros req db id v Hk Hv. unfold update.
  destruct (findById (params req !! "id") (videos db)) as [video|] eqn:Hfind;
    [|by apply untouched].
  destruct (req_user_id req) as [uid|] eqn:Huid; [|by apply untouched].
  destruct (String.eqb_spec (user_id video) uid) as [Howner|];
    [|by apply untouched].
  simpl.
  destruct (replace_thumbnail env req video) as [video1|] eqn:Hthumb;
    [|by apply untouched].
  unfold findById in Hfind.
  destruct (params req !! "id") as [k|]; [|discriminate]. cbn [snd].
  apply (save_guarded db k id video); [done|done| |right|done].
  - unfold replace_thumbnail in Hthumb.
    assert (Hsame : same_identity video video1 ∧
                    viewedBy video1 = viewedBy video).
    { destruct (files req) as [fs|];
        [|injection Hthumb as <-; split; [apply same_identity_refl|done]].
      destruct (fs !! "thumbnail");
        [|injection Hthumb as <-; split; [apply same_identity_refl|done]].
      apply try_bind_Ok in Hthumb as (? & _ & Hthumb).
      apply try_bind_Ok in Hthumb as (thumbnailUpload & _ & Hthumb).
      injection Hthumb as <-. by repeat split. }
    destruct Hsame as [Hident Hviews].
    split_and!; simpl; [by destruct Hident as (?&?&?&?&?&?&?&?)| |].
    + by rewrite Hviews.
    + by rewrite Hviews.
  - rewrite Howner. by apply req_user_id_caller.
Qed.

Lemma delete_guarded (env : Env) : owner_guarded (delete_video env).
Proof.
  intros req db id v Hk Hv. unfold delete_video.
  destruct (findById (params req !! "id") (videos db)) as [video|] eqn:Hfind;
    [|by apply untouched].
  destruct (req_user_id req) as [uid|] eqn:Huid; [|by apply untouched].
  destruct (String.eqb_spec (user_id video) uid) as [Howner|];
    [|by apply untouched].
  simpl.
  match goal with
  | |- context [match ?attempt with Ok _ => _ | Throw _ => _ end] =>
      destruct attempt
  end; [|by apply untouched].
  unfold findByIdAndDelete, findById in *.
  destruct (params req !! "id") as [k|]; [|discriminate]. simpl.
  destruct (decide (id = k)) as [->|Hne].
  - right. rewrite lookup_delete_eq. split; [done|].
    rewrite Hfind in Hv. injection Hv as <-.
    rewrite Howner. by apply req_user_id_caller.
  - rewrite lookup_delete_ne by done. by apply untouched.
Qed.

Lemma get_by_id_guarded : owner_guarded get_by_id.
Proof.
  intros req db id v Hk Hv. unfold get_by_id.
  destruct (req_user_id req) as [userId|]; [|by apply untouched].
  unfold findByIdAndUpdate_viewedBy.
  destruct (findById (params req !! "id") (videos db)) as [video|] eqn:Hfind;
    [|by apply untouched].
  unfold findById in Hfind.
  destruct (params req !! "id") as [k|]; [|discriminate]. cbn [snd].
  apply (save_guarded db k id video); [done|done| |left|done].
  - split_and!; simpl.
    + by repeat split.
    + apply ViewFacts.addToSet_subseteq.
    + apply ViewFacts.addToSet_NoDup.
  - by repeat split.
Qed.

Lemma like_guarded : owner_guarded like.
Proof.
  intros req db id v Hk Hv.
  destruct (findById (body req !! "videoId") (videos db)) as [video|] eqn:Hfind.
  - rewrite (ReactionFacts.like_found _ _ _ Hfind). cbn [snd].
    unfold findById in Hfind.
    destruct (body req !! "videoId") as [k|]; [|discriminate].
    apply (save_guarded db k id video); [done|done| |left|done];
      destruct video; by repeat split.
  - rewrite (ReactionFacts.like_missing _ _ Hfind). by apply untouched.
Qed.

Lemma dislike_guarded : owner_guarded dislike.
Proof.
  intros req db id v Hk Hv.
  destruct (findById (body req !! "videoId") (videos db)) as [video|] eqn:Hfind.
  - rewrite (ReactionFacts.dislike_found _ _ _ Hfind). cbn [snd].
    unfold findById in Hfind.
    destruct (body req !! "videoId") as [k|]; [|discriminate].
    apply (save_guarded db k id video); [done|done| |left|done];
      destruct video; by repeat split.
  - rewrite (ReactionFacts.dislike_missing _ _ Hfind). by apply untouched.
Qed.

Lemma reads_guarded {D : Type} (handler : Request -> DB -> Response D * DB) :
  (∀ req db, videos (snd (handler req db)) = videos db) ->
  owner_guarded handler.
Proof.
  intros Hsame req db id v Hk Hv. rewrite Hsame. by apply untouched.
Qed.

Section Server.

Variable jwt_verify : string -> Try User.
Variable commentText_validator : option string -> Try unit.

(** One request and a stored video: the video stays stored and evolves,
    with its metadata untouched unless the request carries a token of its
    owner; or it is gone, and the request carries a token of its owner. *)
Lemma serve_guarded (e : Event) (db : DB) (id : string) (v : Video) :
  keyed_videos db ->
  videos db !! id = Some v ->
  let db' := snd (serve jwt_verify commentText_validator e db) in
  (∃ v', videos db' !! id = Some v' ∧ evolves v v' ∧
         (same_metadata v v' ∨ token_of jwt_verify e (user_id v))) ∨
  (videos db' !! id = None ∧ token_of jwt_verify e (user_id v)).
Proof.
  intros Hk Hv db'. subst db'.
  assert (Hauth : ∀ h : Request -> DB -> Response Video * DB,
            owner_guarded h ->
            let db' := snd (authenticated jwt_verify h (request e) db) in
            (∃ v', videos db' !! id = Some v' ∧ evolves v v' ∧
                   (same_metadata v v' ∨ token_of jwt_verify e (user_id v))) ∨
            (videos db' !! id = None ∧ token_of jwt_verify e (user_id v))).
  { intros h Hh. unfold authenticated.
    destruct (checkAuth jwt_verify (request e)) as [r|req'] eqn:Hcheck; simpl.
    - left. exists v.
      split_and!; [done|apply evolves_refl|left; apply same_metadata_refl].
    - destruct (TokenFacts.checkAuth_inr_token _ _ _ Hcheck)
        as (token & u & Htoken & _ & Hverify & ->).
      assert (Hcaller : caller_is (with_user (request e) u) (user_id v) ->
                        token_of jwt_verify e (user_id v)).
      { intros (u' & [= <-] & Hu). by exists token, u. }
      destruct (Hh (with_user (request e) u) db id v Hk Hv)
        as [(v' & ? & ? & [?|?])|[? ?]].
      + left. exists v'. by eauto.
      + left. exists v'. by eauto.
      + right. by eauto. }
  assert (Hread : ∀ db', videos db' = videos db ->
            (∃ v', videos db' !! id = Some v' ∧ evolves v v' ∧
                   (same_metadata v v' ∨ token_of jwt_verify e (user_id v))) ∨
            (videos db' !! id = None ∧ token_of jwt_verify e (user_id v))).
  { intros db' ->. left. exists v.
    split_and!; [done|apply evolves_refl|left; apply same_metadata_refl]. }
  unfold serve. destruct e as [[route|route] env req]; simpl in *.
  - destruct (router jwt_verify route env req db) as [res db'] eqn:Hrun.
    simpl.
    replace db' with (snd (router jwt_verify route env req db))
      by (by rewrite Hrun).
    clear Hrun. destruct route; simpl.
    + apply Hauth, upload_guarded.
    + apply Hauth, update_guarded.
    + apply Hauth, delete_guarded.
    + by apply Hread.
    + apply Hauth, reads_guarded. intros req0 db0. unfold my_videos.
      by destruct (req_user_id req0).
    + apply Hauth, get_by_id_guarded.
    + by apply Hread.
    + by apply Hread.
    + apply Hauth, like_guarded.
    + apply Hauth, dislike_guarded.
  - assert (Hsame := ViewFacts.comment_router_videos jwt_verify
                       commentText_validator route env req db).
    destruct (CommentRoutes.router _ _ route env req db) as [res db'].
    by apply Hread.
Qed.




(** X8: only the owner changes or removes a video: along requests none of
    which carries a token that verifies to the owner of the video, the
    video stays stored with its title, description, category, tags and
    thumbnail as they were. *)
Theorem owner_controls_metadata (es : list Event) (db : DB) (id : string)
    (v : Video) :
  keyed_videos db ->
  videos db !! id = Some v ->
  Forall (fun e => ¬ token_of jwt_verify e (user_id v)) es ->
  ∃ v', videos (run jwt_verify commentText_validator es db) !! id = Some v' ∧
        same_metadata v v' ∧ user_id v' = user_id v.
Proof.
  revert db v. induction es as [|e es IH]; intros db v Hk Hv Hes.
  - exists v. split_and!; [done|apply same_metadata_refl|done].
  - apply Forall_cons in Hes as [He Hes]. simpl.
    destruct (ViewFacts.serve_views jwt_verify commentText_validator e db Hk)
      as [Hk' _].
    destruct (serve_guarded e db id v Hk Hv)
      as [(v1 & Hv1 & Hev1 & [Hmeta|Hown])|[_ Hown]]; [|done|done].
    assert (Howner : user_id v1 = user_id v) by apply Hev1.
    rewrite <- Howner in Hes.
    destruct (IH _ v1 Hk' Hv1 Hes) as (v' & Hv' & Hmeta' & Howner').
    exists v'. split_and!; [done| |congruence].
    by eapply same_metadata_trans.
Qed.

End Server.

End EvolutionFacts.

(** ** What the video routes write *)

Module VideoFacts.
Import VideoModel VideoRoutes Evolution.

Lemma truthy_or_else (a b : option string) :
  truthy (or_else a b) = truthy a || truthy b.
Proof. unfold or_else. by destruct (truthy a) eqn:Ha; [rewrite Ha|]. Qed.

Lemma or_else_falsy (a b : option string) :
  truthy a = false -> or_else a b = b.
Proof. unfold or_else. by intros ->. Qed.

Lemma split_tags_falsy (otherwise : list string) (t : option string) :
  truthy t = false -> split_tags t otherwise = otherwise.
Proof. unfold split_tags. intros Ht. destruct t; [by rewrite Ht|done]. Qed.

(** The tags of a request, split at the commas and joined again. *)
Lemma join_split_tags (t : string) (otherwise : list string) :
  t ≠ "" -> join "," (split_tags (Some t) otherwise) = t.
Proof.
  intros Hne. unfold split_tags, truthy.
  destruct (String.eqb_spec t "") as [|_]; [done|]. simpl.
  unfold split. by rewrite TokenFacts.join_split_from.
Qed.

(** No piece of the split tags has a comma in it. *)
Lemma split_tags_pieces (t : string) (otherwise : list string) :
  t ≠ "" ->
  Forall (fun piece => has_char "," piece = false)
    (split_tags (Some t) otherwise).
Proof.
  intros Hne. unfold split_tags, truthy.
  destruct (String.eqb_spec t "") as [|_]; [done|]. simpl.
  unfold split. by apply TokenFacts.split_from_pieces.
Qed.

Lemma like_ext (req1 req2 : Request) (db : DB) :
  body req1 !! "videoId" = body req2 !! "videoId" ->
  like req1 db = like req2 db.
Proof. intros Heq. unfold like. by rewrite Heq. Qed.

Lemma dislike_ext (req1 req2 : Request) (db : DB) :
  body req1 !! "videoId" = body req2 !! "videoId" ->
  dislike req1 db = dislike req2 db.
Proof. intros Heq. unfold dislike. by rewrite Heq. Qed.

Section Routes.

Variable jwt_verify : string -> Try User.

(** A response other than those of [checkAuth] comes from the handler,
    run for the user the token verifies to. *)
Lemma authenticated_200 {D : Type}
    (handler : Request -> DB -> Response D * DB) (req : Request) (db db' : DB)
    (res : Response D) :
  authenticated jwt_verify handler req db = (res, db') ->
  (status res = 401 ∨ status res = 500) ∧ db' = db ∨
  ∃ token u,
    bearer_token req = Some token ∧ token ≠ "" ∧ jwt_verify token = Ok u ∧
    handler (with_user req u) db = (res, db').
Proof.
  unfold authenticated.
  destruct (checkAuth jwt_verify req) as [r|req'] eqn:Hcheck.
  - intros [= <- <-]. left. split; [|done].
    unfold checkAuth in Hcheck.
    destruct (bearer_token req) as [token|];
      [|injection Hcheck as <-; by left].
    destruct (String.eqb token ""); [injection Hcheck as <-; by left|].
    destruct (jwt_verify token); [discriminate|].
    injection Hcheck as <-. by right.
  - intros Hrun. right.
    destruct (TokenFacts.checkAuth_inr_token _ _ _ Hcheck)
      as (token & u & ? & ? & ? & ->).
    by exists token, u.
Qed.

(** What an upload writes, by its answer. *)
Lemma upload_outcome (env : Env) (req : Request) (db db' : DB)
    (res : Response Video) :
  router jwt_verify POST_upload env req db = (res, db') ->
  (status res = 200 ->
   ∃ token u v,
     bearer_token req = Some token ∧ jwt_verify token = Ok u ∧
     videos db !! ObjectId_new env = None ∧
     videos db' = <[ObjectId_new env := v]> (videos db) ∧
     comments db' = comments db ∧
     _id v = ObjectId_new env ∧
     user_id v = Http._id u ∧
     title v = body req !! "title" ∧
     description v = body req !! "description" ∧
     category v = body req !! "category" ∧
     (∀ t, body req !! "tags" = Some t -> t ≠ "" ->
           join "," (tags v) = t ∧
           Forall (fun piece => has_char "," piece = false) (tags v)) ∧
     (truthy (body req !! "tags") = false -> tags v = [])) ∧
  (status res ≠ 200 -> db' = db).
Proof.
  intros Hrun. simpl in Hrun.
  apply authenticated_200 in Hrun
    as [[Hstatus ->]|(token & u & Htoken & Hne & Hverify & Hrun)].
  { split; [|done]. intros H200. rewrite H200 in Hstatus.
    by destruct Hstatus. }
  unfold upload in Hrun. simpl in Hrun.
  destruct (files req) as [fs|];
    [|injection Hrun as <- <-; split; [discriminate|done]].
  destruct (fs !! "video") as [video|];
    [|injection Hrun as <- <-; split; [discriminate|done]].
  destruct (fs !! "thumbnail") as [thumbnail|];
    [|injection Hrun as <- <-; split; [discriminate|done]].
  match type of Hrun with
  | match ?attempt with Ok _ => _ | Throw _ => _ end = _ =>
      destruct attempt as [[newVideo db1]|] eqn:Hattempt
  end; [|injection Hrun as <- <-; split; [discriminate|done]].
  injection Hrun as <- <-. split; [intros _|done].
  apply try_bind_Ok in Hattempt as (videoUpload & _ & Hattempt).
  apply try_bind_Ok in Hattempt as (thumbnailUpload & _ & Hattempt).
  apply try_bind_Ok in Hattempt as (db2 & Hsave & Hattempt).
  injection Hattempt as <- <-.
  unfold save_new in Hsave. simpl in Hsave.
  destruct (videos db !! ObjectId_new env) eqn:Hfresh; [discriminate|].
  injection Hsave as <-.
  eexists token, u, _.
  split_and!; try done.
  - intros t Ht Hnonempty.
    change (join "," (split_tags (body req !! "tags") []) = t ∧
            Forall (fun piece => has_char "," piece = false)
              (split_tags (body req !! "tags") [])).
    rewrite Ht. split; [by apply join_split_tags|by apply split_tags_pieces].
  - intros Hfalsy.
    change (split_tags (body req !! "tags") [] = []).
    by apply split_tags_falsy.
Qed.

(** X9: an upload answered 200 adds one video under the id made for it,
    which no stored video had; its owner is the caller, its title,
    description and category are those of the body, and its tags are the
    pieces of the [tags] text between the commas: no tag has a comma in
    it, and the tags joined with commas are the text. Every other video
    and every comment is as before. An upload answered otherwise writes
    nothing. *)
Theorem upload_adds_one_video (env : Env) (req : Request) (db db' : DB)
    (res : Response Video) :
  router jwt_verify POST_upload env req db = (res, db') ->
  (status res = 200 ->
   ∃ token u v,
     bearer_token req = Some token ∧ jwt_verify token = Ok u ∧
     videos db !! ObjectId_new env = None ∧
     videos db' = <[ObjectId_new env := v]> (videos db) ∧
     comments db' = comments db ∧
     _id v = ObjectId_new env ∧
     user_id v = Http._id u ∧
     title v = body req !! "title" ∧
     description v = body req !! "description" ∧
     category v = body req !! "category" ∧
     (∀ t, body req !! "tags" = Some t -> t ≠ "" ->
           join "," (tags v) = t ∧
           Forall (fun piece => has_char "," piece = false) (tags v)) ∧
     (truthy (body req !! "tags") = false -> tags v = [])) ∧
  (status res ≠ 200 -> db' = db).
Proof. apply upload_outcome. Qed.

(** What the like and dislike routes leave under the id of a stored
    video: the video as it was, or with the counters of the handler. *)
Lemma reaction_outcome (route : Route) (env : Env) (req : Request) (db : DB)
    (id : string) (v : Video) :
  keyed_videos db ->
  route = POST_like ∨ route = POST_dislike ->
  videos db !! id = Some v ->
  let db' := snd (router jwt_verify route env req db) in
  videos db' !! id = Some v ∨
  (route = POST_like ∧ videos db' !! id = Some (Reactions.liked v)) ∨
  (route = POST_dislike ∧ videos db' !! id = Some (Reactions.disliked v)).
Proof.
  intros Hk Hroute Hv db'. subst db'.
  assert (Hsaved : ∀ (req' : Request) (video video' : Video),
            findById (body req' !! "videoId") (videos db) = Some video ->
            _id video' = _id video ->
            videos (save video' db) !! id = Some v ∨
            (video = v ∧ videos (save video' db) !! id = Some video')).
  { intros req' video video' Hfind Hid. unfold findById in Hfind.
    destruct (body req' !! "videoId") as [k|]; [|discriminate].
    assert (Hkey := Hk _ _ Hfind). simpl in Hkey.
    unfold save; simpl. rewrite Hid, Hkey.
    destruct (decide (id = k)) as [->|Hne].
    - right. rewrite lookup_insert_eq. split; [congruence|done].
    - left. by rewrite lookup_insert_ne. }
  destruct Hroute as [-> | ->]; simpl.
  - destruct (authenticated_cases jwt_verify like req db) as [[r ->]|[u ->]];
      [by left|].
    destruct (findById (body (with_user req u) !! "videoId") (videos db))
      as [video|] eqn:Hfind.
    + rewrite (ReactionFacts.like_found _ _ _ Hfind). cbn [snd].
      destruct (Hsaved _ video (Reactions.liked video) Hfind)
        as [?|[-> ?]]; [by destruct video|by left|right; by left].
    + rewrite (ReactionFacts.like_missing _ _ Hfind). by left.
  - destruct (authenticated_cases jwt_verify dislike req db) as [[r ->]|[u ->]];
      [by left|].
    destruct (findById (body (with_user req u) !! "videoId") (videos db))
      as [video|] eqn:Hfind.
    + rewrite (ReactionFacts.dislike_found _ _ _ Hfind). cbn [snd].
      destruct (Hsaved _ video (Reactions.disliked video) Hfind)
        as [?|[-> ?]]; [by destruct video|by left|right; by right].
    + rewrite (ReactionFacts.dislike_missing _ _ Hfind). by left.
Qed.

(** X10: a request to the like or dislike route never lowers the sum of
    the likes and dislikes of a video whose counters are not negative and
    not above [Number.MAX_SAFE_INTEGER], and raises it by at most one. *)
Theorem reactions_total_grows_slowly (route : Route) (env : Env)
    (req : Request) (db : DB) (id : string) (v : Video) :
  keyed_videos db ->
  route = POST_like ∨ route = POST_dislike ->
  videos db !! id = Some v ->
  0 <= likes v <= MAX_SAFE_INTEGER ->
  0 <= dislikes v <= MAX_SAFE_INTEGER ->
  ∃ v', videos (snd (router jwt_verify route env req db)) !! id = Some v' ∧
        likes v + dislikes v <= likes v' + dislikes v' ∧
        likes v' + dislikes v' <= likes v + dislikes v + 1.
Proof.
  intros Hk Hroute Hv Hl Hd.
  destruct (reaction_outcome route env req db id v Hk Hroute Hv)
    as [Hsame|[[_ Hliked]|[_ Hdisliked]]].
  - exists v. split; [done|lia].
  - exists (Reactions.liked v). split; [done|].
    unfold Reactions.liked, Reactions.decrement_if_positive.
    destruct v; simpl in *. destruct (Z.gtb_spec dislikes0 0); simpl; lia.
  - exists (Reactions.disliked v). split; [done|].
    unfold Reactions.disliked, Reactions.decrement_if_positive.
    destruct v; simpl in *. destruct (Z.gtb_spec likes0 0); simpl; lia.
Qed.

(** X11: the like and dislike routes do not look at who calls: two
    requests for the same video by callers with tokens that verify are
    answered alike and leave the same store, whoever the callers are. *)
Theorem reaction_ignores_caller (env1 env2 : Env) (req1 req2 : Request)
    (db : DB) (token1 token2 : string) (u1 u2 : User) :
  bearer_token req1 = Some token1 -> token1 ≠ "" ->
  jwt_verify token1 = Ok u1 ->
  bearer_token req2 = Some token2 -> token2 ≠ "" ->
  jwt_verify token2 = Ok u2 ->
  body req1 !! "videoId" = body req2 !! "videoId" ->
  router jwt_verify POST_like env1 req1 db
  = router jwt_verify POST_like env2 req2 db ∧
  router jwt_verify POST_dislike env1 req1 db
  = router jwt_verify POST_dislike env2 req2 db.
Proof.
  intros Ht1 Hn1 Hv1 Ht2 Hn2 Hv2 Hbody. simpl.
  rewrite !(authenticated_pass _ _ _ _ _
              (BoundaryFacts.checkAuth_valid jwt_verify (D := Video) _ _ _
                 Ht1 Hn1 Hv1)).
  rewrite !(authenticated_pass _ _ _ _ _
              (BoundaryFacts.checkAuth_valid jwt_verify (D := Video) _ _ _
                 Ht2 Hn2 Hv2)).
  split; [by apply like_ext|by apply dislike_ext].
Qed.

(** X12: a like followed by a dislike of the same video leaves its likes
    as they were and its dislikes at one at least: the counts (l, d), not
    negative and not above [Number.MAX_SAFE_INTEGER], become
    (l, max d 1). *)
Theorem like_then_dislike (env1 env2 : Env) (req1 req2 : Request) (db : DB)
    (token1 token2 : string) (u1 u2 : User) (id : string) (v : Video) :
  keyed_videos db ->
  bearer_token req1 = Some token1 -> token1 ≠ "" ->
  jwt_verify token1 = Ok u1 ->
  bearer_token req2 = Some token2 -> token2 ≠ "" ->
  jwt_verify token2 = Ok u2 ->
  body req1 !! "videoId" = Some id ->
  body req2 !! "videoId" = Some id ->
  videos db !! id = Some v ->
  0 <= likes v <= MAX_SAFE_INTEGER ->
  0 <= dislikes v <= MAX_SAFE_INTEGER ->
  let db1 := snd (router jwt_verify POST_like env1 req1 db) in
  let db2 := snd (router jwt_verify POST_dislike env2 req2 db1) in
  Reactions.counts_of db2 id = Some (likes v, Z.max (dislikes v) 1).
Proof.
  intros Hk Ht1 Hn1 Hv1 Ht2 Hn2 Hv2 Hb1 Hb2 Hv Hl Hd db1 db2.
  assert (Hc : Reactions.counts_of db id = Some (likes v, dislikes v))
    by (unfold Reactions.counts_of; by rewrite Hv).
  destruct (ReactionFacts.like_counts jwt_verify env1 _ _ _ _ _ _ Hk
              (BoundaryFacts.checkAuth_valid jwt_verify (D := Video) _ _ _
                 Ht1 Hn1 Hv1) Hb1 Hc) as [Hk1 Hc1].
  destruct (ReactionFacts.dislike_counts jwt_verify env2 _ _ _ _ _ _ Hk1
              (BoundaryFacts.checkAuth_valid jwt_verify (D := Video) _ _ _
                 Ht2 Hn2 Hv2) Hb2 Hc1) as [_ Hc2].
  subst db1 db2. rewrite Hc2. f_equal. f_equal.
  - unfold Reactions.decrement_if_positive.
    destruct (Z.gtb_spec (likes v + 1) 0); lia.
  - unfold Reactions.decrement_if_positive.
    destruct (Z.gtb_spec (dislikes v) 0); lia.
Qed.

(** X13: an update answered 200 writes the entry of the video named in
    the path and nothing else; in that entry the id, the owner, the media
    of the video, the counters, [viewedBy] and the creation time stay, and
    so does the thumbnail when the request has no thumbnail file. An
    update answered otherwise writes nothing. *)
Theorem update_frame (env : Env) (req : Request) (db db' : DB)
    (res : Response Video) :
  keyed_videos db ->
  router jwt_verify PUT_update env req db = (res, db') ->
  (status res = 200 ->
   ∃ id v v',
     params req !! "id" = Some id ∧
     videos db !! id = Some v ∧
     videos db' = <[id := v']> (videos db) ∧
     comments db' = comments db ∧
     same_identity v v' ∧
     likes v' = likes v ∧ dislikes v' = dislikes v ∧
     viewedBy v' = viewedBy v ∧
     ((∀ fs, files req = Some fs -> fs !! "thumbnail" = None) ->
      thumbnailUrl v' = thumbnailUrl v ∧ thumbnailId v' = thumbnailId v)) ∧
  (status res ≠ 200 -> db' = db).
Proof.
  intros Hk Hrun. simpl in Hrun.
  apply authenticated_200 in Hrun
    as [[Hstatus ->]|(token & u & Htoken & Hne & Hverify & Hrun)].
  { split; [|done]. intros H200. rewrite H200 in Hstatus.
    by destruct Hstatus. }
  unfold update in Hrun. cbn [params body with_user] in Hrun.
  destruct (findById (params req !! "id") (videos db)) as [video|] eqn:Hfind;
    [|injection Hrun as <- <-; split; [discriminate|done]].
  cbn [req_user_id user with_user] in Hrun.
  destruct (negb _);
    [injection Hrun as <- <-; split; [discriminate|done]|].
  destruct (replace_thumbnail env (with_user req u) video) as [video1|]
    eqn:Hthumb; [|injection Hrun as <- <-; split; [discriminate|done]].
  injection Hrun as <- <-. split; [intros _|done].
  unfold findById in Hfind.
  destruct (params req !! "id") as [id|]; [|discriminate].
  assert (Hkey := Hk _ _ Hfind). simpl in Hkey.
  assert (Hsame : same_identity video video1 ∧ likes video1 = likes video ∧
                  dislikes video1 = dislikes video ∧
                  viewedBy video1 = viewedBy video ∧
                  ((∀ fs, files req = Some fs -> fs !! "thumbnail" = None) ->
                   video1 = video)).
  { unfold replace_thumbnail in Hthumb. cbn [files with_user] in Hthumb.
    destruct (files req) as [fs|];
      [|injection Hthumb as <-; by repeat split].
    destruct (fs !! "thumbnail") eqn:Hfile;
      [|injection Hthumb as <-; by repeat split].
    apply try_bind_Ok in Hthumb as (? & _ & Hthumb).
    apply try_bind_Ok in Hthumb as (thumbnailUpload & _ & Hthumb).
    injection Hthumb as <-. split_and!; try done.
    intros Hnone. specialize (Hnone fs eq_refl). congruence. }
  destruct Hsame as (Hident & Hl & Hd & Hviews & Hthumbnail).
  eexists id, video, _. split_and!; [done|done| |done| | | | |].
  - unfold save; simpl.
    destruct Hident as [Hid _]. by rewrite Hid, Hkey.
  - destruct Hident as (?&?&?&?&?&?&?&?). by repeat split.
  - done.
  - done.
  - done.
  - intros Hnone. by rewrite (Hthumbnail Hnone).
Qed.

(** X14: an update cannot blank a field: the title, the description and
    the category of a stored video that are not empty are not empty after
    a request to the update route, whatever the request. *)
Theorem update_keeps_nonempty (env : Env) (req : Request) (db : DB)
    (id : string) (v : Video) :
  keyed_videos db ->
  videos db !! id = Some v ->
  ∃ v', videos (snd (router jwt_verify PUT_update env req db)) !! id = Some v' ∧
        (truthy (title v) = true -> truthy (title v') = true) ∧
        (truthy (description v) = true -> truthy (description v') = true) ∧
        (truthy (category v) = true -> truthy (category v') = true).
Proof.
  intros Hk Hv. simpl.
  destruct (authenticated_cases jwt_verify (update env) req db)
    as [[r ->]|[u ->]]; [by exists v|].
  set (req' := with_user req u). unfold update.
  destruct (findById (params req' !! "id") (videos db)) as [video|] eqn:Hfind;
    [|by exists v].
  destruct (req_user_id req'); [|by exists v].
  destruct (negb _); [by exists v|].
  destruct (replace_thumbnail env req' video) as [video1|] eqn:Hthumb;
    [|by exists v].
  assert (Hsame : _id video1 = _id video ∧ title video1 = title video ∧
                  description video1 = description video ∧
                  category video1 = category video).
  { unfold replace_thumbnail in Hthumb.
    destruct (files req') as [fs|]; [|by injection Hthumb as <-].
    destruct (fs !! "thumbnail"); [|by injection Hthumb as <-].
    apply try_bind_Ok in Hthumb as (? & _ & Hthumb).
    apply try_bind_Ok in Hthumb as (thumbnailUpload & _ & Hthumb).
    by injection Hthumb as <-. }
  destruct Hsame as (Hid & Ht & Hd & Hc).
  unfold findById in Hfind.
  destruct (params req' !! "id") as [k|]; [|discriminate].
  assert (Hkey := Hk _ _ Hfind). simpl in Hkey.
  unfold save; simpl. rewrite Hid, Hkey.
  destruct (decide (id = k)) as [->|Hne].
  - rewrite lookup_insert_eq. eexists. split; [done|].
    assert (video = v) as -> by congruence. simpl.
    rewrite !truthy_or_else, Ht, Hd, Hc.
    split_and!; intros ->; apply orb_true_r.
  - rewrite lookup_insert_ne by done. by exists v.
Qed.

(** X15: an update request of the owner with no title, description,
    category or tags in its body (or empty ones) and no thumbnail file is
    answered 200 with the video as it is stored, and writes nothing. *)
Theorem update_without_fields (env : Env) (req : Request) (db : DB)
    (token : string) (u : User) (id : string) (v : Video) :
  keyed_videos db ->
  bearer_token req = Some token -> token ≠ "" ->
  jwt_verify token = Ok u ->
  params req !! "id" = Some id ->
  videos db !! id = Some v ->
  user_id v = Http._id u ->
  truthy (body req !! "title") = false ->
  truthy (body req !! "description") = false ->
  truthy (body req !! "category") = false ->
  truthy (body req !! "tags") = false ->
  (∀ fs, files req = Some fs -> fs !! "thumbnail" = None) ->
  router jwt_verify PUT_update env req db
  = (mkResponse 200
       (JObject [("message", VString "Video updated successfully");
                 ("video", VDoc v)]), db).
Proof.
  intros Hk Htoken Hne Hverify Hparam Hv Howner Ht Hd Hc Htags Hfiles. simpl.
  rewrite (authenticated_pass _ _ _ _ _
             (BoundaryFacts.checkAuth_valid jwt_verify (D := Video) _ _ _
                Htoken Hne Hverify)).
  unfold update. cbn [params body with_user]. rewrite Hparam.
  cbn [findById]. rewrite Hv. cbn [req_user_id user with_user].
  rewrite Howner, String.eqb_refl. cbn [negb].
  assert (Hthumb : replace_thumbnail env (with_user req u) v = Ok v).
  { unfold replace_thumbnail. cbn [files with_user].
    destruct (files req) as [fs|] eqn:Hfs; [|done].
    by rewrite (Hfiles fs eq_refl). }
  rewrite Hthumb.
  rewrite !or_else_falsy, split_tags_falsy by done.
  assert (Heta : set_metadata v (title v) (description v) (category v) (tags v)
                 = v) by (by destruct v).
  rewrite Heta. f_equal.
  unfold save, set_videos. rewrite (Hk _ _ Hv), insert_id by done.
  by destruct db.
Qed.

(** What a delete writes, by its answer. *)
Lemma delete_outcome (env : Env) (req : Request) (db db' : DB)
    (res : Response Video) :
  router jwt_verify DELETE_delete env req db = (res, db') ->
  (status res = 200 ->
   ∃ id v,
     params req !! "id" = Some id ∧
     videos db !! id = Some v ∧
     videos db' = delete id (videos db) ∧
     comments db' = comments db) ∧
  (status res ≠ 200 -> db' = db).
Proof.
  intros Hrun. simpl in Hrun.
  apply authenticated_200 in Hrun
    as [[Hstatus ->]|(token & u & Htoken & Hne & Hverify & Hrun)].
  { split; [|done]. intros H200. rewrite H200 in Hstatus.
    by destruct Hstatus. }
  unfold delete_video in Hrun. cbn [params with_user] in Hrun.
  destruct (findById (params req !! "id") (videos db)) as [video|] eqn:Hfind;
    [|injection Hrun as <- <-; split; [discriminate|done]].
  cbn [req_user_id user with_user] in Hrun.
  destruct (negb _);
    [injection Hrun as <- <-; split; [discriminate|done]|].
  match type of Hrun with
  | match ?attempt with Ok _ => _ | Throw _ => _ end = _ =>
      destruct attempt
  end; [|injection Hrun as <- <-; split; [discriminate|done]].
  injection Hrun as <- <-. split; [intros _|done].
  unfold findById in Hfind. unfold findByIdAndDelete.
  destruct (params req !! "id") as [id|]; [|discriminate].
  by exists id, video.
Qed.

(** X16: a delete answered 200 removes the video named in the path, which
    was stored, and nothing else: every other video and every comment,
    those on the removed video too, is as before. A delete answered
    otherwise writes nothing. *)
Theorem delete_removes_one_video (env : Env) (req : Request) (db db' : DB)
    (res : Response Video) :
  router jwt_verify DELETE_delete env req db = (res, db') ->
  (status res = 200 ->
   ∃ id v,
     params req !! "id" = Some id ∧
     videos db !! id = Some v ∧
     videos db' = delete id (videos db) ∧
     comments db' = comments db) ∧
  (status res ≠ 200 -> db' = db).
Proof. apply delete_outcome. Qed.

(** X17: a view answered 200 writes the entry of the video named in the
    path and nothing else; the entry differs in [viewedBy] only, where the
    caller is added at the end unless already a member; the video sent is
    the video stored. *)
Theorem view_adds_caller (env : Env) (req : Request) (db db' : DB)
    (res : Response Video) :
  keyed_videos db ->
  router jwt_verify GET_id env req db = (res, db') ->
  status res = 200 ->
  ∃ token u id v v',
    bearer_token req = Some token ∧ jwt_verify token = Ok u ∧
    params req !! "id" = Some id ∧
    videos db !! id = Some v ∧
    videos db' = <[id := v']> (videos db) ∧
    comments db' = comments db ∧
    json res = JValue (VDoc v') ∧
    viewedBy v' = (if decide (Http._id u ∈ viewedBy v) then viewedBy v
                   else viewedBy v ++ [Http._id u])%list ∧
    same_identity v v' ∧ same_metadata v v' ∧
    likes v' = likes v ∧ dislikes v' = dislikes v.
Proof.
  intros Hk Hrun H200. simpl in Hrun.
  apply authenticated_200 in Hrun
    as [[Hstatus ->]|(token & u & Htoken & Hne & Hverify & Hrun)].
  { rewrite H200 in Hstatus. by destruct Hstatus. }
  unfold get_by_id, findByIdAndUpdate_viewedBy in Hrun.
  cbn [params req_user_id user with_user] in Hrun.
  destruct (findById (params req !! "id") (videos db)) as [video|] eqn:Hfind;
    [|injection Hrun as <- <-; discriminate].
  injection Hrun as <- <-.
  unfold findById in Hfind.
  destruct (params req !! "id") as [id|]; [|discriminate].
  assert (Hkey := Hk _ _ Hfind). simpl in Hkey.
  eexists token, u, id, video, _.
  split_and!; [done|done|done|done| |done|done| | | | |].
  - unfold save; simpl. by rewrite Hkey.
  - done.
  - by repeat split.
  - by repeat split.
  - done.
  - done.
Qed.

End Routes.

Section Server.

Variable jwt_verify : string -> Try User.
Variable commentText_validator : option string -> Try unit.

(** A request of an authenticated caller that names a video that is not
    stored is answered 404 and writes nothing. *)
Lemma missing_video_404 (e : Event) (db : DB) (id token : string) (u : User) :
  names_video id e ->
  videos db !! id = None ->
  bearer_token (request e) = Some token -> token ≠ "" ->
  jwt_verify token = Ok u ->
  serve jwt_verify commentText_validator e db = (404, db).
Proof.
  intros Hnames Hmissing Htoken Hne Hverify.
  assert (Hauth := BoundaryFacts.checkAuth_valid jwt_verify (D := Video)
                     _ _ _ Htoken Hne Hverify).
  unfold serve, names_video in *.
  destruct e as [[route|route] env req]; simpl in *; [|done].
  destruct route; try done; simpl;
    rewrite (authenticated_pass _ _ _ _ _ Hauth).
  - unfold update. cbn [params with_user]. rewrite Hnames. cbn [findById].
    by rewrite Hmissing.
  - unfold delete_video. cbn [params with_user]. rewrite Hnames.
    cbn [findById]. by rewrite Hmissing.
  - unfold get_by_id, findByIdAndUpdate_viewedBy.
    cbn [params req_user_id user with_user]. rewrite Hnames. cbn [findById].
    by rewrite Hmissing.
  - rewrite ReactionFacts.like_missing; [done|].
    cbn [body with_user]. rewrite Hnames. by cbn [findById].
  - rewrite ReactionFacts.dislike_missing; [done|].
    cbn [body with_user]. rewrite Hnames. by cbn [findById].
Qed.

(** X18: once a delete of a video is answered 200, a later request of an
    authenticated caller that names the video (to view, like, dislike,
    update or delete it) is answered 404 and writes nothing. *)
Theorem deleted_video_is_gone (e1 e2 : Event) (db db1 : DB) (id token : string)
    (u : User) :
  endpoint e1 = VideoEndpoint DELETE_delete ->
  params (request e1) !! "id" = Some id ->
  serve jwt_verify commentText_validator e1 db = (200, db1) ->
  names_video id e2 ->
  bearer_token (request e2) = Some token -> token ≠ "" ->
  jwt_verify token = Ok u ->
  serve jwt_verify commentText_validator e2 db1 = (404, db1).
Proof.
  intros Hroute Hparam Hserve Hnames Htoken Hne Hverify.
  apply (missing_video_404 e2 db1 id token u); try done.
  unfold serve in Hserve. rewrite Hroute in Hserve.
  destruct (router jwt_verify DELETE_delete (env e1) (request e1) db)
    as [res db'] eqn:Hrun.
  injection Hserve as H200 ->.
  destruct (delete_outcome jwt_verify _ _ _ _ _ Hrun)
    as [Hdone _].
  destruct (Hdone H200) as (id' & v & Hid & _ & -> & _).
  assert (id' = id) as -> by congruence.
  apply lookup_delete_eq.
Qed.

(** X19: the uploader owns the video: after an upload answered 200, a
    request to update or delete the new video by a caller whose token
    verifies to another user is answered 403 and writes nothing. *)
Theorem uploader_owns_video (e1 e2 : Event) (db db1 : DB)
    (token1 token2 : string) (u1 u2 : User) :
  endpoint e1 = VideoEndpoint POST_upload ->
  bearer_token (request e1) = Some token1 ->
  jwt_verify token1 = Ok u1 ->
  serve jwt_verify commentText_validator e1 db = (200, db1) ->
  endpoint e2 = VideoEndpoint PUT_update ∨
  endpoint e2 = VideoEndpoint DELETE_delete ->
  params (request e2) !! "id" = Some (ObjectId_new (env e1)) ->
  bearer_token (request e2) = Some token2 -> token2 ≠ "" ->
  jwt_verify token2 = Ok u2 ->
  Http._id u2 ≠ Http._id u1 ->
  serve jwt_verify commentText_validator e2 db1 = (403, db1).
Proof.
  intros Hroute Htoken1 Hverify1 Hserve He2 Hparam Htoken2 Hne2 Hverify2 Hdiff.
  unfold serve in Hserve. rewrite Hroute in Hserve.
  destruct (router jwt_verify POST_upload (env e1) (request e1) db)
    as [res db'] eqn:Hrun.
  injection Hserve as H200 ->.
  destruct (upload_outcome jwt_verify _ _ _ _ _ Hrun)
    as [Hdone _].
  destruct (Hdone H200)
    as (token & u & v & Htoken & Hverify & _ & Hvideos & _ & _ & Howner & _).
  assert (token = token1) as -> by congruence.
  assert (u = u1) as -> by congruence.
  apply (BoundaryFacts.mutation_denied jwt_verify commentText_validator
           e2 db1 token2 u2 (Http._id u1)); try done.
  - by destruct He2 as [-> | ->].
  - assert (Hfind : findById (params (request e2) !! "id") (videos db1)
                    = Some v).
    { rewrite Hparam. cbn [findById]. rewrite Hvideos.
      apply lookup_insert_eq. }
    destruct He2 as [-> | ->]; simpl; rewrite Hfind; simpl; by rewrite Howner.
Qed.

End Server.

End VideoFacts.

(** ** What the comment routes write *)

Module CommentFacts.
Import CommentModel CommentRoutes Evolution.

#[global] Instance comment_newer_first_total : Total CommentRoutes.newer_first.
Proof. intros a b. unfold CommentRoutes.newer_first. lia. Qed.

#[global] Instance comment_newer_first_transitive :
  Transitive CommentRoutes.newer_first.
Proof. intros a b c. unfold CommentRoutes.newer_first. lia. Qed.

Section Router.

Variable jwt_verify : string -> Try User.
Variable commentText_validator : option string -> Try unit.

(** What a request to add a comment writes, by its answer. *)
Lemma new_outcome (env : Env) (req : Request) (db db' : DB)
    (res : Response Comment) :
  CommentRoutes.router jwt_verify commentText_validator
    POST_new env req db = (res, db') ->
  (status res = 201 ->
   ∃ token u vid text,
     bearer_token req = Some token ∧ jwt_verify token = Ok u ∧
     body req !! "video_id" = Some vid ∧ vid ≠ "" ∧
     body req !! "commentText" = Some text ∧ text ≠ "" ∧
     comments db !! ObjectId_new env = None ∧
     comments db'
     = <[ObjectId_new env :=
           mkComment (ObjectId_new env) vid (Some text) (Http._id u)
             (Date_now env 0%nat)]> (comments db) ∧
     videos db' = videos db) ∧
  (status res ≠ 201 -> db' = db).
Proof.
  intros Hrun. simpl in Hrun.
  apply VideoFacts.authenticated_200 in Hrun
    as [[Hstatus ->]|(token & u & Htoken & Hne & Hverify & Hrun)].
  { split; [|done]. intros H201. rewrite H201 in Hstatus.
    by destruct Hstatus. }
  unfold new in Hrun. cbn [body with_user] in Hrun.
  destruct (body req !! "video_id") as [vid|] eqn:Hvid;
    [|injection Hrun as <- <-; split; [discriminate|done]].
  destruct (negb (truthy (Some vid)) || negb (truthy (body req !! "commentText")))
    eqn:Hmissing;
    [injection Hrun as <- <-; split; [discriminate|done]|].
  apply orb_false_iff in Hmissing as [Hv Ht].
  apply negb_false_iff in Hv, Ht.
  match type of Hrun with
  | match ?attempt with Ok _ => _ | Throw _ => _ end = _ =>
      destruct attempt as [[newComment db1]|] eqn:Hattempt
  end; [|injection Hrun as <- <-; split; [discriminate|done]].
  injection Hrun as <- <-. split; [intros _|done].
  cbn [req_user_id user with_user] in Hattempt.
  apply try_bind_Ok in Hattempt as (uid & [= <-] & Hattempt).
  apply try_bind_Ok in Hattempt as (db2 & Hsave & Hattempt).
  injection Hattempt as <- <-.
  unfold save_new in Hsave.
  apply try_bind_Ok in Hsave as (? & _ & Hsave). simpl in Hsave.
  destruct (comments db !! ObjectId_new env) eqn:Hfresh; [discriminate|].
  injection Hsave as <-.
  destruct (body req !! "commentText") as [text|] eqn:Htext; [|discriminate].
  exists token, u, vid, text.
  unfold truthy in Hv, Ht.
  split_and!; try done.
  - intros ->. discriminate.
  - intros ->. discriminate.
Qed.

(** X20: a request to add a comment answered 201 adds one comment under
    the id made for it, which no stored comment had, written by the caller
    with the video id and the text of the body, both not empty; every
    other comment and every video is as before. A request answered
    otherwise writes nothing. *)
Theorem new_comment_adds_one (env : Env) (req : Request) (db db' : DB)
    (res : Response Comment) :
  CommentRoutes.router jwt_verify commentText_validator
    POST_new env req db = (res, db') ->
  (status res = 201 ->
   ∃ token u vid text,
     bearer_token req = Some token ∧ jwt_verify token = Ok u ∧
     body req !! "video_id" = Some vid ∧ vid ≠ "" ∧
     body req !! "commentText" = Some text ∧ text ≠ "" ∧
     comments db !! ObjectId_new env = None ∧
     comments db'
     = <[ObjectId_new env :=
           mkComment (ObjectId_new env) vid (Some text) (Http._id u)
             (Date_now env 0%nat)]> (comments db) ∧
     videos db' = videos db) ∧
  (status res ≠ 201 -> db' = db).
Proof. apply new_outcome. Qed.

(** The handler does not read the videos. *)
Lemma new_ignores_videos (env : Env) (req : Request) (db : DB)
    (vs : gmap string VideoModel.Video) :
  let '(res, db') := new commentText_validator env req db in
  new commentText_validator env req (mkDB vs (comments db))
  = (res, mkDB vs (comments db')).
Proof.
  unfold new.
  destruct (body req !! "video_id") as [vid|]; [|done].
  destruct (_ || _); [done|].
  destruct (req_user_id req) as [uid|]; simpl; [|done].
  unfold save_new. simpl.
  destruct (commentText_validator _); simpl; [|done].
  by destruct (comments db !! ObjectId_new env).
Qed.

(** X21: the route that adds a comment does not check that the video
    exists: against a store with the same comments and any videos, none at
    all for one, the request is answered with the same status and leaves
    the same comments. *)
Theorem new_comment_ignores_videos (env : Env) (req : Request) (db : DB)
    (vs : gmap string VideoModel.Video) :
  let run1 :=
    CommentRoutes.router jwt_verify commentText_validator
      POST_new env req db in
  let run2 :=
    CommentRoutes.router jwt_verify commentText_validator
      POST_new env req (mkDB vs (comments db)) in
  status (fst run2) = status (fst run1) ∧
  comments (snd run2) = comments (snd run1).
Proof.
  simpl. unfold authenticated.
  destruct (checkAuth jwt_verify req) as [r|req']; [done|].
  assert (H := new_ignores_videos env req' db vs).
  destruct (new commentText_validator env req' db) as [res db'].
  by rewrite H.
Qed.

(** What an update of a comment writes, by its answer. *)
Lemma put_outcome (env : Env) (req : Request) (db db' : DB)
    (res : Response Comment) :
  keyed_comments db ->
  CommentRoutes.router jwt_verify commentText_validator
    PUT_commentId env req db = (res, db') ->
  (status res = 200 ->
   ∃ token u id c,
     bearer_token req = Some token ∧ jwt_verify token = Ok u ∧
     params req !! "commentId" = Some id ∧
     comments db !! id = Some c ∧
     user_id c = Http._id u ∧
     comments db'
     = <[id := mkComment (_id c) (video_id c) (body req !! "commentText")
                 (user_id c) (createdAt c)]> (comments db) ∧
     videos db' = videos db) ∧
  (status res ≠ 200 -> db' = db).
Proof.
  intros Hk Hrun. simpl in Hrun.
  apply VideoFacts.authenticated_200 in Hrun
    as [[Hstatus ->]|(token & u & Htoken & Hne & Hverify & Hrun)].
  { split; [|done]. intros H200. rewrite H200 in Hstatus.
    by destruct Hstatus. }
  unfold put_comment in Hrun. cbn [params body with_user] in Hrun.
  destruct (findById (params req !! "commentId") (comments db))
    as [comment|] eqn:Hfind;
    [|injection Hrun as <- <-; split; [discriminate|done]].
  cbn [req_user_id user with_user] in Hrun.
  destruct (String.eqb_spec (user_id comment) (Http._id u)) as [Howner|];
    [|injection Hrun as <- <-; split; [discriminate|done]].
  cbn [negb] in Hrun.
  destruct (save _ _ db) as [db1|] eqn:Hsave;
    [|injection Hrun as <- <-; split; [discriminate|done]].
  injection Hrun as <- <-. split; [intros _|done].
  unfold save in Hsave.
  apply try_bind_Ok in Hsave as (? & _ & Hsave).
  injection Hsave as <-.
  unfold findById in Hfind.
  destruct (params req !! "commentId") as [id|]; [|discriminate].
  assert (Hkey := Hk _ _ Hfind). simpl in Hkey.
  exists token, u, id, comment.
  split_and!; try done.
  simpl. by rewrite <- Hkey.
Qed.

(** X23: an update of a comment answered 200 was asked by the author of
    the comment named in the path; it writes that comment and nothing
    else, and in it the text only, which becomes the [commentText] of the
    body. An update answered otherwise writes nothing. *)
Theorem comment_update_writes_text (env : Env) (req : Request) (db db' : DB)
    (res : Response Comment) :
  keyed_comments db ->
  CommentRoutes.router jwt_verify commentText_validator
    PUT_commentId env req db = (res, db') ->
  (status res = 200 ->
   ∃ token u id c,
     bearer_token req = Some token ∧ jwt_verify token = Ok u ∧
     params req !! "commentId" = Some id ∧
     comments db !! id = Some c ∧
     user_id c = Http._id u ∧
     comments db'
     = <[id := mkComment (_id c) (video_id c) (body req !! "commentText")
                 (user_id c) (createdAt c)]> (comments db) ∧
     videos db' = videos db) ∧
  (status res ≠ 200 -> db' = db).
Proof. apply put_outcome. Qed.

(** What a delete of a comment writes, by its answer. *)
Lemma comment_delete_outcome (env : Env) (req : Request) (db db' : DB)
    (res : Response Comment) :
  CommentRoutes.router jwt_verify commentText_validator
    DELETE_commentId env req db = (res, db') ->
  (status res = 200 ->
   ∃ token u id c,
     bearer_token req = Some token ∧ jwt_verify token = Ok u ∧
     params req !! "commentId" = Some id ∧
     comments db !! id = Some c ∧
     user_id c = Http._id u ∧
     comments db' = delete id (comments db) ∧
     videos db' = videos db) ∧
  (status res ≠ 200 -> db' = db).
Proof.
  intros Hrun. simpl in Hrun.
  apply VideoFacts.authenticated_200 in Hrun
    as [[Hstatus ->]|(token & u & Htoken & Hne & Hverify & Hrun)].
  { split; [|done]. intros H200. rewrite H200 in Hstatus.
    by destruct Hstatus. }
  unfold delete_comment in Hrun. cbn [params with_user] in Hrun.
  destruct (findById (params req !! "commentId") (comments db))
    as [comment|] eqn:Hfind;
    [|injection Hrun as <- <-; split; [discriminate|done]].
  cbn [req_user_id user with_user] in Hrun.
  destruct (String.eqb_spec (user_id comment) (Http._id u)) as [Howner|];
    [|injection Hrun as <- <-; split; [discriminate|done]].
  cbn [negb] in Hrun. injection Hrun as <- <-. split; [intros _|done].
  unfold findById in Hfind. unfold findByIdAndDelete.
  destruct (params req !! "commentId") as [id|]; [|discriminate].
  by exists token, u, id, comment.
Qed.

(** X24: a delete of a comment answered 200 was asked by the author of the
    comment named in the path, and removes that comment and nothing else.
    A delete answered otherwise writes nothing. *)
Theorem comment_delete_removes_one (env : Env) (req : Request) (db db' : DB)
    (res : Response Comment) :
  CommentRoutes.router jwt_verify commentText_validator
    DELETE_commentId env req db = (res, db') ->
  (status res = 200 ->
   ∃ token u id c,
     bearer_token req = Some token ∧ jwt_verify token = Ok u ∧
     params req !! "commentId" = Some id ∧
     comments db !! id = Some c ∧
     user_id c = Http._id u ∧
     comments db' = delete id (comments db) ∧
     videos db' = videos db) ∧
  (status res ≠ 200 -> db' = db).
Proof. apply comment_delete_outcome. Qed.


(** One request keeps the comments keyed. *)
Lemma serve_keyed_comments (e : Event) (db : DB) :
  keyed_comments db ->
  keyed_comments (snd (serve jwt_verify commentText_validator e db)).
Proof.
  intros Hc. unfold serve. destruct e as [[route|route] env req]; simpl.
  - assert (Hsame := StoreFacts.video_router_comments jwt_verify
                       route env req db).
    destruct (VideoRoutes.router _ route env req db) as [res db'].
    simpl in *. unfold keyed_comments. by rewrite Hsame.
  - assert (Hkept := StoreFacts.comment_router_keyed jwt_verify
                       commentText_validator route env req db Hc).
    by destruct (CommentRoutes.router _ _ route env req db) as [res db'].
Qed.

(** One request and a stored comment: the comment is stored as it was
    afterwards, unless the request carries a token of its author. *)
Lemma serve_comment_guarded (e : Event) (db : DB) (id : string) (c : Comment) :
  keyed_comments db ->
  comments db !! id = Some c ->
  comments (snd (serve jwt_verify commentText_validator e db)) !! id = Some c ∨
  token_of jwt_verify e (user_id c).
Proof.
  intros Hk Hc. unfold serve. destruct e as [[route|route] env req]; simpl.
  - assert (Hsame := StoreFacts.video_router_comments jwt_verify
                       route env req db).
    destruct (VideoRoutes.router _ route env req db) as [res db'].
    simpl in *. left. by rewrite Hsame.
  - destruct (CommentRoutes.router jwt_verify commentText_validator
                route env req db) as [res db'] eqn:Hrun.
    simpl. destruct route.
    + destruct (new_outcome _ _ _ _ _ Hrun) as [Hdone Hnot].
      destruct (decide (status res = 201)) as [H201|Hother];
        [|rewrite (Hnot Hother); by left].
      destruct (Hdone H201)
        as (token & u & vid & text & _ & _ & _ & _ & _ & _ & Hfresh & -> & _).
      left. rewrite lookup_insert_ne; [done|congruence].
    + destruct (comment_delete_outcome _ _ _ _ _ Hrun) as [Hdone Hnot].
      destruct (decide (status res = 200)) as [H200|Hother];
        [|rewrite (Hnot Hother); by left].
      destruct (Hdone H200)
        as (token & u & id' & c' & Htoken & Hverify & _ & Hc' & Howner & -> & _).
      destruct (decide (id = id')) as [->|Hne].
      * right. exists token, u. split_and!; [done|done|congruence].
      * left. by rewrite lookup_delete_ne.
    + destruct (put_outcome _ _ _ _ _ Hk Hrun) as [Hdone Hnot].
      destruct (decide (status res = 200)) as [H200|Hother];
        [|rewrite (Hnot Hother); by left].
      destruct (Hdone H200)
        as (token & u & id' & c' & Htoken & Hverify & _ & Hc' & Howner & -> & _).
      destruct (decide (id = id')) as [->|Hne].
      * right. exists token, u. split_and!; [done|done|congruence].
      * left. by rewrite lookup_insert_ne.
    + simpl in Hrun. unfold authenticated in Hrun.
      destruct (checkAuth jwt_verify req); injection Hrun as <- <-; by left.
Qed.

(** X26: only the author changes or removes a comment: along requests
    none of which carries a token that verifies to the author of the
    comment, the comment stays stored as it was. *)
Theorem author_controls_comment (es : list Event) (db : DB) (id : string)
    (c : Comment) :
  keyed_comments db ->
  comments db !! id = Some c ->
  Forall (fun e => ¬ token_of jwt_verify e (user_id c)) es ->
  comments (run jwt_verify commentText_validator es db) !! id = Some c.
Proof.
  revert db. induction es as [|e es IH]; intros db Hk Hc Hes; [done|].
  apply Forall_cons in Hes as [He Hes]. simpl.
  apply IH; [by apply serve_keyed_comments| |done].
  by destruct (serve_comment_guarded e db id c Hk Hc).
Qed.

End Router.

End CommentFacts.

(** ** The route that adds a comment, over a parsed JSON body *)

Module JsonBodyFacts.
Import CommentModel JsonBody.

Section Values.

Variable Number : Type.
Variable Number_falsy : Number -> bool.
Variable jwt_verify : string -> Try User.
Variable commentText_validator : option string -> Try unit.
Variable cast_video_id : BodyValue Number -> Try string.
Variable cast_commentText : BodyValue Number -> Try string.

(** [Boolean(value)] is false on the falsy values and on no other. *)
Lemma ToBoolean_false (value : option (BodyValue Number)) :
  ToBoolean Number_falsy value = false ↔ falsy Number_falsy value.
Proof.
  unfold falsy. split.
  - destruct value as [[|b|x|s|items|fields]|]; simpl; intros H.
    + by right; left.
    + subst b. by right; right; left.
    + apply negb_false_iff in H. right; right; right; left. by exists x.
    + apply negb_false_iff, String.eqb_eq in H. subst s.
      by right; right; right; right.
    + discriminate.
    + discriminate.
    + by left.
  - intros [-> | [-> | [-> | [(x & -> & Hx) | ->]]]]; simpl;
      [done|done|done| |done].
    by rewrite Hx.
Qed.

(** On a body of strings that are cast to themselves, the route is the
    route of the comment router. *)
Lemma new_of_strings (env : Env) (req : Request) (db : DB) :
  (∀ s, cast_video_id (BString s) = Ok s) ->
  (∀ s, cast_commentText (BString s) = Ok s) ->
  new Number_falsy commentText_validator cast_video_id cast_commentText
    env (BString <$> body req) req db
  = CommentRoutes.new commentText_validator env req db.
Proof.
  intros Hvid Htext. unfold new, CommentRoutes.new.
  rewrite !lookup_fmap.
  destruct (body req !! "video_id") as [vid|]; simpl; [|done].
  destruct (body req !! "commentText") as [text|]; simpl.
  - destruct (negb (String.eqb vid "") && negb (String.eqb text "")) eqn:Hguard.
    + apply andb_true_iff in Hguard as [-> ->]. simpl.
      rewrite Hvid, Htext.
      by destruct (CommentRoutes.req_user_id req).
    + apply andb_false_iff in Hguard as [->| ->]; simpl; [done|].
      by rewrite orb_true_r.
  - by rewrite orb_true_r.
Qed.

(** X22: a request to add a comment by a caller whose token verifies is
    answered 400 exactly when the [video_id] or the [commentText] of the
    parsed body is falsy: missing, [null], [false], a falsy Number ([0]) or
    the empty string. Whatever the casts and the validators of the schema
    do decides between 201 and 500 only. *)
Theorem new_comment_400_iff (env : Env) (body : gmap string (BodyValue Number))
    (req : Request) (db : DB) (token : string) (u : User) :
  bearer_token req = Some token -> token ≠ "" ->
  jwt_verify token = Ok u ->
  status (fst (authenticated jwt_verify
                 (new Number_falsy commentText_validator cast_video_id
                    cast_commentText env body) req db)) = 400
  ↔ falsy Number_falsy (body !! "video_id") ∨
    falsy Number_falsy (body !! "commentText").
Proof.
  intros Htoken Hne Hverify.
  rewrite (authenticated_pass _ _ _ _ _
             (BoundaryFacts.checkAuth_valid jwt_verify (D := Comment) _ _ _
                Htoken Hne Hverify)).
  rewrite <- !ToBoolean_false. unfold new.
  destruct (body !! "video_id") as [vid|] eqn:Hvid;
    [|split; [by left|done]].
  destruct (body !! "commentText") as [text|] eqn:Htext;
    [|split; [by right|done]].
  destruct (ToBoolean Number_falsy (Some vid));
    [|split; [by left|done]].
  destruct (ToBoolean Number_falsy (Some text));
    [|split; [by right|done]].
  cbn [negb orb].
  match goal with
  | |- context [match ?attempt with Ok _ => _ | Throw _ => _ end] =>
      destruct attempt as [[newComment db1]|]
  end; simpl; split; try discriminate; by intros [|].
Qed.

End Values.

End JsonBodyFacts.

(** ** The user router *)

Module UserFacts.
Import UserModel UserRoutes.

Section Router.

Variable bcrypt_compare : option string -> string -> Try bool.
Variable User_validator : UserDoc -> Try unit.
Variable default_subscribers : list string.
Variable default_subscribedChannels : list string.
Variable findOne_undefined : Users -> option UserDoc.

(** The token and the fields the login route sends for a stored user. *)
Lemma login_found (env : UserEnv) (req : Request) (users : Users)
    (e : string) (existing : UserDoc) :
  body req !! "email" = Some e ->
  List.find (fun u => bool_decide (email u = Some e)) users = Some existing ->
  bcrypt_compare (body req !! "password") (password existing) = Ok true ->
  login bcrypt_compare findOne_undefined env req users
  = (200,
     LoggedIn
       (mkAuthResponse (_id existing) (channelName existing) (email existing)
          (phone existing) (logoId existing) (logoUrl existing)
          (jwt_sign env
             (mkTokenPayload (_id existing) (channelName existing)
                (email existing) (phone existing) (logoId existing)))
          (subscribers existing) (subscribedChannels existing)),
     users).
Proof.
  intros Hemail Hfind Hcompare. unfold login, findOne_email.
  by rewrite Hemail, Hfind, Hcompare.
Qed.

(** X27: the login route writes nothing. It answers 404 exactly when no
    stored user has the email of the body, and 200 exactly when
    [bcrypt.compare] accepts the password of the body against the stored
    hash of the first user with that email; a password that is not
    accepted is answered 500. *)
Theorem login_outcomes (env : UserEnv) (req : Request) (users : Users)
    (e : string) :
  body req !! "email" = Some e ->
  let '(code, _, users') :=
    login bcrypt_compare findOne_undefined env req users in
  users' = users ∧
  (code = 404 ↔ ∀ u, u ∈ users -> email u ≠ Some e) ∧
  (code = 200 ↔
   ∃ existing,
     List.find (fun u => bool_decide (email u = Some e)) users = Some existing ∧
     bcrypt_compare (body req !! "password") (password existing) = Ok true) ∧
  (code = 404 ∨ code = 200 ∨ code = 500).
Proof.
  intros Hemail. unfold login, findOne_email. rewrite Hemail.
  destruct (List.find _ users) as [existing|] eqn:Hfind.
  - apply find_some in Hfind as Hin. destruct Hin as [Hin Hmatch].
    apply bool_decide_eq_true in Hmatch. apply list_elem_of_In in Hin.
    destruct (bcrypt_compare _ _) as [[|]|] eqn:Hcompare; simpl;
      (split_and!; [done| | |by eauto]).
    + split; [done|]. intros Hnone. by destruct (Hnone existing Hin).
    + split; [intros _; by exists existing|done].
    + split; [done|]. intros Hnone. by destruct (Hnone existing Hin).
    + split; [done|]. intros (? & [= <-] & ?). congruence.
    + split; [done|]. intros Hnone. by destruct (Hnone existing Hin).
    + split; [done|]. intros (? & [= <-] & ?). congruence.
  - split_and!; [done| | |by left].
    + split; [intros _|done]. intros u Hin Hu.
      apply list_elem_of_In in Hin.
      apply (find_none _ _ Hfind) in Hin.
      by apply bool_decide_eq_false in Hin.
    + split; [done|]. by intros (? & ? & _).
Qed.

(** What the signup route stores when it answers 201. *)
Lemma signup_stored (env : UserEnv) (req : Request) (users users' : Users)
    (b : Body) :
  signup User_validator default_subscribers default_subscribedChannels
    env req users = (201, b, users') ->
  ∃ hashedPassword newUser,
    bcrypt_hash env (body req !! "password") = Ok hashedPassword ∧
    b = SignedUp newUser ∧
    users' = (users ++ [newUser])%list ∧
    _id newUser = user_ObjectId_new env ∧
    email newUser = body req !! "email" ∧
    password newUser = hashedPassword ∧
    Forall (fun u => _id u ≠ _id newUser ∧ email u ≠ email newUser) users.
Proof.
  unfold signup.
  match goal with
  | |- context [match ?attempt with Ok _ => _ | Throw _ => _ end] =>
      destruct attempt as [[newUser users1]|] eqn:Hattempt
  end; [|discriminate].
  intros [= <- <-].
  apply try_bind_Ok in Hattempt as (hashedPassword & Hhash & Hattempt).
  apply try_bind_Ok in Hattempt as (path & _ & Hattempt).
  apply try_bind_Ok in Hattempt as (uploadImage & _ & Hattempt).
  apply try_bind_Ok in Hattempt as (users2 & Hsave & Hattempt).
  injection Hattempt as <- <-.
  unfold save_new in Hsave.
  apply try_bind_Ok in Hsave as (? & _ & Hsave).
  case_bool_decide as Hdup; [discriminate|]. injection Hsave as <-.
  eexists hashedPassword, _. split_and!; try done.
  apply Forall_forall. intros u Hin. split; intros Heq;
    apply Hdup, Exists_exists; exists u; split; auto.
Qed.

(** X28: a user who signed up can log in: after a signup answered 201, a
    login with the same email and password is answered 200 for the new
    user, provided [bcrypt.compare] accepts a password against the hash
    [bcrypt.hash] made of it. *)
Theorem signup_then_login (env1 env2 : UserEnv) (req1 req2 : Request)
    (users users1 : Users) (b : Body) (e : string) :
  signup User_validator default_subscribers default_subscribedChannels
    env1 req1 users = (201, b, users1) ->
  body req1 !! "email" = Some e ->
  body req2 !! "email" = Some e ->
  body req2 !! "password" = body req1 !! "password" ->
  (∀ h, bcrypt_hash env1 (body req1 !! "password") = Ok h ->
        bcrypt_compare (body req1 !! "password") h = Ok true) ->
  ∃ auth,
    login bcrypt_compare findOne_undefined env2 req2 users1
    = (200, LoggedIn auth, users1) ∧
    auth_id auth = user_ObjectId_new env1 ∧
    auth_email auth = Some e.
Proof.
  intros Hsignup He1 He2 Hpw Hbcrypt.
  destruct (signup_stored _ _ _ _ _ Hsignup)
    as (h & newUser & Hhash & -> & -> & Hid & Hemail & Hpassword & Hfresh).
  assert (Hfind : List.find (fun u => bool_decide (email u = Some e))
                    (users ++ [newUser])%list = Some newUser).
  { rewrite He1 in Hemail. clear Hsignup.
    induction users as [|u users IH]; simpl.
    - by rewrite bool_decide_eq_true_2.
    - apply Forall_cons in Hfresh as [[_ Hu] Hfresh].
      rewrite bool_decide_eq_false_2 by congruence. by apply IH. }
  eexists. split_and!.
  - apply (login_found env2 req2 _ e newUser); [done|done|].
    rewrite Hpw, Hpassword. by apply Hbcrypt.
  - done.
  - simpl. congruence.
Qed.

Variable jwt_verify : string -> Try User.

(** X29: a video uploaded with the token a login sent is owned by the user
    who logged in, provided [jwt.verify] gives back the [_id] that
    [jwt.sign] was given and the token has no space in it. *)
Theorem login_token_uploads_as_owner (uenv : UserEnv) (env : Env)
    (req1 req2 : Request) (users users' : Users) (auth : AuthResponse)
    (db db' : DB) (res : Response VideoModel.Video) :
  login bcrypt_compare findOne_undefined uenv req1 users
  = (200, LoggedIn auth, users') ->
  (∀ payload, ∃ u, jwt_verify (jwt_sign uenv payload) = Ok u ∧
                   Http._id u = payload_id payload) ->
  has_char " " (auth_token auth) = false ->
  authorization req2 = Some ("Bearer " +:+ auth_token auth) ->
  VideoRoutes.router jwt_verify VideoRoutes.POST_upload env req2 db
  = (res, db') ->
  status res = 200 ->
  ∃ v, videos db' !! ObjectId_new env = Some v ∧
       VideoModel.user_id v = auth_id auth.
Proof.
  intros Hlogin Hjwt Hspace Hheader Hupload H200.
  assert (Htoken : ∃ payload,
            auth_token auth = jwt_sign uenv payload ∧
            payload_id payload = auth_id auth).
  { unfold login in Hlogin.
    destruct (findOne_email _ _ _) as [existing|]; [|discriminate].
    destruct (bcrypt_compare _ _) as [[|]|]; try discriminate.
    simpl in Hlogin. injection Hlogin as <- _. by eexists. }
  destruct Htoken as (payload & Htoken & Hpid).
  destruct (Hjwt payload) as (u & Hverify & Hu).
  assert (Hbearer : bearer_token req2 = Some (auth_token auth)).
  { apply (TokenFacts.bearer_token_second_word req2 "Bearer"
             (auth_token auth) ""); [done|done|by left]. }
  destruct (VideoFacts.upload_outcome jwt_verify _ _ _ _ _ Hupload)
    as [Hdone _].
  destruct (Hdone H200)
    as (token & u' & v & Htoken' & Hverify' & _ & Hvideos & _ & _ & Howner & _).
  assert (token = auth_token auth) as -> by congruence.
  rewrite Htoken in Hverify'.
  assert (u' = u) as -> by congruence.
  exists v. split; [|congruence].
  rewrite Hvideos. apply lookup_insert_eq.
Qed.

End Router.

End UserFacts.

(** ** The further properties on the sample data *)

Module TokenExamples.

Lemma checkAuth_any_scheme_witness :
  let jwt_verify := Sample.verify in
  let D := VideoModel.Video in
  let req := Fixtures.tokenA_other_scheme in
  let token := "tokenA" in
  checkAuth (D := D) jwt_verify req
  = match jwt_verify token with
    | Ok decodedUser => inr (with_user req decodedUser)
    | Throw message => inl (caught "something is wrong in auth" message)
    end.
Proof.
  intros jwt_verify D req token.
  apply (TokenFacts.checkAuth_any_scheme
           jwt_verify (D := D) req "Token" token "trailing");
    [reflexivity
    |reflexivity
    |discriminate
    |by right].
Defined.

Lemma store_change_needs_token_witness :
  let jwt_verify := Sample.verify in
  let commentText_validator := Sample.no_validator in
  let e := Fixtures.like_by_A in
  let db := Sample.db0 in
  ∃ token u,
    bearer_token (request e) = Some token ∧ token ≠ "" ∧
    jwt_verify token = Ok u.
Proof.
  intros jwt_verify commentText_validator e db.
  apply (TokenFacts.store_change_needs_token
           jwt_verify commentText_validator e db);
    [vm_compute; discriminate].
Defined.

End TokenExamples.

Module ListingExamples.
Import VideoModel VideoRoutes.

(** On three videos: the newest first, each once. *)
Lemma all_lists_every_video_witness :
  let jwt_verify := Sample.verify in
  let env := Sample.offline in
  let req := Fixtures.anonymous in
  let db := Fixtures.library in
  let res := fst (router jwt_verify GET_all env req db) in
  listed res = [Fixtures.W; Fixtures.V_seen; Fixtures.V0] ∧
  (snd (router jwt_verify GET_all env req db) = db ∧
   status res = 200 ∧
   (∀ v, v ∈ listed res ↔ ∃ id, videos db !! id = Some v) ∧
   NoDup (listed res) ∧
   StronglySorted newer_first (listed res)).
Proof.
  intros jwt_verify env req db. split; [reflexivity|].
  apply (ListingFacts.all_lists_every_video
           jwt_verify env req db);
    [apply Examples.library_keyed_videos].
Defined.

(** On three videos, two of them of the caller [A]: the video of [B] is
    not listed, and the newer video of [A] comes first. *)
Lemma my_videos_lists_own_witness :
  let jwt_verify := Sample.verify in
  let env := Sample.offline in
  let req := Sample.reactA in
  let db := Fixtures.library in
  let u := Sample.A in
  let res := fst (router jwt_verify GET_my_videos env req db) in
  listed res = [Fixtures.V_seen; Fixtures.V0] ∧
  user_id Fixtures.W ≠ Http._id u ∧
  (snd (router jwt_verify GET_my_videos env req db) = db ∧
   status res = 200 ∧
   (∀ v, v ∈ listed res ↔
         (∃ id, videos db !! id = Some v) ∧ user_id v = Http._id u) ∧
   StronglySorted newer_first (listed res)).
Proof.
  intros jwt_verify env req db u. split; [reflexivity|split; [discriminate|]].
  apply (ListingFacts.my_videos_lists_own
           jwt_verify env req db "tokenA" u);
    [reflexivity
    |discriminate
    |reflexivity].
Defined.

End ListingExamples.

Module EvolutionExamples.
Import VideoModel VideoRoutes Evolution.


(** The requests of the second sequence carry the token of [B], who does
    not own [V]. *)
Lemma no_owner_tokens :
  Forall (fun e => ¬ token_of Sample.verify e (user_id Sample.V))
    Fixtures.attempts_by_B.
Proof.
  repeat constructor; intros (token & u & [= <-] & [= <-] & [=]).
Qed.




Lemma owner_controls_metadata_witness :
  let jwt_verify := Sample.verify in
  let commentText_validator := Sample.no_validator in
  let es := Fixtures.attempts_by_B in
  let db := Sample.db0 in
  let id := VideoModel._id Sample.V in
  let v := Sample.V in
  ∃ v', videos (run jwt_verify commentText_validator es db) !! id = Some v' ∧
        same_metadata v v' ∧ user_id v' = user_id v.
Proof.
  intros jwt_verify commentText_validator es db id v.
  apply (EvolutionFacts.owner_controls_metadata
           jwt_verify commentText_validator es db id v);
    [apply Examples.db0_keyed_videos
    |reflexivity
    |apply no_owner_tokens].
Defined.

End EvolutionExamples.

Module VideoExamples.
Import VideoModel VideoRoutes Evolution.

(** An upload with the tags text "fun,,pets and more". *)
Lemma upload_adds_one_video_witness :
  let jwt_verify := Sample.verify in
  let env := Fixtures.online in
  let req := Fixtures.uploadB_tags in
  let db := Fixtures.library in
  let res := fst (router jwt_verify POST_upload env req db) in
  let db' := snd (router jwt_verify POST_upload env req db) in
  status res = 200 ∧
  tags <$> videos db' !! ObjectId_new env
  = Some ["fun"; ""; "pets and more"] ∧
  ((status res = 200 ->
    ∃ token u v,
      bearer_token req = Some token ∧ jwt_verify token = Ok u ∧
      videos db !! ObjectId_new env = None ∧
      videos db' = <[ObjectId_new env := v]> (videos db) ∧
      comments db' = comments db ∧
      _id v = ObjectId_new env ∧
      user_id v = Http._id u ∧
      title v = body req !! "title" ∧
      description v = body req !! "description" ∧
      category v = body req !! "category" ∧
      (∀ t, body req !! "tags" = Some t -> t ≠ "" ->
            join "," (tags v) = t ∧
            Forall (fun piece => has_char "," piece = false) (tags v)) ∧
      (truthy (body req !! "tags") = false -> tags v = [])) ∧
   (status res ≠ 200 -> db' = db)).
Proof.
  intros jwt_verify env req db res db'.
  split; [reflexivity|split; [reflexivity|]].
  apply (VideoFacts.upload_adds_one_video
           jwt_verify env req db db' res);
    [reflexivity].
Defined.

Lemma uploader_owns_video_witness :
  let jwt_verify := Sample.verify in
  let commentText_validator := Sample.no_validator in
  let e1 := Fixtures.upload_by_A in
  let e2 := Fixtures.delete_uploaded_by_B in
  let db := Sample.db0 in
  let db1 := snd (serve jwt_verify commentText_validator e1 db) in
  serve jwt_verify commentText_validator e2 db1 = (403, db1).
Proof.
  intros jwt_verify commentText_validator e1 e2 db db1.
  apply (VideoFacts.uploader_owns_video
           jwt_verify commentText_validator e1 e2 db db1 "tokenA" "tokenB"
           Sample.A Sample.B);
    [reflexivity
    |reflexivity
    |reflexivity
    |reflexivity
    |by right
    |reflexivity
    |reflexivity
    |discriminate
    |reflexivity
    |discriminate].
Defined.

Lemma update_frame_witness :
  let jwt_verify := Sample.verify in
  let env := Sample.offline in
  let req := Fixtures.renameA in
  let db := Sample.db0 in
  let res := fst (router jwt_verify PUT_update env req db) in
  let db' := snd (router jwt_verify PUT_update env req db) in
  (status res = 200 ->
   ∃ id v v',
     params req !! "id" = Some id ∧
     videos db !! id = Some v ∧
     videos db' = <[id := v']> (videos db) ∧
     comments db' = comments db ∧
     same_identity v v' ∧
     likes v' = likes v ∧ dislikes v' = dislikes v ∧
     viewedBy v' = viewedBy v ∧
     ((∀ fs, files req = Some fs -> fs !! "thumbnail" = None) ->
      thumbnailUrl v' = thumbnailUrl v ∧ thumbnailId v' = thumbnailId v)) ∧
  (status res ≠ 200 -> db' = db).
Proof.
  intros jwt_verify env req db res db'.
  apply (VideoFacts.update_frame
           jwt_verify env req db db' res);
    [apply Examples.db0_keyed_videos
    |reflexivity].
Defined.

Lemma update_keeps_nonempty_witness :
  let jwt_verify := Sample.verify in
  let env := Sample.offline in
  let req := Fixtures.renameA in
  let db := Sample.db0 in
  let id := VideoModel._id Sample.V in
  let v := Sample.V in
  ∃ v', videos (snd (router jwt_verify PUT_update env req db)) !! id = Some v' ∧
        (truthy (title v) = true -> truthy (title v') = true) ∧
        (truthy (description v) = true -> truthy (description v') = true) ∧
        (truthy (category v) = true -> truthy (category v') = true).
Proof.
  intros jwt_verify env req db id v.
  apply (VideoFacts.update_keeps_nonempty
           jwt_verify env req db id v);
    [apply Examples.db0_keyed_videos
    |reflexivity].
Defined.

Lemma update_without_fields_witness :
  let jwt_verify := Sample.verify in
  let env := Sample.offline in
  let req := Fixtures.pathA in
  let db := Sample.db0 in
  let v := Sample.V in
  router jwt_verify PUT_update env req db
  = (mkResponse 200
       (JObject [("message", VString "Video updated successfully");
                 ("video", VDoc v)]), db).
Proof.
  intros jwt_verify env req db v.
  apply (VideoFacts.update_without_fields
           jwt_verify env req db "tokenA" Sample.A (_id v) v);
    [apply Examples.db0_keyed_videos
    |reflexivity
    |discriminate
    |reflexivity
    |reflexivity
    |reflexivity
    |reflexivity
    |reflexivity
    |reflexivity
    |reflexivity
    |reflexivity
    |intros fs [=]].
Defined.

Lemma delete_removes_one_video_witness :
  let jwt_verify := Sample.verify in
  let env := Fixtures.online in
  let req := Fixtures.pathA in
  let db := Sample.db0 in
  let res := fst (router jwt_verify DELETE_delete env req db) in
  let db' := snd (router jwt_verify DELETE_delete env req db) in
  (status res = 200 ->
   ∃ id v,
     params req !! "id" = Some id ∧
     videos db !! id = Some v ∧
     videos db' = delete id (videos db) ∧
     comments db' = comments db) ∧
  (status res ≠ 200 -> db' = db).
Proof.
  intros jwt_verify env req db res db'.
  apply (VideoFacts.delete_removes_one_video
           jwt_verify env req db db' res);
    [reflexivity].
Defined.

Lemma deleted_video_is_gone_witness :
  let jwt_verify := Sample.verify in
  let commentText_validator := Sample.no_validator in
  let e1 := Fixtures.delete_by_A in
  let e2 := Fixtures.like_by_B in
  let db := Sample.db0 in
  let db1 := snd (serve jwt_verify commentText_validator e1 db) in
  serve jwt_verify commentText_validator e2 db1 = (404, db1).
Proof.
  intros jwt_verify commentText_validator e1 e2 db db1.
  apply (VideoFacts.deleted_video_is_gone
           jwt_verify commentText_validator e1 e2 db db1 (VideoModel._id
           Sample.V) "tokenB" Sample.B);
    [reflexivity
    |reflexivity
    |reflexivity
    |reflexivity
    |reflexivity
    |discriminate
    |reflexivity].
Defined.

Lemma view_adds_caller_witness :
  let jwt_verify := Sample.verify in
  let env := Sample.offline in
  let req := Fixtures.pathB in
  let db := Sample.db0 in
  let res := fst (router jwt_verify GET_id env req db) in
  let db' := snd (router jwt_verify GET_id env req db) in
  ∃ token u id v v',
    bearer_token req = Some token ∧ jwt_verify token = Ok u ∧
    params req !! "id" = Some id ∧
    videos db !! id = Some v ∧
    videos db' = <[id := v']> (videos db) ∧
    comments db' = comments db ∧
    json res = JValue (VDoc v') ∧
    viewedBy v' = (if decide (Http._id u ∈ viewedBy v) then viewedBy v
                   else viewedBy v ++ [Http._id u])%list ∧
    same_identity v v' ∧ same_metadata v v' ∧
    likes v' = likes v ∧ dislikes v' = dislikes v.
Proof.
  intros jwt_verify env req db res db'.
  apply (VideoFacts.view_adds_caller
           jwt_verify env req db db' res);
    [apply Examples.db0_keyed_videos
    |reflexivity
    |reflexivity].
Defined.

Lemma reaction_ignores_caller_witness :
  let jwt_verify := Sample.verify in
  let env1 := Sample.offline in
  let env2 := Fixtures.online in
  let req1 := Sample.reactA in
  let req2 := Sample.reactB in
  let db := Sample.db0 in
  router jwt_verify POST_like env1 req1 db
  = router jwt_verify POST_like env2 req2 db ∧
  router jwt_verify POST_dislike env1 req1 db
  = router jwt_verify POST_dislike env2 req2 db.
Proof.
  intros jwt_verify env1 env2 req1 req2 db.
  apply (VideoFacts.reaction_ignores_caller
           jwt_verify env1 env2 req1 req2 db "tokenA" "tokenB" Sample.A
           Sample.B);
    [reflexivity
    |discriminate
    |reflexivity
    |reflexivity
    |discriminate
    |reflexivity
    |reflexivity].
Defined.

(** A like of a video with 3 likes and 2 dislikes takes a dislike away:
    the sum stays 5. *)
Lemma reactions_total_grows_slowly_witness :
  let jwt_verify := Sample.verify in
  let route := POST_like in
  let env := Sample.offline in
  let req := Sample.reactA in
  let db := Fixtures.library in
  let id := VideoModel._id Sample.V in
  let v := Fixtures.V_seen in
  Reactions.counts_of db id = Some (3, 2) ∧
  Reactions.counts_of (snd (router jwt_verify route env req db)) id
  = Some (4, 1) ∧
  ∃ v', videos (snd (router jwt_verify route env req db)) !! id = Some v' ∧
        likes v + dislikes v <= likes v' + dislikes v' ∧
        likes v' + dislikes v' <= likes v + dislikes v + 1.
Proof.
  intros jwt_verify route env req db id v.
  split; [reflexivity|split; [reflexivity|]].
  apply (VideoFacts.reactions_total_grows_slowly
           jwt_verify route env req db id v);
    [apply Examples.library_keyed_videos
    |by left
    |reflexivity
    |unfold MAX_SAFE_INTEGER; simpl; lia
    |unfold MAX_SAFE_INTEGER; simpl; lia].
Defined.

(** On a video with 3 likes and 2 dislikes, and on one with none. *)
Lemma like_then_dislike_witness :
  let jwt_verify := Sample.verify in
  let env1 := Sample.offline in
  let env2 := Sample.offline in
  let req1 := Sample.reactA in
  let req2 := Sample.reactB in
  let id := VideoModel._id Sample.V in
  let after db :=
    snd (router jwt_verify POST_dislike env2 req2
           (snd (router jwt_verify POST_like env1 req1 db))) in
  Reactions.counts_of (after Fixtures.library) id = Some (3, 2) ∧
  Reactions.counts_of (after Sample.db0) id = Some (0, 1) ∧
  Reactions.counts_of (after Fixtures.library) id
  = Some (likes Fixtures.V_seen, Z.max (dislikes Fixtures.V_seen) 1).
Proof.
  intros jwt_verify env1 env2 req1 req2 id after.
  split; [reflexivity|split; [reflexivity|]].
  apply (VideoFacts.like_then_dislike
           jwt_verify env1 env2 req1 req2 Fixtures.library "tokenA" "tokenB"
           Sample.A Sample.B id Fixtures.V_seen);
    [apply Examples.library_keyed_videos
    |reflexivity
    |discriminate
    |reflexivity
    |reflexivity
    |discriminate
    |reflexivity
    |reflexivity
    |reflexivity
    |reflexivity
    |unfold MAX_SAFE_INTEGER; simpl; lia
    |unfold MAX_SAFE_INTEGER; simpl; lia].
Defined.

End VideoExamples.

Module CommentExamples.
Import CommentModel CommentRoutes Evolution.

(** The requests of the sequence carry the token of [B], who did not
    write [K]. *)
Lemma no_author_tokens :
  Forall (fun e => ¬ token_of Sample.verify e (user_id Sample.K))
    Fixtures.comment_attempts_by_B.
Proof.
  repeat constructor; intros (token & u & [= <-] & [= <-] & [=]).
Qed.

Lemma new_comment_adds_one_witness :
  let jwt_verify := Sample.verify in
  let commentText_validator := Sample.no_validator in
  let env := Fixtures.online in
  let req := Fixtures.commentB in
  let db := Sample.db0 in
  let res :=
    fst (CommentRoutes.router jwt_verify commentText_validator POST_new env
    req db) in
  let db' :=
    snd (CommentRoutes.router jwt_verify commentText_validator POST_new env
    req db) in
  (status res = 201 ->
   ∃ token u vid text,
     bearer_token req = Some token ∧ jwt_verify token = Ok u ∧
     body req !! "video_id" = Some vid ∧ vid ≠ "" ∧
     body req !! "commentText" = Some text ∧ text ≠ "" ∧
     comments db !! ObjectId_new env = None ∧
     comments db'
     = <[ObjectId_new env :=
           mkComment (ObjectId_new env) vid (Some text) (Http._id u)
             (Date_now env 0%nat)]> (comments db) ∧
     videos db' = videos db) ∧
  (status res ≠ 201 -> db' = db).
Proof.
  intros jwt_verify commentText_validator env req db res db'.
  apply (CommentFacts.new_comment_adds_one
           jwt_verify commentText_validator env req db db' res);
    [reflexivity].
Defined.

(** A body with the text [0] is answered 400, one with a text 201. *)
Lemma new_comment_400_iff_witness :
  let jwt_verify := Sample.verify in
  let Number_falsy := Fixtures.is_zero in
  let post body :=
    authenticated jwt_verify
      (JsonBody.new Number_falsy Sample.no_validator Fixtures.cast_string
         Fixtures.cast_string Fixtures.online body)
      Fixtures.commentB Sample.db0 in
  status (fst (post Fixtures.body_text_zero)) = 400 ∧
  status (fst (post Fixtures.body_text_nice)) = 201 ∧
  (status (fst (post Fixtures.body_text_zero)) = 400
   ↔ JsonBody.falsy Number_falsy (Fixtures.body_text_zero !! "video_id") ∨
     JsonBody.falsy Number_falsy (Fixtures.body_text_zero !! "commentText")).
Proof.
  intros jwt_verify Number_falsy post.
  split; [reflexivity|split; [reflexivity|]].
  apply (JsonBodyFacts.new_comment_400_iff
           Z Number_falsy jwt_verify Sample.no_validator Fixtures.cast_string
           Fixtures.cast_string Fixtures.online Fixtures.body_text_zero
           Fixtures.commentB Sample.db0 "tokenB" Sample.B);
    [reflexivity
    |discriminate
    |reflexivity].
Defined.

Lemma comment_update_writes_text_witness :
  let jwt_verify := Sample.verify in
  let commentText_validator := Sample.no_validator in
  let env := Sample.offline in
  let req := Fixtures.editK in
  let db := Sample.db0 in
  let res :=
    fst (CommentRoutes.router jwt_verify commentText_validator PUT_commentId
    env req db) in
  let db' :=
    snd (CommentRoutes.router jwt_verify commentText_validator PUT_commentId
    env req db) in
  (status res = 200 ->
   ∃ token u id c,
     bearer_token req = Some token ∧ jwt_verify token = Ok u ∧
     params req !! "commentId" = Some id ∧
     comments db !! id = Some c ∧
     user_id c = Http._id u ∧
     comments db'
     = <[id := mkComment (_id c) (video_id c) (body req !! "commentText")
                 (user_id c) (createdAt c)]> (comments db) ∧
     videos db' = videos db) ∧
  (status res ≠ 200 -> db' = db).
Proof.
  intros jwt_verify commentText_validator env req db res db'.
  apply (CommentFacts.comment_update_writes_text
           jwt_verify commentText_validator env req db db' res);
    [apply Examples.db0_keyed_comments
    |reflexivity].
Defined.

Lemma comment_delete_removes_one_witness :
  let jwt_verify := Sample.verify in
  let commentText_validator := Sample.no_validator in
  let env := Sample.offline in
  let req := Fixtures.pathK_A in
  let db := Sample.db0 in
  let res :=
    fst (CommentRoutes.router jwt_verify commentText_validator
    DELETE_commentId env req db) in
  let db' :=
    snd (CommentRoutes.router jwt_verify commentText_validator
    DELETE_commentId env req db) in
  (status res = 200 ->
   ∃ token u id c,
     bearer_token req = Some token ∧ jwt_verify token = Ok u ∧
     params req !! "commentId" = Some id ∧
     comments db !! id = Some c ∧
     user_id c = Http._id u ∧
     comments db' = delete id (comments db) ∧
     videos db' = videos db) ∧
  (status res ≠ 200 -> db' = db).
Proof.
  intros jwt_verify commentText_validator env req db res db'.
  apply (CommentFacts.comment_delete_removes_one
           jwt_verify commentText_validator env req db db' res);
    [reflexivity].
Defined.

Lemma author_controls_comment_witness :
  let jwt_verify := Sample.verify in
  let commentText_validator := Sample.no_validator in
  let es := Fixtures.comment_attempts_by_B in
  let db := Sample.db0 in
  let id := _id Sample.K in
  let c := Sample.K in
  comments (run jwt_verify commentText_validator es db) !! id = Some c.
Proof.
  intros jwt_verify commentText_validator es db id c.
  apply (CommentFacts.author_controls_comment
           jwt_verify commentText_validator es db id c);
    [apply Examples.db0_keyed_comments
    |reflexivity
    |apply no_author_tokens].
Defined.


End CommentExamples.

Module UserExamples.
Import UserModel UserRoutes.

Lemma login_outcomes_witness :
  let bcrypt_compare := Fixtures.compare in
  let findOne_undefined := Fixtures.no_user in
  let env := Fixtures.user_world in
  let req := Fixtures.login_alice in
  let users := [Fixtures.alice] in
  let e := "a@example.com" in
  let '(code, _, users') :=
    login bcrypt_compare findOne_undefined env req users in
  users' = users ∧
  (code = 404 ↔ ∀ u, u ∈ users -> email u ≠ Some e) ∧
  (code = 200 ↔
   ∃ existing,
     List.find (fun u => bool_decide (email u = Some e)) users = Some existing ∧
     bcrypt_compare (body req !! "password") (password existing) = Ok true) ∧
  (code = 404 ∨ code = 200 ∨ code = 500).
Proof.
  intros bcrypt_compare findOne_undefined env req users e.
  apply (UserFacts.login_outcomes
           bcrypt_compare findOne_undefined env req users e);
    [reflexivity].
Defined.

Lemma signup_then_login_witness :
  let bcrypt_compare := Fixtures.compare in
  let User_validator := Fixtures.any_user in
  let default_subscribers := @nil string in
  let default_subscribedChannels := @nil string in
  let findOne_undefined := Fixtures.no_user in
  let env1 := Fixtures.user_world in
  let env2 := Fixtures.user_world in
  let req1 := Fixtures.signup_carol in
  let req2 := Fixtures.login_carol in
  let users := [Fixtures.alice] in
  let users1 :=
    (signup User_validator default_subscribers default_subscribedChannels env1
    req1 users).2 in
  let e := "c@example.com" in
  ∃ auth,
    login bcrypt_compare findOne_undefined env2 req2 users1
    = (200, LoggedIn auth, users1) ∧
    auth_id auth = user_ObjectId_new env1 ∧
    auth_email auth = Some e.
Proof.
  intros bcrypt_compare User_validator default_subscribers
    default_subscribedChannels findOne_undefined env1 env2 req1 req2 users
    users1 e.
  apply (UserFacts.signup_then_login
           bcrypt_compare User_validator default_subscribers
           default_subscribedChannels findOne_undefined env1 env2 req1 req2
           users users1 (SignedUp Fixtures.carol) e);
    [reflexivity
    |reflexivity
    |reflexivity
    |reflexivity
    |by intros h [= <-]].
Defined.

Lemma login_token_uploads_as_owner_witness :
  let bcrypt_compare := Fixtures.compare in
  let findOne_undefined := Fixtures.no_user in
  let jwt_verify := Fixtures.verify_signed in
  let uenv := Fixtures.user_world in
  let env := Fixtures.online in
  let req1 := Fixtures.login_alice in
  let req2 := Fixtures.upload_alice in
  let users := [Fixtures.alice] in
  let db := Sample.db0 in
  let auth := Fixtures.alice_logged_in in
  let res :=
    fst (VideoRoutes.router jwt_verify VideoRoutes.POST_upload env req2 db) in
  let db' :=
    snd (VideoRoutes.router jwt_verify VideoRoutes.POST_upload env req2 db) in
  ∃ v, videos db' !! ObjectId_new env = Some v ∧
       VideoModel.user_id v = auth_id auth.
Proof.
  intros bcrypt_compare findOne_undefined jwt_verify uenv env req1 req2 users
    db auth res db'.
  apply (UserFacts.login_token_uploads_as_owner
           bcrypt_compare findOne_undefined jwt_verify uenv env req1 req2
           users users auth db db' res);
    [reflexivity
    |intros payload; by eexists
    |reflexivity
    |reflexivity
    |reflexivity
    |reflexivity].
Defined.

End UserExamples.
